(** * EventO backend: booking lifecycle, payment reconciliation and listing

    A shallow embedding of the request handlers of the EventO booking
    backend (Express + Mongoose) and the properties of its booking status
    updates, payment confirmation paths, reads and listing pagination.

    Sources embedded here:
    - [controllers/bookings.js]  getBooking, createBooking, updateBookingStatus
    - [controllers/payments.js]  createPaymentIntent, confirmPayment,
                                 stripeWebhook, getPaymentDetails
    - [controllers/venues.js]    getVenues
    - [controllers/services.js]  getServiceProviders
    - [models/Booking.js]        BookingSchema and its pre-save hook

    and, further down, the rest of the bookings controller, the reads and
    deletions of single hosts, the [authorize] middleware and the routes
    that it guards.

    Conventions of the embedding.
    - A handler is a function from the [World] (the three collections and
      the logs of the external services) to an HTTP response and the new
      world.  [return res.status(..).json(..)] is an early [reply]; a
      JavaScript exception is a [throw] that the handler's own [catch]
      block turns into a response.
    - A field that may be [undefined] is an [option]; a JavaScript Number is
      a binary64 float, and the integral Number that [Math.round] returns
      is given by the integer that it denotes.
    - The caller of a protected route is a user or a host.  The document
      of a user is on the request; that of a host is not, since the
      middleware's assignment to [req.host] does not take effect, and
      [req.host.id] is [undefined] in every handler.
    - A date of a request body is given by what [new Date(..)] and the
      schema's cast each make of it.
    - The mail and SMS transports and the payment provider are outside the
      repository: a call to them is recorded in a log of the world
      ([outbox], [charges]) and returns normally.
    - A reference to another document may dangle: [findById] then gives
      [null], and reading a field of it raises a TypeError.
    - An identifier that reaches a handler is absent, not castable to an
      ObjectId (Mongoose raises a CastError), or an ObjectId.
    - [save] and [create] validate the document against the schema, run the
      pre-save hook and then write.
    - The clock is read once per handler call ([now], in epoch
      milliseconds).  Two operations of the platform are parameters of the
      development: the calendar operation [setMonth(getMonth() + 3)], which
      depends on the server's time zone ([threeMonthsFrom]), and the
      database's regular-expression match ([regexTest]). *)

From Stdlib Require Import ZArith Floats Lia Ascii.
From stdpp Require Import gmap strings list fin_maps sorting.

Open Scope string_scope.

(** ** JavaScript numbers *)

Module JS.

(** A JavaScript Number is an IEEE-754 binary64 value. *)
Definition Number := float.

(** [Math.round(x)] is the integral Number closest to [x], the upper one
    of two that are equally close; NaN and the infinities are returned as
    they are.  An integral Number is given here by the integer that it
    denotes ([-0] is 0).  The value of a finite binary64 is [m * 2^e]; it
    is rounded exactly, over the integers. *)
Inductive Integral :=
| Int (n : Z)
| NaN
| Infinity (neg : bool).

Definition round_exact (neg : bool) (m : positive) (e : Z) : Z :=
  let num := if neg then (- Z.pos m)%Z else Z.pos m in
  if (0 <=? e)%Z then (num * 2 ^ e)%Z
  else ((2 * num + 2 ^ (- e)) / 2 ^ (1 - e))%Z.

Definition Math_round (x : Number) : Integral :=
  match Prim2SF x with
  | S754_zero _ => Int 0
  | S754_finite neg m e => Int (round_exact neg m e)
  | S754_infinity neg => Infinity neg
  | S754_nan => NaN
  end.

(** [parseInt(s, 10) || d]: NaN and 0 are falsy. *)
Definition or_default (parsed : option Z) (d : Z) : Z :=
  match parsed with
  | Some 0%Z => d
  | Some n => n
  | None => d
  end.

End JS.

(** ** Calendar: an instance of [setMonth(getMonth() + 3)] in UTC

    Times are milliseconds since the epoch.  The two conversions between a
    day number and a civil date are the usual era-based ones. *)

Module Calendar.
Open Scope Z_scope.

Definition msPerDay : Z := 86400000.

Definition days_from_civil (y m d : Z) : Z :=
  let y' := if m <=? 2 then y - 1 else y in
  let era := y' / 400 in
  let yoe := y' - era * 400 in
  let mp := (m + 9) mod 12 in
  let doy := (153 * mp + 2) / 5 + d - 1 in
  let doe := yoe * 365 + yoe / 4 - yoe / 100 + doy in
  era * 146097 + doe - 719468.

Definition civil_from_days (z : Z) : Z * Z * Z :=
  let z' := z + 719468 in
  let era := z' / 146097 in
  let doe := z' - era * 146097 in
  let yoe := (doe - doe / 1460 + doe / 36524 - doe / 146096) / 365 in
  let doy := doe - (365 * yoe + yoe / 4 - yoe / 100) in
  let mp := (5 * doy + 2) / 153 in
  let d := doy - (153 * mp + 2) / 5 + 1 in
  let m := if mp <? 10 then mp + 3 else mp - 9 in
  let y := yoe + era * 400 + (if m <=? 2 then 1 else 0) in
  (y, m, d).

(** [d.setMonth(d.getMonth() + 3)]: the month index moves by three, the
    year absorbs the overflow, and a day of the month that the target
    month does not have spills into the following month. *)
Definition utcThreeMonthsFrom (t : Z) : Z :=
  let day := t / msPerDay in
  let timeInDay := t mod msPerDay in
  let '(y, m, d) := civil_from_days day in
  let mi := (m - 1) + 3 in
  let y2 := y + mi / 12 in
  let m2 := mi mod 12 + 1 in
  (days_from_civil y2 m2 1 + (d - 1)) * msPerDay + timeInDay.

End Calendar.

(** ** Data model *)

Definition ObjectId := string.

(** A field that JavaScript may leave [undefined] is an [option]. *)

Record Contact := {
  email : string;
  mobileNumber : string
}.

Record UserDoc := {
  userContact : Contact;
  role : string
}.

Record HostDoc := {
  hostContact : Contact;
  hostType : string;
  isVerified : bool;
  venueType : option string;
  city : option string;
  maxGuestCapacity : option Z;
  offered : list string          (* the schema's [services] of a host *)
}.

Record ServiceEntry := {
  serviceProvider : ObjectId;
  serviceType : option string;
  price : option JS.Number
}.

Record EventDetails := {
  eventType : option string;
  guestCount : option JS.Number;
  startDate : option Z;
  endDate : option Z
}.

Record CustomerDetails := {
  name : option string;
  contactNumber : option string;
  aadhaarNumber : option string
}.

Record Payment := {
  totalAmount : option JS.Number;
  advanceAmount : option JS.Number;
  remainingAmount : option JS.Number;
  paymentMethod : option string;
  isPaid : bool;
  transactionId : option string;
  paymentDate : option Z
}.

Record NotificationFlags := {
  emailSent : bool;
  smsSent : bool;
  callMade : bool
}.

Record Booking := {
  user : ObjectId;
  venue : option ObjectId;
  services : list ServiceEntry;
  isServiceOnly : bool;
  eventDetails : EventDetails;
  customerDetails : CustomerDetails;
  payment : Payment;
  status : string;
  notifications : NotificationFlags
}.

(** Assignments to fields of a loaded document. *)

Definition set_status (s : string) (b : Booking) : Booking :=
  {| user := user b; venue := venue b; services := services b;
     isServiceOnly := isServiceOnly b; eventDetails := eventDetails b;
     customerDetails := customerDetails b; payment := payment b;
     status := s; notifications := notifications b |}.

Definition set_payment (p : Payment) (b : Booking) : Booking :=
  {| user := user b; venue := venue b; services := services b;
     isServiceOnly := isServiceOnly b; eventDetails := eventDetails b;
     customerDetails := customerDetails b; payment := p;
     status := status b; notifications := notifications b |}.

Definition set_notifications (n : NotificationFlags) (b : Booking) : Booking :=
  {| user := user b; venue := venue b; services := services b;
     isServiceOnly := isServiceOnly b; eventDetails := eventDetails b;
     customerDetails := customerDetails b; payment := payment b;
     status := status b; notifications := n |}.

(** [isPaid = true; transactionId = ..; paymentDate = ..] and, on the
    client-confirmed path only, [paymentMethod = ..]. *)
Definition mark_paid (tx : option string) (date : Z)
    (method : option (option string)) (p : Payment) : Payment :=
  {| totalAmount := totalAmount p; advanceAmount := advanceAmount p;
     remainingAmount := remainingAmount p;
     paymentMethod := match method with Some m => m | None => paymentMethod p end;
     isPaid := true; transactionId := tx; paymentDate := Some date |}.

(** The assignments of both payment paths: the payment fields, then
    [booking.status = 'confirmed']. *)
Definition confirm_paid (tx : option string) (date : Z)
    (method : option (option string)) (b : Booking) : Booking :=
  set_status "confirmed" (set_payment (mark_paid tx date method (payment b)) b).

(** ** Messages handed to the transports

    A message is its template and the values interpolated into it, in the
    order of the template's placeholders. *)

Inductive Arg :=
| BookingId (id : ObjectId)
| EventType (t : option string)
| LocaleDate (d : option Z)
| GuestCount (n : option JS.Number)
| Amount (x : option JS.Number)
| TransactionId (t : option string)
| ServiceType (t : option string)
| Status (s : string).

Inductive Notification :=
| EmailMsg (to : string) (subject : string) (args : list Arg)
| SmsMsg (to : string) (template : string) (args : list Arg).

(** The payment provider's record of a created payment intent. *)
Record PaymentIntent := {
  amount : JS.Integral;             (* in the currency's minor unit *)
  currency : string;
  meta_bookingId : ObjectId;
  meta_userId : ObjectId
}.

(** ** Responses *)

Record PageRef := { page : Z; limit : Z }.

Record Pagination := { next : option PageRef; prev : option PageRef }.

Inductive Body :=
| ErrorBody (error : string)                      (* {success: false, error} *)
| ErrorsBody (errors : list string)               (* {success: false, error: [..]} *)
| BookingBody (data : Booking)                    (* {success: true, data: booking} *)
| PopulatedBody (data : Booking) (owner : option Contact)
    (venueHost : option (option Contact)) (providers : list (option Contact))
| PaymentBody (data : Payment)                    (* {success: true, data: booking.payment} *)
| ListBody (count : nat) (pagination : Pagination) (data : list (ObjectId * HostDoc))
| ClientSecretBody (intent : PaymentIntent)       (* {success: true, clientSecret} *)
| ReceivedBody                                    (* {received: true} *)
| TextBody (text : string).                       (* res.send(text) *)

Record Response := { code : nat; body : Body }.

(** The spec's error taxonomy, read off the HTTP status. *)
Inductive ErrorClass :=
| Validation | Unauthorized | Forbidden | NotFound | Conflict | Internal.

Definition classify (r : Response) : option ErrorClass :=
  match code r with
  | 400 => Some Validation
  | 401 => Some Unauthorized
  | 403 => Some Forbidden
  | 404 => Some NotFound
  | 409 => Some Conflict
  | 500 => Some Internal
  | _ => None
  end.

(** ** The world: collections and logs of the external services *)

Record World := {
  bookingColl : gmap ObjectId Booking;
  userColl : gmap ObjectId UserDoc;
  hostColl : gmap ObjectId HostDoc;
  outbox : list Notification;       (* oldest first *)
  charges : list PaymentIntent      (* oldest first *)
}.

Definition with_bookings (f : gmap ObjectId Booking → gmap ObjectId Booking)
    (w : World) : World :=
  {| bookingColl := f (bookingColl w); userColl := userColl w;
     hostColl := hostColl w; outbox := outbox w; charges := charges w |}.

Definition with_outbox (n : Notification) (w : World) : World :=
  {| bookingColl := bookingColl w; userColl := userColl w;
     hostColl := hostColl w; outbox := outbox w ++ [n]; charges := charges w |}.

Definition with_charge (c : PaymentIntent) (w : World) : World :=
  {| bookingColl := bookingColl w; userColl := userColl w;
     hostColl := hostColl w; outbox := outbox w; charges := charges w ++ [c] |}.

(** ** Handler monad: state, early reply, exceptions *)

Inductive Exn :=
| CastError
| ValidationError (messages : list string)
| TypeError
| Error (message : string).

Inductive Step (A : Type) :=
| Next (a : A)
| Replied (r : Response)
| Thrown (e : Exn).
Arguments Next {A} a.
Arguments Replied {A} r.
Arguments Thrown {A} e.

Definition Handler (A : Type) : Type := World → Step A * World.

Definition ret {A} (a : A) : Handler A := λ w, (Next a, w).

Definition bind {A B} (h : Handler A) (k : A → Handler B) : Handler B :=
  λ w, match h w with
       | (Next a, w') => k a w'
       | (Replied r, w') => (Replied r, w')
       | (Thrown e, w') => (Thrown e, w')
       end.

Definition reply {A} (c : nat) (b : Body) : Handler A :=
  λ w, (Replied {| code := c; body := b |}, w).

Definition throw {A} (e : Exn) : Handler A := λ w, (Thrown e, w).

Definition gets {A} (f : World → A) : Handler A := λ w, (Next (f w), w).

Definition modify (f : World → World) : Handler unit := λ w, (Next tt, f w).

Definition when (c : bool) (h : Handler unit) : Handler unit :=
  if c then h else ret tt.

Declare Scope handler_scope.
Delimit Scope handler_scope with handler.
Notation "x <- c ;; k" := (bind c (λ x, k))
  (at level 100, c at next level, right associativity) : handler_scope.
Notation "c ;; k" := (bind c (λ _, k))
  (at level 100, right associativity) : handler_scope.
Open Scope handler_scope.

(** [for (const x of xs) { await f(x) }] *)
Fixpoint for_each {A} (xs : list A) (f : A → Handler unit) : Handler unit :=
  match xs with
  | [] => ret tt
  | x :: rest => f x ;; for_each rest f
  end.

(** A handler body inside [try { .. } catch (err) { .. }]. *)
Definition try_catch (body : Handler Response) (catch : Exn → Response)
    (w : World) : Response * World :=
  match body w with
  | (Next r, w') => (r, w')
  | (Replied r, w') => (r, w')
  | (Thrown e, w') => (catch e, w')
  end.

Definition serverError : Response :=
  {| code := 500; body := ErrorBody "Server Error" |}.

(** ** The request's principal, as the [protect] middleware leaves it

    [protect] verifies the token and loads the document that it names.
    For a user it sets [req.user] and [req.isHost = false].  For a host it
    sets [req.isHost = true] and assigns the document to [req.host]; but
    [req.host] is an accessor of the framework's request object, without a
    setter, which yields the host name of the request: the assignment, in a
    module that is not in strict mode, is dropped without an error, and
    [req.host] stays that string. *)

Inductive Principal :=
| AsUser (id : ObjectId)       (* req.isHost = false, req.user._id = id *)
| AsHost (id : ObjectId).      (* req.isHost = true; the token names host [id] *)

Definition isHost (p : Principal) : bool :=
  match p with AsHost _ => true | AsUser _ => false end.

(** [req.user.id], of a user whose document [protect] found; [req.user]
    is undefined for a host. *)
Definition req_user_id (p : Principal) : Handler ObjectId :=
  match p with AsUser id => ret id | AsHost _ => throw TypeError end.

(** [req.host.id]: the property [id] of a string, which is [undefined]
    ([None]), whoever the caller is. *)
Definition req_host_id (p : Principal) : Handler (option ObjectId) :=
  ret None.

(** An identifier as it arrives in a request. *)
Inductive RawId :=
| Absent                       (* undefined or null *)
| Malformed                    (* a value that does not cast to an ObjectId *)
| Oid (id : ObjectId).

(** ** JavaScript helpers *)

Definition toUpperCase (c : ascii) : ascii :=
  let n := nat_of_ascii c in
  if (97 <=? n)%nat && (n <=? 122)%nat then ascii_of_nat (n - 32) else c.

(** [s.charAt(0).toUpperCase() + s.slice(1)] *)
Definition capitalize (s : string) : string :=
  match s with
  | EmptyString => EmptyString
  | String c rest => String (toUpperCase c) rest
  end.

(** [xs.includes(x)] *)
Definition includes (xs : list string) (x : string) : bool :=
  bool_decide (x ∈ xs).

(** Dereferencing [null] or [undefined] raises a TypeError. *)
Definition deref {A} (o : option A) : Handler A :=
  match o with
  | Some a => ret a
  | None => throw TypeError
  end.

(** [a && b] where evaluating either side may throw. *)
Definition andM (a b : Handler bool) : Handler bool :=
  x <- a ;; if x then b else ret false.

(** [xs.some(f)] where [f] may throw. *)
Fixpoint someM {A} (xs : list A) (f : A → Handler bool) : Handler bool :=
  match xs with
  | [] => ret false
  | x :: rest => y <- f x ;; if y then ret true else someM rest f
  end.

(** ** Models: queries and the Booking schema *)

Definition Booking_findById (raw : RawId) : Handler (option Booking) :=
  match raw with
  | Absent => ret None
  | Malformed => throw CastError
  | Oid id => gets (λ w, bookingColl w !! id)
  end.

Definition User_findById (id : ObjectId) : Handler (option UserDoc) :=
  gets (λ w, userColl w !! id).

Definition Host_findById (id : ObjectId) : Handler (option HostDoc) :=
  gets (λ w, hostColl w !! id).

(** [Host.findOne({ _id, hostType, isVerified: true })] *)
Definition Host_findOne_verified (raw : RawId) (type : string)
  : Handler (option HostDoc) :=
  match raw with
  | Absent => ret None
  | Malformed => throw CastError
  | Oid id =>
      gets (λ w, match hostColl w !! id with
                 | Some h => if bool_decide (hostType h = type) && isVerified h
                             then Some h else None
                 | None => None
                 end)
  end.

(** [await sendEmail(..)] and [await sendSMS(..)]: the message is handed
    to its transport. *)
Definition send (m : Notification) : Handler unit :=
  modify (with_outbox m).

(** The block that every fan-out repeats for a referenced host: load the
    host, then mail it and text it. *)
Definition notify_host (hid : ObjectId) (mail sms : Contact → Notification)
  : Handler unit :=
  found <- Host_findById hid ;;
  h <- deref found ;;
  send (mail (hostContact h)) ;;
  send (sms (hostContact h)).

Definition statusEnum : list string :=
  ["pending"; "confirmed"; "cancelled"; "completed"].

Definition paymentMethodEnum : list string :=
  ["bank_transfer"; "upi"; "online_payment"].

Definition serviceTypeEnum : list string :=
  ["catering"; "decoration"; "organization"].

Definition eventTypeEnum : list string :=
  ["wedding"; "birthday"; "corporate"; "cultural"; "engagement"; "other"].

(** Schema validators, each giving the messages of its failures.  A path
    has at most one message.  The lists below follow the order of the
    schema; Mongoose collects the messages in the order in which it visits
    the paths (required paths first, the last declared first), so only
    whether a list is empty and what it contains is meant. *)

Definition required {A} (path : string) (v : option A) : list string :=
  match v with
  | Some _ => []
  | None => ["Path `" ++ path ++ "` is required."]
  end.

Definition enum (path : string) (allowed : list string) (v : option string)
  : list string :=
  match v with
  | Some s => if includes allowed s then []
              else ["`" ++ s ++ "` is not a valid enum value for path `" ++ path ++ "`."]
  | None => []
  end.

Definition validate_service (s : ServiceEntry) : list string :=
  required "serviceType" (serviceType s)
  ++ enum "serviceType" serviceTypeEnum (serviceType s).

(** The validators of the paths that no handler assigns after creation. *)
Definition validate_fixed (b : Booking) : list string :=
  (if isServiceOnly b then [] else required "venue" (venue b))
  ++ concat (map validate_service (services b))
  ++ required "eventDetails.eventType" (eventType (eventDetails b))
  ++ enum "eventDetails.eventType" eventTypeEnum (eventType (eventDetails b))
  ++ required "eventDetails.guestCount" (guestCount (eventDetails b))
  ++ required "eventDetails.startDate" (startDate (eventDetails b))
  ++ required "eventDetails.endDate" (endDate (eventDetails b))
  ++ required "customerDetails.name" (name (customerDetails b))
  ++ required "customerDetails.contactNumber" (contactNumber (customerDetails b))
  ++ required "customerDetails.aadhaarNumber" (aadhaarNumber (customerDetails b))
  ++ required "payment.totalAmount" (totalAmount (payment b))
  ++ required "payment.advanceAmount" (advanceAmount (payment b))
  ++ required "payment.remainingAmount" (remainingAmount (payment b)).

(** The validators of the paths that the handlers assign on a loaded
    booking: [payment.paymentMethod] and [status]. *)
Definition validate_assigned (method : option string) (status : string)
  : list string :=
  required "payment.paymentMethod" method
  ++ enum "payment.paymentMethod" paymentMethodEnum method
  ++ enum "status" statusEnum (Some status).

(** Document validation against BookingSchema, as [save] runs it. *)
Definition BookingSchema_validate (b : Booking) : list string :=
  validate_fixed b ++ validate_assigned (paymentMethod (payment b)) (status b).

Definition tooFarMessage : string :=
  "Bookings can only be made up to 3 months in advance".

Section Handlers.

(** [d => { d.setMonth(d.getMonth() + 3); return d }] on epoch
    milliseconds, in the server's time zone. *)
Variable threeMonthsFrom : Z → Z.

(** The database's case-insensitive [$regex] match of a pattern against
    a string. *)
Variable regexTest : string → string → bool.

(** [BookingSchema.pre('save', ..)]: the error passed to [next], if any. *)
Definition pre_save (now : Z) (b : Booking) : option Exn :=
  match startDate (eventDetails b) with
  | Some d => if (threeMonthsFrom now <? d)%Z then Some (Error tooFarMessage)
              else None
  | None => None
  end.

(** [booking.save()]: validation, then the hook, then the write. *)
Definition Booking_save (now : Z) (id : ObjectId) (b : Booking) : Handler unit :=
  match BookingSchema_validate b with
  | [] => match pre_save now b with
          | Some e => throw e
          | None => modify (with_bookings (insert id b))
          end
  | msgs => throw (ValidationError msgs)
  end.

(** [Booking.create(doc)]: a [save] of a new document under the id the
    driver generated for it; the server refuses an id that is taken. *)
Definition Booking_create (now : Z) (id : ObjectId) (b : Booking) : Handler unit :=
  match BookingSchema_validate b with
  | [] => match pre_save now b with
          | Some e => throw e
          | None =>
              taken <- gets (λ w, bookingColl w !! id) ;;
              if bool_decide (is_Some taken)
              then throw (Error "E11000 duplicate key")
              else modify (with_bookings (insert id b))
          end
  | msgs => throw (ValidationError msgs)
  end.

(** *** controllers/bookings.js *)

(** [catch] blocks. *)
Definition catch_cast_404 (e : Exn) : Response :=
  match e with
  | CastError => {| code := 404; body := ErrorBody "Booking not found" |}
  | _ => serverError
  end.

Definition catch_validation_400 (e : Exn) : Response :=
  match e with
  | ValidationError msgs => {| code := 400; body := ErrorsBody msgs |}
  | _ => serverError
  end.

Definition catch_500 (e : Exn) : Response := serverError.

(** [doc.toString() !== id] on a populated path: a populated document
    prints as an object literal and never equals an id, let alone
    [undefined]; a path that resolved to nothing is [null], and the call
    throws. *)
Definition populated_differs {A I} (doc : option A) (id : I) : Handler bool :=
  _ <- deref doc ;; ret true.

Definition populate_user (b : Booking) : Handler (option Contact) :=
  gets (λ w, userContact <$> userColl w !! user b).

Definition populate_host (id : ObjectId) : Handler (option Contact) :=
  gets (λ w, hostContact <$> hostColl w !! id).

Definition populate_venue (b : Booking) : Handler (option (option Contact)) :=
  match venue b with
  | Some v => c <- populate_host v ;; ret (Some c)
  | None => ret None
  end.

Fixpoint populate_providers (ss : list ServiceEntry)
  : Handler (list (option Contact)) :=
  match ss with
  | [] => ret []
  | s :: rest =>
      c <- populate_host (serviceProvider s) ;;
      cs <- populate_providers rest ;;
      ret (c :: cs)
  end.

(** The condition of the [if] that guards the 401 of [getBooking]. *)
Definition getBooking_denied (who : Principal) (owner : option Contact)
    (venueHost : option (option Contact)) (providers : list (option Contact))
  : Handler bool :=
  andM
    (andM (ret (negb (isHost who)))
          (uid <- req_user_id who ;; populated_differs owner uid))
    (andM
       (andM (ret (isHost who))
             (v <- deref venueHost ;;
              hid <- req_host_id who ;;
              populated_differs v hid))
       (found <- someM providers
                   (λ p, hid <- req_host_id who ;;
                         d <- populated_differs p hid ;; ret (negb d)) ;;
        ret (negb found))).

Definition getBooking (who : Principal) (id : RawId) : World → Response * World :=
  try_catch
    (found <- Booking_findById id ;;
     match found with
     | None => reply 404 (ErrorBody "Booking not found")
     | Some b =>
         owner <- populate_user b ;;
         venueHost <- populate_venue b ;;
         providers <- populate_providers (services b) ;;
         denied <- getBooking_denied who owner venueHost providers ;;
         when denied (reply 401 (ErrorBody "Not authorized to access this booking")) ;;
         ret {| code := 200; body := PopulatedBody b owner venueHost providers |}
     end)
    catch_cast_404.

(** The body of [POST /api/bookings]. *)
Record ServiceInput := {
  in_serviceProvider : RawId;
  in_serviceType : option string;
  in_price : option JS.Number
}.

(** A date of the request body, by what its two readers make of it.  The
    handler reads it with [new Date(v)]; [Booking.create] casts it to the
    schema's Date path.  The two agree on a number and on a date string; a
    string of digits such as ["1803945600000"] is an Invalid Date to the
    first and a time in milliseconds to the second, and [null] is the epoch
    to the first and no value to the second.  A value that does not cast to
    a date at all is left out, as are such values of the other paths. *)
Record DateInput := {
  asDate : option Z;      (* [new Date(v)]; [None]: Invalid Date *)
  asStored : option Z     (* the cast of [v]; [None]: absent, [null] or empty *)
}.

Record EventInput := {
  in_eventType : option string;
  in_guestCount : option JS.Number;
  in_startDate : DateInput;
  in_endDate : DateInput
}.

(** The event details of the document that [Booking.create] builds. *)
Definition storedEvent (ev : EventInput) : EventDetails :=
  {| eventType := in_eventType ev; guestCount := in_guestCount ev;
     startDate := asStored (in_startDate ev);
     endDate := asStored (in_endDate ev) |}.

(** The event details as the message templates of the create handler read
    them: [eventDetails.eventType], [new Date(eventDetails.startDate)],
    [new Date(eventDetails.endDate)], [eventDetails.guestCount]. *)
Definition shownEvent (ev : EventInput) : EventDetails :=
  {| eventType := in_eventType ev; guestCount := in_guestCount ev;
     startDate := asDate (in_startDate ev);
     endDate := asDate (in_endDate ev) |}.

Record CreateBody := {
  cb_venue : RawId;                          (* [Absent]: falsy *)
  cb_services : option (list ServiceInput);
  cb_eventDetails : option EventInput;
  cb_customerDetails : option CustomerDetails;
  cb_payment : option Payment
}.

Definition providerHostType (serviceType : option string) : string :=
  if bool_decide (serviceType = Some "catering") then "caterer"
  else if bool_decide (serviceType = Some "decoration") then "decorator"
  else "organizer".

Definition showRawId (r : RawId) : string :=
  match r with
  | Oid id => id
  | _ => "undefined"
  end.

(** [if (venue) { .. }]: a venue that is given must be a verified host of
    type venue. *)
Definition check_venue (venue : RawId) : Handler unit :=
  match venue with
  | Absent => ret tt
  | Malformed | Oid _ =>
      venueExists <- Host_findOne_verified venue "venue" ;;
      when (negb (bool_decide (is_Some venueExists)))
           (reply 404 (ErrorBody "Venue not found or not verified"))
  end.

(** The loop over [services] that resolves each provider; it yields the
    entries under the ids they resolved with. *)
Fixpoint check_services (ss : list ServiceInput) : Handler (list ServiceEntry) :=
  match ss with
  | [] => ret []
  | s :: rest =>
      found <- Host_findOne_verified (in_serviceProvider s)
                 (providerHostType (in_serviceType s)) ;;
      match found, in_serviceProvider s with
      | Some _, Oid id =>
          es <- check_services rest ;;
          ret ({| serviceProvider := id; serviceType := in_serviceType s;
                  price := in_price s |} :: es)
      | _, _ =>
          reply 404 (ErrorBody ("Service provider not found or not verified: "
                                ++ showRawId (in_serviceProvider s)))
      end
  end.

Definition undefinedCustomer : CustomerDetails :=
  {| name := None; contactNumber := None; aadhaarNumber := None |}.

Definition undefinedPayment : Payment :=
  {| totalAmount := None; advanceAmount := None; remainingAmount := None;
     paymentMethod := None; isPaid := false; transactionId := None;
     paymentDate := None |}.

Definition noNotifications : NotificationFlags :=
  {| emailSent := false; smsSent := false; callMade := false |}.

(** The messages about a new booking. *)
Definition newUserEmail (id : ObjectId) (ev : EventDetails) (p : Payment)
    (c : Contact) : Notification :=
  EmailMsg (email c) "EventO - Booking Confirmation"
    [BookingId id; EventType (eventType ev); LocaleDate (startDate ev);
     LocaleDate (endDate ev); Amount (totalAmount p)].

Definition newUserSMS (id : ObjectId) (p : Payment) (c : Contact) : Notification :=
  SmsMsg (mobileNumber c)
    "Your booking with EventO (ID: {}) has been received and is pending payment. Total: {}"
    [BookingId id; Amount (totalAmount p)].

Definition newVenueEmail (id : ObjectId) (ev : EventDetails) (c : Contact)
  : Notification :=
  EmailMsg (email c) "EventO - New Booking Request"
    [BookingId id; EventType (eventType ev); LocaleDate (startDate ev);
     LocaleDate (endDate ev); GuestCount (guestCount ev)].

Definition newVenueSMS (id : ObjectId) (ev : EventDetails) (c : Contact)
  : Notification :=
  SmsMsg (mobileNumber c)
    "New booking request (ID: {}) for your venue. Event: {}, Date: {}, Guests: {}"
    [BookingId id; EventType (eventType ev); LocaleDate (startDate ev);
     GuestCount (guestCount ev)].

Definition newProviderEmail (id : ObjectId) (ev : EventDetails)
    (s : ServiceEntry) (c : Contact) : Notification :=
  EmailMsg (email c) "EventO - New Service Request"
    [ServiceType (serviceType s); BookingId id; EventType (eventType ev);
     LocaleDate (startDate ev); LocaleDate (endDate ev);
     GuestCount (guestCount ev)].

Definition newProviderSMS (id : ObjectId) (ev : EventDetails)
    (s : ServiceEntry) (c : Contact) : Notification :=
  SmsMsg (mobileNumber c)
    "New {} service request (ID: {}). Event: {}, Date: {}, Guests: {}"
    [ServiceType (serviceType s); BookingId id; EventType (eventType ev);
     LocaleDate (startDate ev); GuestCount (guestCount ev)].

Definition notify_new_venue (id : ObjectId) (ev : EventDetails) (v : ObjectId)
  : Handler unit :=
  notify_host v (newVenueEmail id ev) (newVenueSMS id ev).

Definition notify_new_provider (id : ObjectId) (ev : EventDetails)
    (s : ServiceEntry) : Handler unit :=
  notify_host (serviceProvider s) (newProviderEmail id ev s) (newProviderSMS id ev s).

(** [newId] is the ObjectId generated for the new document. *)
Definition createBooking (now : Z) (newId : ObjectId) (who : Principal)
    (req : CreateBody) : World → Response * World :=
  try_catch
    (when (isHost who) (reply 403 (ErrorBody "Hosts cannot create bookings")) ;;
     let isServiceOnly :=
       match cb_venue req, cb_services req with
       | Absent, Some (_ :: _) => true
       | _, _ => false
       end in
     (* If venue is provided, check if it exists *)
     check_venue (cb_venue req) ;;
     (* If services are provided, check if they exist *)
     entries <- match cb_services req with
                | Some ss => check_services ss
                | None => ret []
                end ;;
     (* Check if booking dates are within 3 months *)
     let threeMonthsFromNow := threeMonthsFrom now in
     ev <- deref (cb_eventDetails req) ;;
     when (match asDate (in_startDate ev) with
           | Some d => (threeMonthsFromNow <? d)%Z
           | None => false
           end)
          (reply 400 (ErrorBody tooFarMessage)) ;;
     (* Create booking *)
     uid <- req_user_id who ;;
     let booking :=
       {| user := uid;
          venue := match cb_venue req with Oid v => Some v | _ => None end;
          services := entries;
          isServiceOnly := isServiceOnly;
          eventDetails := storedEvent ev;
          customerDetails := default undefinedCustomer (cb_customerDetails req);
          payment := default undefinedPayment (cb_payment req);
          status := "pending";
          notifications := noNotifications |} in
     Booking_create now newId booking ;;
     (* Send notifications *)
     foundUser <- User_findById uid ;;
     u <- deref foundUser ;;
     p <- deref (cb_payment req) ;;
     send (newUserEmail newId (shownEvent ev) p (userContact u)) ;;
     send (newUserSMS newId p (userContact u)) ;;
     match cb_venue req with
     | Oid v => notify_new_venue newId (shownEvent ev) v
     | _ => ret tt
     end ;;
     for_each entries (notify_new_provider newId (shownEvent ev)) ;;
     (* Update booking with notification status *)
     let booking' :=
       set_notifications {| emailSent := true; smsSent := true; callMade := false |}
         booking in
     Booking_save now newId booking' ;;
     ret {| code := 201; body := BookingBody booking' |})
    catch_validation_400.

(** The messages about a status change. *)
Definition statusUserEmail (id : ObjectId) (b : Booking) (s : string)
    (c : Contact) : Notification :=
  EmailMsg (email c) ("EventO - Booking " ++ capitalize s)
    [Status (capitalize s); Status s; BookingId id;
     EventType (eventType (eventDetails b));
     LocaleDate (startDate (eventDetails b));
     LocaleDate (endDate (eventDetails b)); Status (capitalize s)].

Definition statusUserSMS (id : ObjectId) (s : string) (c : Contact)
  : Notification :=
  SmsMsg (mobileNumber c)
    "Your booking (ID: {}) has been {}. Please check your email for details."
    [BookingId id; Status s].

Definition statusVenueEmail (id : ObjectId) (b : Booking) (s : string)
    (c : Contact) : Notification :=
  EmailMsg (email c) ("EventO - Booking " ++ capitalize s)
    [Status (capitalize s); Status s; BookingId id;
     EventType (eventType (eventDetails b));
     LocaleDate (startDate (eventDetails b));
     LocaleDate (endDate (eventDetails b)); Status (capitalize s)].

Definition statusVenueSMS (id : ObjectId) (s : string) (c : Contact)
  : Notification :=
  SmsMsg (mobileNumber c)
    "Booking (ID: {}) for your venue has been {}. Please check your email for details."
    [BookingId id; Status s].

Definition statusProviderEmail (id : ObjectId) (b : Booking) (s : string)
    (e : ServiceEntry) (c : Contact) : Notification :=
  EmailMsg (email c) ("EventO - Service Request " ++ capitalize s)
    [Status (capitalize s); ServiceType (serviceType e); Status s; BookingId id;
     EventType (eventType (eventDetails b));
     LocaleDate (startDate (eventDetails b));
     LocaleDate (endDate (eventDetails b)); Status (capitalize s)].

Definition statusProviderSMS (id : ObjectId) (s : string) (e : ServiceEntry)
    (c : Contact) : Notification :=
  SmsMsg (mobileNumber c)
    "Service request (ID: {}) for your {} services has been {}. Please check your email for details."
    [BookingId id; ServiceType (serviceType e); Status s].

Definition notify_status_venue (id : ObjectId) (b : Booking) (s : string)
    (v : ObjectId) : Handler unit :=
  notify_host v (statusVenueEmail id b s) (statusVenueSMS id s).

Definition notify_status_provider (id : ObjectId) (b : Booking) (s : string)
    (e : ServiceEntry) : Handler unit :=
  notify_host (serviceProvider e) (statusProviderEmail id b s e)
    (statusProviderSMS id s e).

Definition validTargets : list string := ["confirmed"; "cancelled"; "completed"].

Definition invalidStatusMessage : string :=
  "Please provide a valid status (confirmed, cancelled, or completed)".

(** [PUT /api/bookings/:id/status] with [req.body.status]; [None] is a
    missing status or one that is not a string. *)
Definition updateBookingStatus (now : Z) (who : Principal) (id : RawId)
    (target : option string) : World → Response * World :=
  try_catch
    (s <- match target with
          | Some s => if negb (bool_decide (s = "")) && includes validTargets s
                      then ret s
                      else reply 400 (ErrorBody invalidStatusMessage)
          | None => reply 400 (ErrorBody invalidStatusMessage)
          end ;;
     found <- Booking_findById id ;;
     match found, id with
     | Some b, Oid bid =>
         (* Check permissions *)
         (if isHost who then
            (* Hosts can only update bookings for their venue or service *)
            hid <- req_host_id who ;;
            let isVenueOwner :=
              match venue b with
              | Some v => bool_decide (Some v = hid)
              | None => false
              end in
            let isServiceProvider :=
              existsb (λ e, bool_decide (Some (serviceProvider e) = hid))
                (services b) in
            when (negb isVenueOwner && negb isServiceProvider)
                 (reply 401 (ErrorBody "Not authorized to update this booking"))
          else
            (* Regular users can only cancel their own bookings *)
            uid <- req_user_id who ;;
            when (negb (bool_decide (user b = uid)))
                 (reply 401 (ErrorBody "Not authorized to update this booking")) ;;
            when (negb (bool_decide (s = "cancelled")))
                 (reply 403 (ErrorBody "Users can only cancel bookings"))) ;;
         (* Update booking status *)
         let b' := set_status s b in
         Booking_save now bid b' ;;
         (* Send notifications about status change *)
         foundUser <- User_findById (user b') ;;
         u <- deref foundUser ;;
         send (statusUserEmail bid b' s (userContact u)) ;;
         send (statusUserSMS bid s (userContact u)) ;;
         when (bool_decide (s = "cancelled") || bool_decide (s = "completed"))
              (match venue b' with
               | Some v => notify_status_venue bid b' s v
               | None => ret tt
               end ;;
               for_each (services b') (notify_status_provider bid b' s)) ;;
         ret {| code := 200; body := BookingBody b' |}
     | _, _ => reply 404 (ErrorBody "Booking not found")
     end)
    catch_cast_404.

(** *** controllers/payments.js *)

(** [x * 100] on a field that may be undefined: [undefined * 100] is NaN. *)
Definition times100 (x : option JS.Number) : JS.Number :=
  match x with
  | Some v => PrimFloat.mul v 100%float
  | None => PrimFloat.nan
  end.

(** [stripe.paymentIntents.create(params)] *)
Definition stripe_paymentIntents_create (params : PaymentIntent)
  : Handler PaymentIntent :=
  modify (with_charge params) ;; ret params.

(** [POST /api/payments/create-payment-intent] with
    [{ bookingId, paymentMethod }]. *)
Definition createPaymentIntent (who : Principal) (bookingId : RawId)
    (method : option string) : World → Response * World :=
  try_catch
    (when (isHost who) (reply 403 (ErrorBody "Hosts cannot make payments")) ;;
     found <- Booking_findById bookingId ;;
     match found, bookingId with
     | Some b, Oid bid =>
         uid <- req_user_id who ;;
         when (negb (bool_decide (user b = uid)))
              (reply 401 (ErrorBody "Not authorized to make payment for this booking")) ;;
         when (isPaid (payment b))
              (reply 400 (ErrorBody "Booking is already paid")) ;;
         when (negb (bool_decide (method = Some "online_payment")))
              (reply 400 (ErrorBody "This endpoint is only for online payments")) ;;
         paymentIntent <- stripe_paymentIntents_create
           {| amount := JS.Math_round (times100 (advanceAmount (payment b)));
              currency := "inr";
              meta_bookingId := bid;
              meta_userId := uid |} ;;
         ret {| code := 200; body := ClientSecretBody paymentIntent |}
     | _, _ => reply 404 (ErrorBody "Booking not found")
     end)
    catch_500.

(** The messages about a confirmed payment. *)
Definition paidUserEmail (bid : ObjectId) (b : Booking) (tx : option string)
    (c : Contact) : Notification :=
  EmailMsg (email c) "EventO - Payment Confirmation"
    [BookingId bid; EventType (eventType (eventDetails b));
     LocaleDate (startDate (eventDetails b));
     LocaleDate (endDate (eventDetails b));
     Amount (advanceAmount (payment b)); TransactionId tx].

Definition paidUserSMS (bid : ObjectId) (b : Booking) (tx : option string)
    (c : Contact) : Notification :=
  SmsMsg (mobileNumber c)
    "Payment confirmed for booking ID: {}. Amount: {}, Transaction ID: {}. Your booking is now confirmed."
    [BookingId bid; Amount (advanceAmount (payment b)); TransactionId tx].

Definition paidVenueEmail (bid : ObjectId) (b : Booking) (tx : option string)
    (c : Contact) : Notification :=
  EmailMsg (email c) "EventO - Booking Payment Received"
    [BookingId bid; EventType (eventType (eventDetails b));
     LocaleDate (startDate (eventDetails b));
     LocaleDate (endDate (eventDetails b));
     Amount (advanceAmount (payment b)); TransactionId tx].

Definition paidVenueSMS (bid : ObjectId) (b : Booking) (c : Contact)
  : Notification :=
  SmsMsg (mobileNumber c)
    "Payment received for booking ID: {}. Amount: {}. The booking is now confirmed."
    [BookingId bid; Amount (advanceAmount (payment b))].

Definition paidProviderEmail (bid : ObjectId) (b : Booking)
    (tx : option string) (e : ServiceEntry) (c : Contact) : Notification :=
  EmailMsg (email c) "EventO - Service Payment Received"
    [ServiceType (serviceType e); BookingId bid;
     EventType (eventType (eventDetails b));
     LocaleDate (startDate (eventDetails b));
     LocaleDate (endDate (eventDetails b));
     Amount (price e); TransactionId tx].

Definition paidProviderSMS (bid : ObjectId) (e : ServiceEntry) (c : Contact)
  : Notification :=
  SmsMsg (mobileNumber c)
    "Payment received for service booking ID: {}. Amount: {}. The service is now confirmed."
    [BookingId bid; Amount (price e)].

Definition notify_paid_venue (bid : ObjectId) (b : Booking) (tx : option string)
    (v : ObjectId) : Handler unit :=
  notify_host v (paidVenueEmail bid b tx) (paidVenueSMS bid b).

Definition notify_paid_provider (bid : ObjectId) (b : Booking)
    (tx : option string) (e : ServiceEntry) : Handler unit :=
  notify_host (serviceProvider e) (paidProviderEmail bid b tx e)
    (paidProviderSMS bid e).

(** [POST /api/payments/confirm] with
    [{ bookingId, transactionId, paymentMethod }]. *)
Definition confirmPayment (now : Z) (who : Principal) (bookingId : RawId)
    (tx : option string) (method : option string) : World → Response * World :=
  try_catch
    (when (isHost who) (reply 403 (ErrorBody "Hosts cannot confirm payments")) ;;
     found <- Booking_findById bookingId ;;
     match found, bookingId with
     | Some b, Oid bid =>
         uid <- req_user_id who ;;
         when (negb (bool_decide (user b = uid)))
              (reply 401 (ErrorBody "Not authorized to confirm payment for this booking")) ;;
         when (isPaid (payment b))
              (reply 400 (ErrorBody "Booking is already paid")) ;;
         (* Update booking payment status *)
         let b' := confirm_paid tx now (Some method) b in
         Booking_save now bid b' ;;
         (* Send notifications *)
         foundUser <- User_findById uid ;;
         u <- deref foundUser ;;
         send (paidUserEmail bid b' tx (userContact u)) ;;
         send (paidUserSMS bid b' tx (userContact u)) ;;
         match venue b' with
         | Some v => notify_paid_venue bid b' tx v
         | None => ret tt
         end ;;
         for_each (services b') (notify_paid_provider bid b' tx) ;;
         ret {| code := 200; body := BookingBody b' |}
     | _, _ => reply 404 (ErrorBody "Booking not found")
     end)
    catch_500.

(** What [stripe.webhooks.constructEvent] makes of the raw request. *)
Inductive WebhookEvent :=
| BadSignature (message : string)
| StripeEvent (type : string) (intentId : string) (metadataBookingId : RawId).

(** [try { .. } catch (err) { console.error(..) }] without a reply. *)
Definition swallow (h : Handler unit) : Handler unit :=
  λ w, match h w with
       | (Thrown _, w') => (Next tt, w')
       | r => r
       end.

(** [POST /api/payments/webhook].  Nothing escapes the inner [try]; the
    outer [catch] is never reached. *)
Definition stripeWebhook (now : Z) (ev : WebhookEvent) : World → Response * World :=
  try_catch
    (match ev with
     | BadSignature msg => reply 400 (TextBody ("Webhook Error: " ++ msg))
     | StripeEvent type intentId bookingId =>
         when (bool_decide (type = "payment_intent.succeeded"))
              (match bookingId with
               | Absent => ret tt
               | _ =>
                   swallow
                     (found <- Booking_findById bookingId ;;
                      match found, bookingId with
                      | Some b, Oid bid =>
                          when (negb (isPaid (payment b)))
                               (let b' := confirm_paid (Some intentId) now None b in
                                Booking_save now bid b')
                      | _, _ => ret tt
                      end)
               end) ;;
         ret {| code := 200; body := ReceivedBody |}
     end)
    catch_500.

(** The condition of the [if] that guards the 401 of [getPaymentDetails];
    no path of the booking is populated here. *)
Definition getPaymentDetails_denied (who : Principal) (b : Booking)
  : Handler bool :=
  andM
    (andM (ret (negb (isHost who)))
          (uid <- req_user_id who ;; ret (negb (bool_decide (user b = uid)))))
    (andM
       (andM (ret (isHost who))
             (v <- deref (venue b) ;;
              hid <- req_host_id who ;;
              ret (negb (bool_decide (Some v = hid)))))
       (found <- someM (services b)
                   (λ e, hid <- req_host_id who ;;
                         ret (bool_decide (Some (serviceProvider e) = hid))) ;;
        ret (negb found))).

(** [GET /api/payments/:bookingId] *)
Definition getPaymentDetails (who : Principal) (id : RawId)
  : World → Response * World :=
  try_catch
    (found <- Booking_findById id ;;
     match found with
     | None => reply 404 (ErrorBody "Booking not found")
     | Some b =>
         denied <- getPaymentDetails_denied who b ;;
         when denied
              (reply 401 (ErrorBody "Not authorized to view payment details for this booking")) ;;
         ret {| code := 200; body := PaymentBody (payment b) |}
     end)
    catch_cast_404.

(** *** controllers/venues.js and controllers/services.js: listings *)

(** [s.split(',')] *)
Fixpoint split_comma (s : string) : list string :=
  match s with
  | EmptyString => [EmptyString]
  | String c rest =>
      if bool_decide (c = ","%char) then EmptyString :: split_comma rest
      else match split_comma rest with
           | hd :: tl => String c hd :: tl
           | [] => [String c EmptyString]
           end
  end.

(** A query-string parameter is used when it is truthy: present and not
    the empty string. *)
Definition truthy (p : option string) : option string :=
  match p with
  | Some EmptyString => None
  | other => other
  end.

(** [req.query] of the two listing routes.  [q_page] and [q_limit] hold
    what [parseInt] made of the parameter ([None]: absent or NaN);
    [q_minCapacity] is the parsed capacity of a request that gives one
    ([None]: the parameter is absent or empty). *)
Record ListQuery := {
  q_venueType : option string;
  q_type : option string;
  q_city : option string;
  q_minCapacity : option Z;
  q_services : option string;
  q_page : option Z;
  q_limit : option Z
}.

(** The filter object handed to [Host.countDocuments] and [Host.find]. *)
Record HostFilter := {
  f_hostType : list string;              (* [hostType] is one of these *)
  f_venueType : option string;
  f_city : option string;                (* [$regex], option [i] *)
  f_maxGuestCapacity_gte : option Z;
  f_services_in : option (list string)
}.

Definition matches (f : HostFilter) (h : HostDoc) : bool :=
  includes (f_hostType f) (hostType h)
  && match f_venueType f with
     | Some t => bool_decide (venueType h = Some t)
     | None => true
     end
  && match f_city f with
     | Some pattern => match city h with
                       | Some c => regexTest pattern c
                       | None => false
                       end
     | None => true
     end
  && match f_maxGuestCapacity_gte f with
     | Some n => match maxGuestCapacity h with
                 | Some m => (n <=? m)%Z
                 | None => false
                 end
     | None => true
     end
  && match f_services_in f with
     | Some wanted => existsb (includes wanted) (offered h)
     | None => true
     end.

(** The documents of the collection that match, in the collection's
    natural order. *)
Definition matching (f : HostFilter) (w : World) : list (ObjectId * HostDoc) :=
  List.filter (λ d, matches f d.2) (map_to_list (hostColl w)).

Definition Host_countDocuments (f : HostFilter) : Handler Z :=
  gets (λ w, Z.of_nat (length (matching f w))).

(** [Host.find(f).skip(s).limit(l)]: the server rejects a negative skip;
    a limit of zero is no limit and a negative limit counts as its
    absolute value. *)
Definition Host_find_skip_limit (f : HostFilter) (s l : Z)
  : Handler (list (ObjectId * HostDoc)) :=
  if (s <? 0)%Z then throw (Error "Skip value must be non-negative")
  else gets (λ w, let rest := drop (Z.to_nat s) (matching f w) in
                  if (l =? 0)%Z then rest else take (Z.to_nat (Z.abs l)) rest).

(** The pagination block shared by the two listings. *)
Definition paginate (f : HostFilter) (q : ListQuery) : Handler Response :=
  let page := JS.or_default (q_page q) 1 in
  let limit := JS.or_default (q_limit q) 10 in
  let startIndex := ((page - 1) * limit)%Z in
  let endIndex := (page * limit)%Z in
  total <- Host_countDocuments f ;;
  found <- Host_find_skip_limit f startIndex limit ;;
  let pagination :=
    {| next := if (endIndex <? total)%Z
               then Some {| page := (page + 1)%Z; limit := limit |} else None;
       prev := if (0 <? startIndex)%Z
               then Some {| page := (page - 1)%Z; limit := limit |} else None |} in
  ret {| code := 200; body := ListBody (length found) pagination found |}.

(** The [query] object that [getVenues] builds from [req.query]. *)
Definition venueFilter (q : ListQuery) : HostFilter :=
  {| f_hostType := ["venue"];
     f_venueType := truthy (q_venueType q);
     f_city := truthy (q_city q);
     f_maxGuestCapacity_gte := q_minCapacity q;
     f_services_in := split_comma <$> truthy (q_services q) |}.

(** [GET /api/venues] *)
Definition getVenues (q : ListQuery) : World → Response * World :=
  try_catch (paginate (venueFilter q) q) catch_500.

Definition providerTypes : list string := ["caterer"; "decorator"; "organizer"].

(** The [query] object that [getServiceProviders] builds. *)
Definition providerFilter (q : ListQuery) : HostFilter :=
  {| f_hostType := match truthy (q_type q) with
                   | Some t => if includes providerTypes t then [t]
                               else providerTypes
                   | None => providerTypes
                   end;
     f_venueType := None;
     f_city := truthy (q_city q);
     f_maxGuestCapacity_gte := None;
     f_services_in := split_comma <$> truthy (q_services q) |}.

(** [GET /api/services] *)
Definition getServiceProviders (q : ListQuery) : World → Response * World :=
  try_catch (paginate (providerFilter q) q) catch_500.

End Handlers.

(** * The rest of the controllers, the middleware and the routes

    Sources embedded here:
    - [controllers/bookings.js]  getBookings, deleteBooking
    - [controllers/venues.js]    getVenue, deleteVenue
    - [controllers/services.js]  getServiceProvider
    - [middleware/auth.js]       authorize
    - [routes/bookings.js], [routes/payments.js], [routes/venues.js]
    - [server.js]                the error-handling middleware

    A handler of this part answers [{ success: true, .. }] with a body of
    its own shape; its answer is that body, or one of the responses
    above. *)

Inductive Answer (A : Type) :=
| Success (code : nat) (data : A)   (* res.status(code).json({ success: true, .. }) *)
| Failure (r : Response).
Arguments Success {A} code data.
Arguments Failure {A} r.

Definition answer_code {A} (a : Answer A) : nat :=
  match a with
  | Success c _ => c
  | Failure r => code r
  end.

(** A handler body inside [try { .. } catch (err) { .. }] whose last
    statement is [res.status(success).json({ success: true, .. })]. *)
Definition try_catch_with {A} (success : nat) (body : Handler A)
    (catch : Exn → Response) (w : World) : Answer A * World :=
  match body w with
  | (Next a, w') => (Success success a, w')
  | (Replied r, w') => (Failure r, w')
  | (Thrown e, w') => (Failure (catch e), w')
  end.

Definition with_hosts (f : gmap ObjectId HostDoc → gmap ObjectId HostDoc)
    (w : World) : World :=
  {| bookingColl := bookingColl w; userColl := userColl w;
     hostColl := f (hostColl w); outbox := outbox w; charges := charges w |}.

(** [a || b] where evaluating either side may throw. *)
Definition orM (a b : Handler bool) : Handler bool :=
  x <- a ;; if x then ret true else b.

(** [req.user.role].  [protect] loaded [req.user] from the users
    collection; for a host, and for a token whose user is gone, the read
    raises a TypeError. *)
Definition req_user_role (p : Principal) : Handler string :=
  match p with
  | AsUser id => found <- User_findById id ;; u <- deref found ;; ret (role u)
  | AsHost _ => throw TypeError
  end.

(** [Host.findById(req.params.id)] *)
Definition Host_findById_raw (raw : RawId) : Handler (option HostDoc) :=
  match raw with
  | Absent => ret None
  | Malformed => throw CastError
  | Oid id => Host_findById id
  end.

(** [doc.remove()] *)
Definition Booking_remove (id : ObjectId) : Handler unit :=
  modify (with_bookings (delete id)).

Definition Host_remove (id : ObjectId) : Handler unit :=
  modify (with_hosts (delete id)).

(** *** controllers/bookings.js: deleteBooking *)

(** [DELETE /api/bookings/:id]; the answer's body is [{}]. *)
Definition deleteBooking (who : Principal) (id : RawId)
  : World → Answer unit * World :=
  try_catch_with 200
    (found <- Booking_findById id ;;
     match found, id with
     | Some _, Oid bid =>
         (* Only admin can delete bookings *)
         denied <- orM (ret (isHost who))
                       (r <- req_user_role who ;;
                        ret (negb (bool_decide (r = "admin")))) ;;
         when denied (reply 403 (ErrorBody "Not authorized to delete bookings")) ;;
         Booking_remove bid
     | _, _ => reply 404 (ErrorBody "Booking not found")
     end)
    catch_cast_404.

(** *** controllers/venues.js and controllers/services.js: one host *)

Definition catch_cast_not_found (message : string) (e : Exn) : Response :=
  match e with
  | CastError => {| code := 404; body := ErrorBody message |}
  | _ => serverError
  end.

(** [GET /api/venues/:id]; the answer's body is the host document. *)
Definition getVenue (id : RawId) : World → Answer (ObjectId * HostDoc) * World :=
  try_catch_with 200
    (venue <- Host_findById_raw id ;;
     match venue, id with
     | Some h, Oid vid =>
         when (negb (bool_decide (hostType h = "venue")))
              (reply 404 (ErrorBody "Venue not found")) ;;
         ret (vid, h)
     | _, _ => reply 404 (ErrorBody "Venue not found")
     end)
    (catch_cast_not_found "Venue not found").

(** [GET /api/services/:id] *)
Definition getServiceProvider (id : RawId)
  : World → Answer (ObjectId * HostDoc) * World :=
  try_catch_with 200
    (serviceProvider <- Host_findById_raw id ;;
     match serviceProvider, id with
     | Some h, Oid pid =>
         when (negb (includes ["caterer"; "decorator"; "organizer"] (hostType h)))
              (reply 404 (ErrorBody "Service provider not found")) ;;
         ret (pid, h)
     | _, _ => reply 404 (ErrorBody "Service provider not found")
     end)
    (catch_cast_not_found "Service provider not found").

(** [DELETE /api/venues/:id]; the [catch] block has no branch for a
    CastError.  The venue's id never equals [req.host.id], so no host
    passes the check. *)
Definition deleteVenue (who : Principal) (id : RawId)
  : World → Answer unit * World :=
  try_catch_with 200
    (venue <- Host_findById_raw id ;;
     match venue, id with
     | Some h, Oid vid =>
         when (negb (bool_decide (hostType h = "venue")))
              (reply 404 (ErrorBody "Venue not found")) ;;
         (* Make sure user is venue owner or admin *)
         denied <- orM
                     (andM (ret (isHost who))
                           (hid <- req_host_id who ;;
                            ret (negb (bool_decide (Some vid = hid)))))
                     (andM (ret (negb (isHost who)))
                           (r <- req_user_role who ;;
                            ret (negb (bool_decide (r = "admin"))))) ;;
         when denied (reply 401 (ErrorBody "Not authorized to delete this venue")) ;;
         Host_remove vid
     | _, _ => reply 404 (ErrorBody "Venue not found")
     end)
    catch_500.

(** *** controllers/bookings.js: getBookings *)

(** [req.query] of [GET /api/bookings].  A date parameter that is given
    holds what [new Date(..)] made of it ([Some None]: Invalid Date);
    [bq_page] and [bq_limit] hold what [parseInt] made of theirs. *)
Record BookingsQuery := {
  bq_startDate : option (option Z);
  bq_endDate : option (option Z);
  bq_status : option string;
  bq_page : option Z;
  bq_limit : option Z
}.

(** Whose bookings a query asks for: [{ user: id }], or the [$or] of
    [{ venue: id }] and [{ 'services.serviceProvider': id }].  In the
    second form [id] is [req.host.id]: an [undefined] value of a filter
    reaches the database as [null]. *)
Inductive Party :=
| OwnedBy (uid : ObjectId)
| Involving (hid : option ObjectId).

(** The filter object handed to [Booking.countDocuments] and
    [Booking.find]. *)
Record BookingFilter := {
  bf_party : Party;
  bf_startDate_gte : option (option Z);
  bf_endDate_lte : option (option Z);
  bf_status : option string
}.

(** Casting the filter to the schema: an Invalid Date does not cast. *)
Definition castable (f : BookingFilter) : bool :=
  negb (bool_decide (bf_startDate_gte f = Some None))
  && negb (bool_decide (bf_endDate_lte f = Some None)).

(** [{ venue: null }] matches a booking without a venue.
    [{ 'services.serviceProvider': null }] matches a booking one of whose
    service entries has no provider; every entry of this development has
    one, and a booking without entries does not match. *)
Definition involves (p : Party) (b : Booking) : bool :=
  match p with
  | OwnedBy uid => bool_decide (user b = uid)
  | Involving hid =>
      bool_decide (venue b = hid)
      || existsb (λ e, bool_decide (Some (serviceProvider e) = hid)) (services b)
  end.

Definition booking_matches (f : BookingFilter) (b : Booking) : bool :=
  involves (bf_party f) b
  && match bf_startDate_gte f with
     | Some (Some d) => match startDate (eventDetails b) with
                        | Some s => (d <=? s)%Z
                        | None => false
                        end
     | _ => true
     end
  && match bf_endDate_lte f with
     | Some (Some d) => match endDate (eventDetails b) with
                        | Some e => (e <=? d)%Z
                        | None => false
                        end
     | _ => true
     end
  && match bf_status f with
     | Some s => bool_decide (status b = s)
     | None => true
     end.

Definition matching_bookings (f : BookingFilter) (w : World)
  : list (ObjectId * Booking) :=
  List.filter (λ d, booking_matches f d.2) (map_to_list (bookingColl w)).

Definition Booking_countDocuments (f : BookingFilter) : Handler Z :=
  if castable f then gets (λ w, Z.of_nat (length (matching_bookings f w)))
  else throw CastError.

(** A booking as [populate] leaves it: the three paths replaced by the
    selected fields of the documents they resolve to ([None]: [null]). *)
Record PopulatedBooking := {
  pb_id : ObjectId;
  pb_booking : Booking;
  pb_user : option Contact;
  pb_venue : option (option Contact);
  pb_providers : list (option Contact)
}.

Definition populate (d : ObjectId * Booking) : Handler PopulatedBooking :=
  owner <- populate_user d.2 ;;
  venueHost <- populate_venue d.2 ;;
  providers <- populate_providers (services d.2) ;;
  ret {| pb_id := d.1; pb_booking := d.2; pb_user := owner;
         pb_venue := venueHost; pb_providers := providers |}.

Fixpoint populate_all (ds : list (ObjectId * Booking))
  : Handler (list PopulatedBooking) :=
  match ds with
  | [] => ret []
  | d :: rest =>
      p <- populate d ;;
      ps <- populate_all rest ;;
      ret (p :: ps)
  end.

(** The body of the answer of [getBookings]. *)
Record BookingsPage := {
  bp_count : nat;
  bp_pagination : Pagination;
  bp_data : list PopulatedBooking
}.

Section Bookings.

(** The [createdAt] path of the booking stored under an id.  The schema
    sets it when the document is created and no handler reads or assigns
    it; the [Booking] record leaves it out, and the sort of [getBookings]
    takes it from here. *)
Variable createdAt : ObjectId → Z.

(** [sort({ createdAt: -1 })]: the later document first. *)
Definition newerFirst (x y : ObjectId * Booking) : Prop :=
  (createdAt y.1 ≤ createdAt x.1)%Z.

#[local] Instance newerFirst_dec : RelDecision newerFirst :=
  λ x y, Z_le_dec (createdAt y.1) (createdAt x.1).

Definition newestFirst (ds : list (ObjectId * Booking))
  : list (ObjectId * Booking) :=
  merge_sort newerFirst ds.

(** [Booking.find(f).populate(..).skip(s).limit(l).sort({ createdAt: -1 })]:
    the cursor sorts, then skips, then limits, whatever the order of the
    calls; the documents that remain are populated. *)
Definition Booking_find_page (f : BookingFilter) (s l : Z)
  : Handler (list PopulatedBooking) :=
  if castable f then
    if (s <? 0)%Z then throw (Error "Skip value must be non-negative")
    else
      found <- gets (λ w,
                 let rest := drop (Z.to_nat s)
                               (newestFirst (matching_bookings f w)) in
                 if (l =? 0)%Z then rest else take (Z.to_nat (Z.abs l)) rest) ;;
      populate_all found
  else throw CastError.

(** [GET /api/bookings] *)
Definition getBookings (who : Principal) (q : BookingsQuery)
  : World → Answer BookingsPage * World :=
  try_catch_with 200
    (party <- (if isHost who
               then hid <- req_host_id who ;; ret (Involving hid)
               else uid <- req_user_id who ;; ret (OwnedBy uid)) ;;
     let query :=
       {| bf_party := party;
          bf_startDate_gte := bq_startDate q;
          bf_endDate_lte := bq_endDate q;
          bf_status := truthy (bq_status q) |} in
     (* Pagination *)
     let page := JS.or_default (bq_page q) 1 in
     let limit := JS.or_default (bq_limit q) 10 in
     let startIndex := ((page - 1) * limit)%Z in
     let endIndex := (page * limit)%Z in
     total <- Booking_countDocuments query ;;
     bookings <- Booking_find_page query startIndex limit ;;
     let pagination :=
       {| next := if (endIndex <? total)%Z
                  then Some {| page := (page + 1)%Z; limit := limit |} else None;
          prev := if (0 <? startIndex)%Z
                  then Some {| page := (page - 1)%Z; limit := limit |} else None |} in
     ret {| bp_count := length bookings; bp_pagination := pagination;
            bp_data := bookings |})
    catch_500.

End Bookings.

(** *** middleware/auth.js, server.js and the routes *)

(** [authorize(...roles)] *)
Definition authorize (roles : list string) (who : Principal) : Handler unit :=
  if isHost who then
    when (negb (includes roles "host"))
         (reply 403 (ErrorBody "Host role is not authorized to access this route"))
  else
    r <- req_user_role who ;;
    when (negb (includes roles r))
         (reply 403 (ErrorBody ("User role " ++ r
                                ++ " is not authorized to access this route"))).

Section Routes.

Variable threeMonthsFrom : Z → Z.

(** The [message] of an error that the engine or a library raises. *)
Variable libraryMessage : Exn → string.

Definition err_message (e : Exn) : string :=
  match e with
  | Error m => m
  | _ => libraryMessage e
  end.

(** The application's error-handling middleware:
    [{ success: false, error: err.message || 'Server Error' }]. *)
Definition errorHandler (e : Exn) : Response :=
  {| code := 500;
     body := ErrorBody (if bool_decide (err_message e = "") then "Server Error"
                        else err_message e) |}.

(** [router.METHOD(path, protect, middleware, handler)], after [protect]:
    the handler runs when the middleware calls [next()]; an exception of
    the middleware reaches the application's error handler. *)
Definition route {R} (failure : Response → R) (middleware : Handler unit)
    (handler : World → R * World) (w : World) : R * World :=
  match middleware w with
  | (Next _, w') => handler w'
  | (Replied r, w') => (failure r, w')
  | (Thrown e, w') => (failure (errorHandler e), w')
  end.

(** [router.route('/').post(authorize('user'), createBooking)] *)
Definition POST_bookings (now : Z) (newId : ObjectId) (who : Principal)
    (req : CreateBody) : World → Response * World :=
  route id (authorize ["user"] who) (createBooking threeMonthsFrom now newId who req).

(** [router.route('/:id').delete(authorize('admin'), deleteBooking)] *)
Definition DELETE_bookings_id (who : Principal) (id : RawId)
  : World → Answer unit * World :=
  route Failure (authorize ["admin"] who) (deleteBooking who id).

(** [router.post('/create-payment-intent', protect, authorize('user'),
    createPaymentIntent)] *)
Definition POST_payments_create_payment_intent (who : Principal)
    (bookingId : RawId) (method : option string) : World → Response * World :=
  route id (authorize ["user"] who) (createPaymentIntent who bookingId method).

(** [router.post('/confirm', protect, authorize('user'), confirmPayment)] *)
Definition POST_payments_confirm (now : Z) (who : Principal) (bookingId : RawId)
    (tx method : option string) : World → Response * World :=
  route id (authorize ["user"] who)
    (confirmPayment threeMonthsFrom now who bookingId tx method).

(** [router.delete('/:id', protect, authorize('host', 'admin'), deleteVenue)] *)
Definition DELETE_venues_id (who : Principal) (id : RawId)
  : World → Answer unit * World :=
  route Failure (authorize ["host"; "admin"] who) (deleteVenue who id).

End Routes.

(** * Vocabulary of the statements *)

(** ** Fan-outs *)

(** The world after the messages [l] were handed to the transports. *)
Definition add_outbox (l : list Notification) (w : World) : World :=
  {| bookingColl := bookingColl w; userColl := userColl w;
     hostColl := hostColl w; outbox := outbox w ++ l; charges := charges w |}.

(** The two messages that [notify_host] sends when the host resolves. *)
Definition hostPair (w : World) (hid : ObjectId) (mail sms : Contact → Notification)
  : list Notification :=
  match hostColl w !! hid with
  | Some h => [mail (hostContact h); sms (hostContact h)]
  | None => []
  end.

(** The messages of a loop over the service entries [ss]. *)
Definition providerPairs (mail sms : ServiceEntry → Contact → Notification)
    (w : World) (ss : list ServiceEntry) : list Notification :=
  flat_map (λ e, hostPair w (serviceProvider e) (mail e) (sms e)) ss.

(** ** Status updates *)

(** A target that passes the handler's first check. *)
Definition isValidTarget (target : option string) : bool :=
  match target with
  | Some s => bool_decide (s ∈ validTargets)
  | None => false
  end.



(** Every party that the booking references is in the host collection. *)
Definition hostsResolve (w : World) (b : Booking) : Prop :=
  (∀ v, venue b = Some v → is_Some (hostColl w !! v))
  ∧ Forall (λ e, is_Some (hostColl w !! serviceProvider e)) (services b).

(** The messages of a status change to [s], as the handler sends them. *)
Definition statusFanout (w : World) (id : ObjectId) (b : Booking) (s : string)
    (u : UserDoc) : list Notification :=
  [statusUserEmail id (set_status s b) s (userContact u);
   statusUserSMS id s (userContact u)]
  ++ (if bool_decide (s = "cancelled") || bool_decide (s = "completed")
      then match venue b with
           | Some v => hostPair w v (statusVenueEmail id (set_status s b) s)
                         (statusVenueSMS id s)
           | None => []
           end
           ++ providerPairs (statusProviderEmail id (set_status s b) s)
                (statusProviderSMS id s) w (services b)
      else []).

(** The caller passes the permission check for target [s]: the owning
    user, asking for a cancellation.  No host passes it. *)
Definition mayUpdate (who : Principal) (b : Booking) (s : string) : Prop :=
  match who with
  | AsHost _ => False
  | AsUser uid => user b = uid ∧ s = "cancelled"
  end.


Definition notAuthorizedToUpdate : Response :=
  {| code := 401; body := ErrorBody "Not authorized to update this booking" |}.

Definition usersCanOnlyCancel : Response :=
  {| code := 403; body := ErrorBody "Users can only cancel bookings" |}.

Definition invalidStatus : Response :=
  {| code := 400; body := ErrorBody invalidStatusMessage |}.

(** ** Payments *)

(** The messages of a confirmed payment, as the handler sends them; [b]
    is the booking as saved. *)
Definition paidFanout (w : World) (bid : ObjectId) (b : Booking)
    (tx : option string) (u : UserDoc) : list Notification :=
  [paidUserEmail bid b tx (userContact u); paidUserSMS bid b tx (userContact u)]
  ++ match venue b with
     | Some v => hostPair w v (paidVenueEmail bid b tx) (paidVenueSMS bid b)
     | None => []
     end
  ++ providerPairs (paidProviderEmail bid b tx) (paidProviderSMS bid) w (services b).

Definition alreadyPaid : Response :=
  {| code := 400; body := ErrorBody "Booking is already paid" |}.

(** The values interpolated into a message. *)
Definition carried (m : Notification) : list Arg :=
  match m with
  | EmailMsg _ _ args => args
  | SmsMsg _ _ args => args
  end.

(** The amounts and the transaction ids among them. *)
Definition amounts (m : Notification) : list (option JS.Number) :=
  omap (λ a, match a with Amount x => Some x | _ => None end) (carried m).

Definition transactionIds (m : Notification) : list (option string) :=
  omap (λ a, match a with TransactionId t => Some t | _ => None end) (carried m).

(** An email and an SMS to contact [c], in this order.  Both name the
    amount [x], and no other; the email names the transaction id [tx]; the
    SMS names it too when [smsNamesId] holds, and names no transaction id
    otherwise. *)
Definition isPairTo (c : Contact) (x : option JS.Number) (tx : option string)
    (smsNamesId : bool) (mail sms : Notification) : Prop :=
  (∃ subject args, mail = EmailMsg (email c) subject args)
  ∧ (∃ template args, sms = SmsMsg (mobileNumber c) template args)
  ∧ amounts mail = [x] ∧ transactionIds mail = [tx]
  ∧ amounts sms = [x]
  ∧ transactionIds sms = (if smsNamesId then [tx] else []).

(** Two messages to the host [hid], which resolves; the SMS of a host
    names no transaction id. *)
Definition pairFor (w : World) (hid : ObjectId) (x : option JS.Number)
    (tx : option string) (l : list Notification) : Prop :=
  ∃ h mail sms, hostColl w !! hid = Some h ∧ l = [mail; sms]
                ∧ isPairTo (hostContact h) x tx false mail sms.

(** One pair to the owning user, one to the venue host if there is a
    venue, and one to the provider of each service entry, in this order.
    The pairs of the user and of the venue name the advance amount of the
    booking; the pair of a provider names the price of its service. *)
Definition isPaidFanout (w : World) (b : Booking) (tx : option string)
    (u : UserDoc) (l : list Notification) : Prop :=
  ∃ mailU smsU lv lp,
    l = ([mailU; smsU] ++ lv ++ concat lp)%list
    ∧ isPairTo (userContact u) (advanceAmount (payment b)) tx true mailU smsU
    ∧ match venue b with
      | Some v => pairFor w v (advanceAmount (payment b)) tx lv
      | None => lv = []
      end
    ∧ Forall2 (λ e le, pairFor w (serviceProvider e) (price e) tx le)
        (services b) lp.

Definition hostsCannotConfirm : Response :=
  {| code := 403; body := ErrorBody "Hosts cannot confirm payments" |}.

Definition notAuthorizedToConfirm : Response :=
  {| code := 401;
     body := ErrorBody "Not authorized to confirm payment for this booking" |}.

(** The reply to a confirmation request for a booking that is paid. *)
Definition confirmRejection (who : Principal) (b : Booking) : Response :=
  match who with
  | AsHost _ => hostsCannotConfirm
  | AsUser uid => if bool_decide (user b = uid) then alreadyPaid
                  else notAuthorizedToConfirm
  end.

(** The first message of the payment fan-out for booking [bid]: the
    confirmation email to the owning user. *)
Definition opensPaidFanout (bid : ObjectId) (m : Notification) : bool :=
  match m with
  | EmailMsg _ subject (BookingId id :: _) =>
      bool_decide (subject = "EventO - Payment Confirmation")
      && bool_decide (id = bid)
  | _ => false
  end.

(** How many times the payment fan-out for [bid] was started. *)
Definition paidFanouts (bid : ObjectId) (l : list Notification) : nat :=
  length (List.filter (opensPaidFanout bid) l).

Definition onlyOnlinePayments : Response :=
  {| code := 400; body := ErrorBody "This endpoint is only for online payments" |}.

Definition hostsCannotPay : Response :=
  {| code := 403; body := ErrorBody "Hosts cannot make payments" |}.

Definition notAuthorizedToPay : Response :=
  {| code := 401;
     body := ErrorBody "Not authorized to make payment for this booking" |}.

(** The reply to a request for a payment intent that creates no charge. *)
Definition intentRejection (who : Principal) (b : Booking) : Response :=
  match who with
  | AsHost _ => hostsCannotPay
  | AsUser uid => if bool_decide (user b = uid)
                  then (if isPaid (payment b) then alreadyPaid
                        else onlyOnlinePayments)
                  else notAuthorizedToPay
  end.

(** Rounding, in the words of the specification.  [n] is the integer
    nearest to the number [num * 2^e], the upper one of two that are
    equally near: [n - 1/2 <= num * 2^e < n + 1/2], cleared of
    fractions. *)
Definition nearest (num e n : Z) : Prop :=
  ((2 * n - 1) * 2 ^ Z.max 0 (- e) ≤ 2 * num * 2 ^ Z.max 0 e
   ∧ 2 * num * 2 ^ Z.max 0 e < (2 * n + 1) * 2 ^ Z.max 0 (- e))%Z.

(** [r] is [round(advance * 100)]: the binary64 product of the advance
    amount and 100, rounded to the nearest integer.  The product of a
    missing amount is NaN. *)
Definition isMinorUnits (advance : option JS.Number) (r : JS.Integral) : Prop :=
  match advance with
  | Some a =>
      match Prim2SF (a * 100)%float with
      | S754_zero _ => r = JS.Int 0
      | S754_finite neg m e =>
          ∃ n, r = JS.Int n ∧ nearest (if neg then Z.neg m else Z.pos m) e n
      | S754_infinity neg => r = JS.Infinity neg
      | S754_nan => r = JS.NaN
      end
  | None => r = JS.NaN
  end.

(** ** Reads, creation and listings *)

(** The booking with its three paths populated. *)
Definition populated (w : World) (b : Booking) : Body :=
  PopulatedBody b
    (userContact <$> userColl w !! user b)
    (match venue b with
     | Some v => Some (hostContact <$> hostColl w !! v)
     | None => None
     end)
    (map (λ e, hostContact <$> hostColl w !! serviceProvider e) (services b)).

(** The venue of the request, if any, is a verified venue host. *)
Definition venueResolves (w : World) (raw : RawId) : Prop :=
  match raw with
  | Absent => True
  | Malformed => False
  | Oid v => ∃ h, hostColl w !! v = Some h
                  ∧ hostType h = "venue" ∧ isVerified h = true
  end.

(** The provider of a requested service is a verified host of the type
    that the service asks for. *)
Definition providerResolves (w : World) (s : ServiceInput) : Prop :=
  ∃ id h, in_serviceProvider s = Oid id
          ∧ hostColl w !! id = Some h
          ∧ hostType h = providerHostType (in_serviceType s)
          ∧ isVerified h = true.

(** The checks that precede the date check reply 404, throw a CastError,
    or pass; they never write. *)
Definition earlyExit {A} (st : Step A) : Prop :=
  match st with
  | Next _ => True
  | Replied r => code r = 404
  | Thrown e => e = CastError
  end.


(** The slice of the matching hosts that [skip] and [limit] select. *)
Definition pageSlice (regexTest : string → string → bool) (f : HostFilter)
    (skip limit : Z) (w : World)
  : list (ObjectId * HostDoc) :=
  let rest := drop (Z.to_nat skip) (matching regexTest f w) in
  if (limit =? 0)%Z then rest else take (Z.to_nat (Z.abs limit)) rest.

(** The answer for page 2 with limit 10 over 15 matching hosts. *)
Definition secondOfTwoPages (data : list (ObjectId * HostDoc)) : Response :=
  {| code := 200;
     body := ListBody 5
               {| next := None; prev := Some {| page := 1%Z; limit := 10%Z |} |}
               data |}.

(** A successful listing response: [count] is the number of items of the
    page that is returned. *)
Definition isListing (regexTest : string → string → bool) (f : HostFilter)
    (q : ListQuery) (w : World) (r : Response) : Prop :=
  let page := JS.or_default (q_page q) 1 in
  let limit := JS.or_default (q_limit q) 10 in
  let total := Z.of_nat (length (matching regexTest f w)) in
  ∃ pagination data,
    r = {| code := 200; body := ListBody (length data) pagination data |}
    ∧ data = pageSlice regexTest f ((page - 1) * limit) limit w
    ∧ (length data ≤ length (matching regexTest f w))%nat
    ∧ next pagination
      = (if (page * limit <? total)%Z
         then Some {| page := (page + 1)%Z; limit := limit |} else None)
    ∧ prev pagination
      = (if (0 <? (page - 1) * limit)%Z
         then Some {| page := (page - 1)%Z; limit := limit |} else None).

(** * A concrete marketplace

    One user with three bookings at a venue and a caterer, in the UTC
    calendar; the inputs at which the statements above are exercised. *)

Module Scenario.

Definition threeMonths : Z → Z := Calendar.utcThreeMonthsFrom.

Fixpoint upper (s : string) : string :=
  match s with
  | EmptyString => EmptyString
  | String c rest => String (toUpperCase c) (upper rest)
  end.

(** A pattern without metacharacters matches where it occurs, whatever
    the case. *)
Definition literalRegex (pattern s : string) : bool :=
  match String.index 0 (upper pattern) (upper s) with
  | Some _ => true
  | None => false
  end.

(** 2026-11-02T00:00:00Z, and an event ten days later. *)
Definition now : Z := 1793577600000.
Definition eventDay : Z := 1794441600000.

Definition asha : UserDoc :=
  {| userContact := {| email := "asha@example.com"; mobileNumber := "+910000000001" |};
     role := "user" |}.

Definition lawn : HostDoc :=
  {| hostContact := {| email := "lawn@example.com"; mobileNumber := "+910000000002" |};
     hostType := "venue"; isVerified := true; venueType := Some "lawn";
     city := Some "Pune"; maxGuestCapacity := Some 300%Z; offered := ["parking"] |}.

Definition caterer : HostDoc :=
  {| hostContact := {| email := "food@example.com"; mobileNumber := "+910000000003" |};
     hostType := "caterer"; isVerified := true; venueType := None;
     city := Some "Pune"; maxGuestCapacity := None; offered := ["buffet"] |}.

Definition decorator : HostDoc :=
  {| hostContact := {| email := "decor@example.com"; mobileNumber := "+910000000004" |};
     hostType := "decorator"; isVerified := true; venueType := None;
     city := Some "Mumbai"; maxGuestCapacity := None; offered := ["flowers"] |}.

Definition wedding : EventDetails :=
  {| eventType := Some "wedding"; guestCount := Some 120%float;
     startDate := Some eventDay; endDate := Some eventDay |}.

(** A date given as a number of milliseconds or as an ISO date string,
    and a date given as the string of the digits of its milliseconds. *)
Definition onDay (t : Z) : DateInput := {| asDate := Some t; asStored := Some t |}.

(** A wedding of 120 guests on one day. *)
Definition weddingOn (day : DateInput) : EventInput :=
  {| in_eventType := Some "wedding"; in_guestCount := Some 120%float;
     in_startDate := day; in_endDate := day |}.

Definition advance : Payment :=
  {| totalAmount := Some 50000%float; advanceAmount := Some 12500.5%float;
     remainingAmount := Some 37499.5%float; paymentMethod := Some "online_payment";
     isPaid := false; transactionId := None; paymentDate := None |}.

Definition booking (s : string) (p : Payment) : Booking :=
  {| user := "u1"; venue := Some "h1";
     services := [{| serviceProvider := "h2"; serviceType := Some "catering";
                     price := Some 20000%float |}];
     isServiceOnly := false; eventDetails := wedding;
     customerDetails := {| name := Some "Asha"; contactNumber := Some "+910000000001";
                           aadhaarNumber := Some "123412341234" |};
     payment := p; status := s;
     notifications := {| emailSent := true; smsSent := true; callMade := false |} |}.

Definition pendingBooking : Booking := booking "pending" advance.
Definition cancelledBooking : Booking := booking "cancelled" advance.
Definition paidBooking : Booking :=
  booking "confirmed" (mark_paid (Some "tx0") now None advance).

Definition world : World :=
  {| bookingColl := {[ "b1" := pendingBooking; "b2" := cancelledBooking;
                       "b3" := paidBooking ]};
     userColl := {[ "u1" := asha ]};
     hostColl := {[ "h1" := lawn; "h2" := caterer; "h3" := decorator ]};
     outbox := [];
     charges := [] |}.

(** Fifteen venues, and the second page of ten. *)
Definition venueIds : list ObjectId :=
  ["v01"; "v02"; "v03"; "v04"; "v05"; "v06"; "v07"; "v08"; "v09"; "v10";
   "v11"; "v12"; "v13"; "v14"; "v15"].

Definition directory : World :=
  {| bookingColl := ∅;
     userColl := ∅;
     hostColl := list_to_map (map (λ id, (id, lawn)) venueIds);
     outbox := [];
     charges := [] |}.

Definition pageTwo : ListQuery :=
  {| q_venueType := None; q_type := None; q_city := Some "pune";
     q_minCapacity := Some 100%Z; q_services := None;
     q_page := Some 2%Z; q_limit := Some 10%Z |}.

(** A request for a wedding at a venue on a day. *)
Definition requestOn (venue : RawId) (day : DateInput) : CreateBody :=
  {| cb_venue := venue;
     cb_services := None;
     cb_eventDetails := Some (weddingOn day);
     cb_customerDetails := Some (customerDetails pendingBooking);
     cb_payment := Some advance |}.

(** A request for a lawn wedding [days] days from now. *)
Definition request (venue : RawId) (days : Z) : CreateBody :=
  requestOn venue (onDay (now + days * Calendar.msPerDay)%Z).

(** Noon of 2026-11-30 and of 2026-12-01, and an event on 2027-03-02. *)
Definition lastOfNovember : Z := 1796040000000.
Definition firstOfDecember : Z := 1796126400000.
Definition secondOfMarch : Z := 1803945600000.

Definition marchRequest : CreateBody := requestOn (Oid "h1") (onDay secondOfMarch).


End Scenario.

(** * Vocabulary of the further statements *)

(** ** The provider callback *)

Definition received : Response := {| code := 200; body := ReceivedBody |}.

(** ** Notification blocks *)

(** A notification block ends normally or with the TypeError of a host
    that does not resolve; it only appends messages. *)
Definition sentOrThrew (st : Step unit) : Prop :=
  st = Next tt ∨ st = Thrown TypeError.

(** ** Creation *)

(** The service entry that the create handler stores for a requested
    service whose provider is an ObjectId. *)
Definition requestedEntry (s : ServiceInput) : option ServiceEntry :=
  match in_serviceProvider s with
  | Oid id => Some {| serviceProvider := id; serviceType := in_serviceType s;
                      price := in_price s |}
  | _ => None
  end.

(** The document that the create handler hands to [Booking.create]. *)
Definition requestedBooking (uid : ObjectId) (req : CreateBody)
    (ev : EventInput) : Booking :=
  {| user := uid;
     venue := match cb_venue req with Oid v => Some v | _ => None end;
     services := omap requestedEntry (default [] (cb_services req));
     isServiceOnly := match cb_venue req, cb_services req with
                      | Absent, Some (_ :: _) => true
                      | _, _ => false
                      end;
     eventDetails := storedEvent ev;
     customerDetails := default undefinedCustomer (cb_customerDetails req);
     payment := default undefinedPayment (cb_payment req);
     status := "pending";
     notifications := noNotifications |}.

(** The notification flags of a booking whose creation messages went out. *)
Definition notified : NotificationFlags :=
  {| emailSent := true; smsSent := true; callMade := false |}.

(** The messages about a new booking, as the create handler sends them;
    [ev] is the event of the request as the templates read it. *)
Definition newFanout (w : World) (id : ObjectId) (ev : EventDetails)
    (b : Booking) (u : UserDoc) : list Notification :=
  [newUserEmail id ev (payment b) (userContact u);
   newUserSMS id (payment b) (userContact u)]
  ++ match venue b with
     | Some v => hostPair w v (newVenueEmail id ev) (newVenueSMS id ev)
     | None => []
     end
  ++ providerPairs (newProviderEmail id ev) (newProviderSMS id ev) w (services b).

(** The start date of the request, as the handler reads it, passes the
    handler's date check. *)
Definition passesDateCheck (threeMonthsFrom : Z → Z) (now : Z) (ev : EventInput)
  : Prop :=
  match asDate (in_startDate ev) with
  | Some d => (d ≤ threeMonthsFrom now)%Z
  | None => True
  end.

(** A request that the create handler accepts at time [now] under the
    fresh id [newId]: the event details and the payment are given, the
    venue and the providers are verified hosts of the right type, the
    caller resolves, the start date passes the handler's check, and the
    document passes the schema and the date guard. *)
Definition acceptable (threeMonthsFrom : Z → Z) (now : Z) (newId uid : ObjectId)
    (req : CreateBody) (ev : EventInput) (p : Payment) (u : UserDoc)
    (w : World) : Prop :=
  cb_eventDetails req = Some ev
  ∧ passesDateCheck threeMonthsFrom now ev
  ∧ cb_payment req = Some p
  ∧ venueResolves w (cb_venue req)
  ∧ Forall (providerResolves w) (default [] (cb_services req))
  ∧ userColl w !! uid = Some u
  ∧ bookingColl w !! newId = None
  ∧ BookingSchema_validate (requestedBooking uid req ev) = []
  ∧ pre_save threeMonthsFrom now (requestedBooking uid req ev) = None.

(** ** Answers *)

Definition notFound (message : string) : Response :=
  {| code := 404; body := ErrorBody message |}.

Definition notAuthorizedToDelete : Response :=
  {| code := 403; body := ErrorBody "Not authorized to delete bookings" |}.

Definition notAuthorizedToDeleteVenue : Response :=
  {| code := 401; body := ErrorBody "Not authorized to delete this venue" |}.

Definition hostRoleRefused : Response :=
  {| code := 403;
     body := ErrorBody "Host role is not authorized to access this route" |}.

Definition userRoleRefused (r : string) : Response :=
  {| code := 403;
     body := ErrorBody ("User role " ++ r
                        ++ " is not authorized to access this route") |}.

(** The caller is a user whose document carries the role [r]. *)
Definition hasRole (w : World) (who : Principal) (r : string) : Prop :=
  match who with
  | AsUser uid => role <$> userColl w !! uid = Some r
  | AsHost _ => False
  end.

(** ** Listings *)

(** The items of a listing response. *)
Definition listed (r : Response) : list (ObjectId * HostDoc) :=
  match body r with
  | ListBody _ _ data => data
  | _ => []
  end.

(** The query [q] asking for page [p] with limit [l]. *)
Definition onPage (q : ListQuery) (p l : Z) : ListQuery :=
  {| q_venueType := q_venueType q; q_type := q_type q; q_city := q_city q;
     q_minCapacity := q_minCapacity q; q_services := q_services q;
     q_page := Some p; q_limit := Some l |}.

(** The items of pages [1 .. n] of a listing, in order. *)
Fixpoint firstPages (get : ListQuery → World → Response * World)
    (q : ListQuery) (l : Z) (n : nat) (w : World) : list (ObjectId * HostDoc) :=
  match n with
  | O => []
  | S k => firstPages get q l k w ++ listed (get (onPage q (Z.of_nat n) l) w).1
  end.

(** ** Bookings of a caller *)








(** A query without filters that asks for the first page. *)
Definition everything (limit : Z) : BookingsQuery :=
  {| bq_startDate := None; bq_endDate := None; bq_status := None;
     bq_page := None; bq_limit := Some limit |}.

(** * A marketplace whose venue is gone *)

Module Cases.

Definition admin : UserDoc :=
  {| userContact := {| email := "root@example.com"; mobileNumber := "+910000000009" |};
     role := "admin" |}.

(** The marketplace with an administrator. *)
Definition staffed : World :=
  {| bookingColl := bookingColl Scenario.world;
     userColl := <[ "a1" := admin ]> (userColl Scenario.world);
     hostColl := hostColl Scenario.world;
     outbox := [];
     charges := [] |}.

(** The administrator deletes the record of the venue host [h1]. *)
Definition afterVenueLeft : World :=
  (deleteVenue (AsUser "a1") (Oid "h1") staffed).2.

(** A booking of the caterer alone, owned by another user. *)
Definition cateringOnly : Booking :=
  {| user := "u2"; venue := None;
     services := services Scenario.pendingBooking;
     isServiceOnly := true; eventDetails := Scenario.wedding;
     customerDetails := customerDetails Scenario.pendingBooking;
     payment := Scenario.advance; status := "pending";
     notifications := notified |}.

(** The marketplace with that booking. *)
Definition withCateringOnly : World :=
  with_bookings (insert "b4" cateringOnly) Scenario.world.

(** A wedding ten days from now. *)
Definition weddingDay : EventInput :=
  Scenario.weddingOn (Scenario.onDay Scenario.eventDay).

(** A request for the lawn with catering on that day. *)
Definition cateredRequest : CreateBody :=
  {| cb_venue := Oid "h1";
     cb_services :=
       Some [{| in_serviceProvider := Oid "h2"; in_serviceType := Some "catering";
                in_price := Some 20000%float |}];
     cb_eventDetails := Some weddingDay;
     cb_customerDetails := Some (customerDetails Scenario.pendingBooking);
     cb_payment := Some Scenario.advance |}.

(** The same request with a payment that says it is paid. *)
Definition prepaid : Payment :=
  mark_paid (Some "none") Scenario.now None Scenario.advance.

Definition prepaidRequest : CreateBody :=
  {| cb_venue := cb_venue cateredRequest;
     cb_services := cb_services cateredRequest;
     cb_eventDetails := cb_eventDetails cateredRequest;
     cb_customerDetails := cb_customerDetails cateredRequest;
     cb_payment := Some prepaid |}.

(** Creation times: the later id is the later booking. *)
Definition createdAt (id : ObjectId) : Z :=
  if bool_decide (id = "b1") then 1 else if bool_decide (id = "b2") then 2
  else if bool_decide (id = "b3") then 3 else 4.

End Cases.

(** * Properties *)

(** ** The platform functions on examples *)

Example round_half_up :
  JS.Math_round 2.5%float = JS.Int 3
  ∧ JS.Math_round (-2.5)%float = JS.Int (-2)
  ∧ JS.Math_round (-0.25)%float = JS.Int 0
  ∧ JS.Math_round 12500.25%float = JS.Int 12500
  ∧ JS.Math_round 0x1p+60%float = JS.Int (2 ^ 60).
Proof. by vm_compute. Qed.

(** In binary64 the product [1.005 * 100] falls just short of 100.5, and
    the product [0.615 * 100] is 61.5. *)
Example round_of_a_product :
  JS.Math_round (0x1.0147ae147ae14p+0 * 100)%float = JS.Int 100
  ∧ JS.Math_round (0x1.3ae147ae147aep-1 * 100)%float = JS.Int 62.
Proof. by vm_compute. Qed.

(** Three months after 2026-11-02 is 2027-02-02; three months after
    2026-11-30 is 2027-03-02, since February has no 30th. *)
Example three_months_later :
  Calendar.civil_from_days (Calendar.utcThreeMonthsFrom
                              (Calendar.days_from_civil 2026 11 2 * Calendar.msPerDay)
                            / Calendar.msPerDay) = (2027, 2, 2)%Z
  ∧ Calendar.civil_from_days (Calendar.utcThreeMonthsFrom
                                (Calendar.days_from_civil 2026 11 30 * Calendar.msPerDay)
                              / Calendar.msPerDay) = (2027, 3, 2)%Z.
Proof. by vm_compute. Qed.

Example capitalize_status : capitalize "completed" = "Completed".
Proof. reflexivity. Qed.

Example split_services :
  split_comma "parking,buffet" = ["parking"; "buffet"] ∧ split_comma "" = [""].
Proof. by split. Qed.

(** ** Running a handler step by step *)

Section Running.
Context {A B : Type}.
Implicit Types (h : Handler A) (k : A → Handler B) (w : World).

Lemma bind_next h k w a w' : h w = (Next a, w') → bind h k w = k a w'.
Proof. unfold bind. by intros ->. Qed.

Lemma bind_replied h k w r w' :
  h w = (Replied r, w') → bind h k w = (Replied r, w').
Proof. unfold bind. by intros ->. Qed.

Lemma bind_thrown h k w e w' :
  h w = (Thrown e, w') → bind h k w = (Thrown e, w').
Proof. unfold bind. by intros ->. Qed.

Lemma bind_ret a k w : bind (ret a) k w = k a w.
Proof. reflexivity. Qed.

Lemma bind_gets (f : World → A) k w : bind (gets f) k w = k (f w) w.
Proof. reflexivity. Qed.

Lemma bind_reply c body k w :
  bind (reply c body) k w = (Replied {| code := c; body := body |}, w).
Proof. reflexivity. Qed.

Lemma bind_throw e k w : bind (throw e) k w = (Thrown e, w).
Proof. reflexivity. Qed.
End Running.

Lemma bind_modify {B} f (k : unit → Handler B) w : bind (modify f) k w = k tt (f w).
Proof. reflexivity. Qed.

Lemma bind_send {B} m (k : unit → Handler B) w : bind (send m) k w = k tt (with_outbox m w).
Proof. reflexivity. Qed.

Lemma bind_when_false {B} h (k : unit → Handler B) w :
  bind (when false h) k w = k tt w.
Proof. reflexivity. Qed.

Lemma bind_when_true {B} h (k : unit → Handler B) w :
  bind (when true h) k w = bind h k w.
Proof. reflexivity. Qed.

Lemma bind_deref_some {A B} (a : A) (k : A → Handler B) w :
  bind (deref (Some a)) k w = k a w.
Proof. reflexivity. Qed.

Lemma bind_deref_none {A B} (k : A → Handler B) w :
  bind (deref None) k w = (Thrown TypeError, w).
Proof. reflexivity. Qed.

Lemma bind_assoc {A B C} (h : Handler A) (k : A → Handler B) (k' : B → Handler C) w :
  bind (bind h k) k' w = bind h (λ a, bind (k a) k') w.
Proof. unfold bind. destruct (h w) as [[a|r|e] w']; reflexivity. Qed.

Create Rewrite HintDb handler.
#[local] Hint Rewrite @bind_ret @bind_gets @bind_reply @bind_throw @bind_modify
  @bind_send @bind_when_false @bind_when_true @bind_deref_some @bind_deref_none
  : handler.

Ltac hstep := autorewrite with handler; cbn beta iota.

(** Membership in a list of string literals, decided by comparison. *)
Ltac not_in_literals H :=
  repeat (apply elem_of_cons in H as [H|H]; [discriminate H|]);
  by apply elem_of_nil in H.

(** ** Worlds that differ by appended messages *)

Lemma with_outbox_add m w : with_outbox m w = add_outbox [m] w.
Proof. reflexivity. Qed.

Lemma add_outbox_add l1 l2 w :
  add_outbox l2 (add_outbox l1 w) = add_outbox (l1 ++ l2) w.
Proof. unfold add_outbox. cbn. by rewrite app_assoc. Qed.

Lemma add_outbox_nil w : add_outbox [] w = w.
Proof. destruct w. unfold add_outbox. cbn. by rewrite app_nil_r. Qed.

Lemma notify_host_resolved hid mail sms w :
  is_Some (hostColl w !! hid) →
  notify_host hid mail sms w = (Next tt, add_outbox (hostPair w hid mail sms) w).
Proof.
  intros [h Hh]. unfold notify_host, Host_findById, hostPair. hstep.
  rewrite Hh. hstep. unfold send, modify, with_outbox, add_outbox. cbn.
  by rewrite <- app_assoc.
Qed.

Lemma notify_host_dangling hid mail sms w :
  hostColl w !! hid = None →
  notify_host hid mail sms w = (Thrown TypeError, w).
Proof.
  intros Hh. unfold notify_host, Host_findById. hstep. rewrite Hh. by hstep.
Qed.

Section Loops.
Variables (mail sms : ServiceEntry → Contact → Notification).
Variable f : ServiceEntry → Handler unit.
Hypothesis f_spec :
  ∀ e, f e = notify_host (serviceProvider e) (mail e) (sms e).

Lemma for_each_resolved ss w :
  Forall (λ e, is_Some (hostColl w !! serviceProvider e)) ss →
  for_each ss f w = (Next tt, add_outbox (providerPairs mail sms w ss) w).
Proof.
  intros Hall. revert w Hall.
  induction ss as [|e ss IH]; intros w Hall; cbn [for_each providerPairs flat_map].
  - by rewrite add_outbox_nil.
  - apply Forall_cons in Hall as [He Hss].
    erewrite bind_next; [|rewrite f_spec; by apply notify_host_resolved].
    rewrite IH by done. by rewrite add_outbox_add.
Qed.

(** Whatever resolves, a loop of notifications only appends messages of
    its two templates. *)
Lemma for_each_appends ss w :
  ∃ st l, for_each ss f w = (st, add_outbox l w)
          ∧ Forall (λ m, ∃ e c, m = mail e c ∨ m = sms e c) l.
Proof.
  revert w. induction ss as [|e ss IH]; intros w; cbn [for_each].
  - exists (Next tt), []. rewrite add_outbox_nil. by split.
  - destruct (hostColl w !! serviceProvider e) as [h|] eqn:Hh.
    + erewrite bind_next;
        [|rewrite f_spec; apply notify_host_resolved; by rewrite Hh].
      destruct (IH (add_outbox (hostPair w (serviceProvider e) (mail e) (sms e)) w))
        as (st & l & -> & Hl).
      exists st, (hostPair w (serviceProvider e) (mail e) (sms e) ++ l)%list.
      rewrite add_outbox_add. split; [done|].
      apply Forall_app. split; [|done].
      unfold hostPair. rewrite Hh. repeat constructor; eauto.
    + erewrite bind_thrown; [|rewrite f_spec; by apply notify_host_dangling].
      exists (Thrown TypeError), []. rewrite add_outbox_nil. by split.
Qed.
End Loops.

(** The fan-out's step for the venue, which a booking may not have. *)
Lemma venue_notify_resolved (f : ObjectId → Handler unit)
    (mail sms : Contact → Notification) (venue : option ObjectId) w0 w :
  (∀ v, f v = notify_host v mail sms) →
  hostColl w = hostColl w0 →
  (∀ v, venue = Some v → is_Some (hostColl w0 !! v)) →
  match venue with
  | Some v => f v
  | None => ret ()
  end w
  = (Next tt, add_outbox match venue with
                         | Some v => hostPair w0 v mail sms
                         | None => []
                         end w).
Proof.
  intros Hf Hw Hres. destruct venue as [v|].
  - rewrite Hf, notify_host_resolved.
    + unfold hostPair. by rewrite Hw.
    + rewrite Hw. by apply Hres.
  - cbn. by rewrite add_outbox_nil.
Qed.

(** Membership of a literal in a list of literals. *)
Lemma notify_host_outcome hid mail sms w :
  ∃ st l, notify_host hid mail sms w = (st, add_outbox l w) ∧ sentOrThrew st.
Proof.
  destruct (hostColl w !! hid) as [h|] eqn:Hh.
  - rewrite notify_host_resolved by (by rewrite Hh). do 2 eexists.
    split; [reflexivity|by left].
  - rewrite notify_host_dangling by done.
    exists (Thrown TypeError), []. rewrite add_outbox_nil. split; [done|by right].
Qed.

Lemma for_each_outcome (f : ServiceEntry → Handler unit)
    (mail sms : ServiceEntry → Contact → Notification) ss w :
  (∀ e, f e = notify_host (serviceProvider e) (mail e) (sms e)) →
  ∃ st l, for_each ss f w = (st, add_outbox l w) ∧ sentOrThrew st.
Proof.
  intros Hf. revert w. induction ss as [|e ss IH]; intros w; cbn [for_each].
  - exists (Next tt), []. rewrite add_outbox_nil. split; [done|by left].
  - destruct (notify_host_outcome (serviceProvider e) (mail e) (sms e) w)
      as (st & l & Hrun & [-> | ->]); rewrite <- Hf in Hrun.
    + erewrite bind_next by exact Hrun.
      destruct (IH (add_outbox l w)) as (st & l' & -> & Hst).
      exists st, (l ++ l')%list. by rewrite add_outbox_add.
    + erewrite bind_thrown by exact Hrun. do 2 eexists.
      split; [reflexivity|by right].
Qed.

Ltac in_literals := repeat first [apply list_elem_of_here | apply list_elem_of_further].

Section Properties.
Variable threeMonthsFrom : Z → Z.
Variable regexTest : string → string → bool.

(** *** Status updates *)

Lemma target_check (s : string) :
  s ∈ validTargets →
  negb (bool_decide (s = "")) && includes validTargets s = true.
Proof.
  intros Hin. unfold includes.
  rewrite (bool_decide_eq_true_2 (s ∈ validTargets)) by done.
  rewrite andb_true_r. apply negb_true_iff, bool_decide_eq_false_2.
  intros ->. unfold validTargets in Hin. not_in_literals Hin.
Qed.

Lemma invalid_target now who id target w :
  isValidTarget target = false →
  updateBookingStatus threeMonthsFrom now who id target w
  = ({| code := 400; body := ErrorBody invalidStatusMessage |}, w).
Proof.
  intros Hbad. unfold updateBookingStatus, try_catch.
  destruct target as [s|]; [|reflexivity].
  cbn in Hbad. unfold includes. rewrite Hbad, andb_false_r. reflexivity.
Qed.

(** The check of the host branch compares the booking's venue and
    providers with [req.host.id], which is undefined: it denies. *)
Lemma host_check_denies (b : Booking) (hid : option ObjectId) :
  hid = None →
  negb match venue b with
       | Some v => bool_decide (Some v = hid)
       | None => false
       end
  && negb (existsb (λ e, bool_decide (Some (serviceProvider e) = hid)) (services b))
  = true.
Proof.
  intros ->. apply andb_true_iff. split; apply negb_true_iff.
  - destruct (venue b); [by apply bool_decide_eq_false_2|done].
  - induction (services b) as [|e ss IH]; [done|].
    cbn [existsb]. by rewrite bool_decide_eq_false_2.
Qed.


(** *** Documents that save *)

Lemma validate_set_status s b :
  BookingSchema_validate b = [] → s ∈ statusEnum →
  BookingSchema_validate (set_status s b) = [].
Proof.
  unfold BookingSchema_validate, validate_assigned. intros Hb Hs.
  apply app_eq_nil in Hb as [Hfixed Hb].
  apply app_eq_nil in Hb as [Hreq Hb].
  apply app_eq_nil in Hb as [Hmeth _].
  change (validate_fixed (set_status s b)) with (validate_fixed b).
  cbn [set_status payment status]. rewrite Hfixed, Hreq, Hmeth. cbn.
  unfold includes. by rewrite bool_decide_eq_true_2.
Qed.

Lemma validTargets_statusEnum s : s ∈ validTargets → s ∈ statusEnum.
Proof. intros H. apply elem_of_cons. by right. Qed.

Lemma Booking_save_ok now id b w :
  BookingSchema_validate b = [] → pre_save threeMonthsFrom now b = None →
  Booking_save threeMonthsFrom now id b w
  = (Next tt, with_bookings (insert id b) w).
Proof. unfold Booking_save. by intros -> ->. Qed.

Lemma status_update_runs now who id b s u w :
  bookingColl w !! id = Some b →
  s ∈ validTargets →
  mayUpdate who b s →
  BookingSchema_validate b = [] →
  pre_save threeMonthsFrom now b = None →
  userColl w !! user b = Some u →
  hostsResolve w b →
  updateBookingStatus threeMonthsFrom now who (Oid id) (Some s) w
  = ({| code := 200; body := BookingBody (set_status s b) |},
     add_outbox (statusFanout w id b s u)
       (with_bookings (insert id (set_status s b)) w)).
Proof.
  intros Hb Hs Hmay Hvalid Hpre Hu [Hvenue Hprov].
  unfold updateBookingStatus, try_catch.
  rewrite (target_check s Hs). hstep. cbn [Booking_findById]. hstep.
  rewrite Hb. cbn beta iota.
  assert (Hsave : Booking_save threeMonthsFrom now id (set_status s b) w
                  = (Next tt, with_bookings (insert id (set_status s b)) w)).
  { apply Booking_save_ok; [|done].
    by apply validate_set_status, validTargets_statusEnum. }
  set (w1 := with_bookings (insert id (set_status s b)) w) in *.
  destruct who as [uid|hid]; [|done]. destruct Hmay as [Hown Hcan].
  cbn [isHost req_user_id]. rewrite !bind_assoc. hstep.
  rewrite !bool_decide_eq_true_2 by done. cbn [negb when].
  rewrite ?bind_assoc. hstep.
  erewrite bind_next by exact Hsave.
  unfold User_findById. hstep. cbn [set_status user]. 
  replace (userColl w1 !! user b) with (Some u) by done. hstep.
  rewrite !with_outbox_add, add_outbox_add. unfold statusFanout.
  rewrite (bool_decide_eq_true_2 (s = "cancelled")) by done. cbn [orb].
  rewrite bind_assoc. cbn [set_status venue services].
  erewrite bind_next.
  2:{ by apply (venue_notify_resolved (notify_status_venue id (set_status s b) s)
                  (statusVenueEmail id (set_status s b) s) (statusVenueSMS id s)
                  (venue b) w). }
  erewrite bind_next.
  2:{ apply (for_each_resolved (statusProviderEmail id (set_status s b) s)
               (statusProviderSMS id s)); [done|]. exact Hprov. }
  cbn [ret]. rewrite !add_outbox_add. unfold providerPairs at 1, hostPair.
  cbn [add_outbox hostColl w1 with_bookings]. by rewrite <- app_assoc.
Qed.

Lemma user_update_rejected now uid id b s w :
  bookingColl w !! id = Some b →
  s ∈ validTargets → s ≠ "cancelled" →
  updateBookingStatus threeMonthsFrom now (AsUser uid) (Oid id) (Some s) w
  = (if bool_decide (user b = uid) then usersCanOnlyCancel
     else notAuthorizedToUpdate, w).
Proof.
  intros Hb Hs Hne.
  unfold updateBookingStatus, try_catch.
  rewrite (target_check s Hs). hstep. cbn [Booking_findById]. hstep.
  rewrite Hb. cbn beta iota. cbn [isHost req_user_id]. rewrite !bind_assoc. hstep.
  destruct (bool_decide (user b = uid)); cbn [negb]; hstep; [|reflexivity].
  rewrite (bool_decide_eq_false_2 (s = "cancelled")) by done.
  cbn [negb]. hstep. reflexivity.
Qed.


(** C7 (amended).  For a booking and its owning user: a status-update
    request targeting confirmed or completed fails with 403 (Forbidden),
    one targeting pending or anything else outside the three accepted
    targets fails with 400 (InvalidArgument), and in both cases the world
    is unchanged; a request targeting cancelled succeeds -- the booking is
    stored with status cancelled and the cancellation fan-out is sent --
    when the document saves and the referenced parties resolve. *)
Theorem owner_status_update now uid id b target w :
  bookingColl w !! id = Some b →
  user b = uid →
  let result :=
    updateBookingStatus threeMonthsFrom now (AsUser uid) (Oid id) target w in
  (target = Some "confirmed" ∨ target = Some "completed" →
     result = (usersCanOnlyCancel, w)
     ∧ classify result.1 = Some Forbidden)
  ∧ (isValidTarget target = false →
       result = (invalidStatus, w)
       ∧ classify result.1 = Some Validation)
  ∧ (target = Some "cancelled" →
     BookingSchema_validate b = [] →
     pre_save threeMonthsFrom now b = None →
     hostsResolve w b →
     ∀ u, userColl w !! uid = Some u →
       result
       = ({| code := 200; body := BookingBody (set_status "cancelled" b) |},
          add_outbox (statusFanout w id b "cancelled" u)
            (with_bookings (insert id (set_status "cancelled" b)) w))).
Proof.
  intros Hb Hown result. subst result. split; [|split].
  - intros Htarget.
    assert (∃ s, target = Some s ∧ s ∈ validTargets ∧ s ≠ "cancelled")
      as (s & -> & Hs & Hne).
    { destruct Htarget as [-> | ->]; eexists; (split; [done|]);
        unfold validTargets; split; [in_literals|done|in_literals|done]. }
    rewrite (user_update_rejected now uid id b s w Hb Hs Hne).
    by rewrite bool_decide_eq_true_2.
  - intros Hbad. by rewrite invalid_target.
  - intros -> Hvalid Hpre Hres u Hu. subst uid.
    apply status_update_runs; try done.
    unfold validTargets. in_literals.
Qed.


(** *** Payment confirmation *)

Lemma validate_confirm_paid tx date m b :
  BookingSchema_validate b = [] → m ∈ paymentMethodEnum →
  BookingSchema_validate (confirm_paid tx date (Some (Some m)) b) = [].
Proof.
  unfold BookingSchema_validate, validate_assigned. intros Hb Hm.
  apply app_eq_nil in Hb as [Hfixed _].
  change (validate_fixed (confirm_paid tx date (Some (Some m)) b))
    with (validate_fixed b).
  rewrite Hfixed. cbn. unfold includes.
  by rewrite bool_decide_eq_true_2.
Qed.

Lemma validate_confirm_paid_webhook tx date b :
  BookingSchema_validate b = [] →
  BookingSchema_validate (confirm_paid tx date None b) = [].
Proof.
  unfold BookingSchema_validate, validate_assigned. intros Hb.
  apply app_eq_nil in Hb as [Hfixed Hb].
  apply app_eq_nil in Hb as [Hreq Hb].
  apply app_eq_nil in Hb as [Hmeth _].
  change (validate_fixed (confirm_paid tx date None b)) with (validate_fixed b).
  cbn [confirm_paid set_status set_payment mark_paid payment status paymentMethod].
  by rewrite Hfixed, Hreq, Hmeth.
Qed.

(** The confirmation of the owner of an unpaid booking, when the document
    saves and the parties resolve. *)
Lemma confirmPayment_saved now uid bid b tx method u w :
  bookingColl w !! bid = Some b →
  user b = uid →
  isPaid (payment b) = false →
  let b' := confirm_paid tx now (Some method) b in
  BookingSchema_validate b' = [] →
  pre_save threeMonthsFrom now b' = None →
  userColl w !! uid = Some u →
  hostsResolve w b →
  confirmPayment threeMonthsFrom now (AsUser uid) (Oid bid) tx method w
  = ({| code := 200; body := BookingBody b' |},
     add_outbox (paidFanout w bid b' tx u) (with_bookings (insert bid b') w)).
Proof.
  intros Hb Hown Hunpaid b' Hvalid Hpre Hu [Hvenue Hprov].
  unfold confirmPayment, try_catch. cbn [isHost]. hstep.
  cbn [Booking_findById]. hstep. rewrite Hb. cbn beta iota.
  cbn [req_user_id]. hstep.
  rewrite bool_decide_eq_true_2 by done. cbn [negb]. hstep.
  rewrite Hunpaid. hstep. fold b'.
  erewrite bind_next by (by apply Booking_save_ok).
  set (w1 := with_bookings (insert bid b') w).
  unfold User_findById. hstep.
  replace (userColl w1 !! uid) with (Some u) by done. hstep.
  rewrite !with_outbox_add, add_outbox_add. unfold paidFanout.
  change (venue b') with (venue b). change (services b') with (services b).
  erewrite bind_next.
  2:{ by apply (venue_notify_resolved (notify_paid_venue bid b' tx)
                  (paidVenueEmail bid b' tx) (paidVenueSMS bid b') (venue b) w). }
  erewrite bind_next.
  2:{ apply (for_each_resolved (paidProviderEmail bid b' tx) (paidProviderSMS bid));
        [done|exact Hprov]. }
  cbn [ret]. rewrite !add_outbox_add. unfold providerPairs at 1, hostPair.
  cbn [add_outbox hostColl w1 with_bookings]. by rewrite <- app_assoc.
Qed.

(** The confirmation of the owner of an unpaid booking, when the document
    does not save. *)
Lemma confirmPayment_not_saved now uid bid b tx method w :
  bookingColl w !! bid = Some b →
  user b = uid →
  isPaid (payment b) = false →
  let b' := confirm_paid tx now (Some method) b in
  BookingSchema_validate b' ≠ [] ∨ pre_save threeMonthsFrom now b' ≠ None →
  confirmPayment threeMonthsFrom now (AsUser uid) (Oid bid) tx method w
  = (serverError, w).
Proof.
  intros Hb Hown Hunpaid b' Hfail.
  unfold confirmPayment, try_catch. cbn [isHost]. hstep.
  cbn [Booking_findById]. hstep. rewrite Hb. cbn beta iota.
  cbn [req_user_id]. hstep.
  rewrite bool_decide_eq_true_2 by done. cbn [negb]. hstep.
  rewrite Hunpaid. hstep. fold b'. unfold Booking_save.
  destruct (BookingSchema_validate b') as [|msg msgs]; [|reflexivity].
  destruct (pre_save threeMonthsFrom now b') as [e|]; [reflexivity|].
  by destruct Hfail.
Qed.

(** A method that is missing, or that is not one of the schema's, fails
    the validation of the document. *)
Lemma invalid_method_fails tx date method b :
  (∀ m, method = Some m → m ∉ paymentMethodEnum) →
  BookingSchema_validate (confirm_paid tx date (Some method) b) ≠ [].
Proof.
  intros Hbad Hnil. unfold BookingSchema_validate, validate_assigned in Hnil.
  apply app_eq_nil in Hnil as [_ Hnil].
  cbn [confirm_paid set_status set_payment mark_paid payment paymentMethod] in Hnil.
  destruct method as [m|]; [|discriminate Hnil].
  cbn [required app enum] in Hnil. unfold includes in Hnil.
  rewrite bool_decide_eq_false_2 in Hnil by (by apply Hbad).
  discriminate Hnil.
Qed.

Lemma paid_user_pair bid b tx c :
  isPairTo c (advanceAmount (payment b)) tx true
    (paidUserEmail bid b tx c) (paidUserSMS bid b tx c).
Proof. split; [by do 2 eexists|]. split; [by do 2 eexists|]. by repeat split. Qed.

Lemma paid_venue_pair bid b tx c :
  isPairTo c (advanceAmount (payment b)) tx false
    (paidVenueEmail bid b tx c) (paidVenueSMS bid b c).
Proof. split; [by do 2 eexists|]. split; [by do 2 eexists|]. by repeat split. Qed.

Lemma paid_provider_pair bid b tx e c :
  isPairTo c (price e) tx false
    (paidProviderEmail bid b tx e c) (paidProviderSMS bid e c).
Proof. split; [by do 2 eexists|]. split; [by do 2 eexists|]. by repeat split. Qed.

Lemma paidFanout_shape w bid b tx u :
  hostsResolve w b → isPaidFanout w b tx u (paidFanout w bid b tx u).
Proof.
  intros [Hvenue Hprov]. unfold paidFanout.
  exists (paidUserEmail bid b tx (userContact u)),
         (paidUserSMS bid b tx (userContact u)),
         (match venue b with
          | Some v => hostPair w v (paidVenueEmail bid b tx) (paidVenueSMS bid b)
          | None => []
          end),
         (map (λ e, hostPair w (serviceProvider e) (paidProviderEmail bid b tx e)
                      (paidProviderSMS bid e)) (services b)).
  split; [|split; [|split]].
  - unfold providerPairs. by rewrite flat_map_concat_map.
  - apply paid_user_pair.
  - destruct (venue b) as [v|] eqn:Ev; [|done].
    destruct (Hvenue v eq_refl) as [h Hh]. exists h. do 2 eexists.
    unfold hostPair. rewrite Hh.
    split; [done|]. split; [reflexivity|]. apply paid_venue_pair.
  - induction Hprov as [|e ss [h Hh] _ IH]; cbn [map]; constructor; [|exact IH].
    exists h. do 2 eexists. unfold hostPair. rewrite Hh.
    split; [done|]. split; [reflexivity|]. apply paid_provider_pair.
Qed.

(** The response of the client-confirmed path is the same whatever status
    the stored booking has. *)
Lemma confirmPayment_status_blind now who bid b s tx m w :
  (confirmPayment threeMonthsFrom now who (Oid bid) tx m
     (with_bookings (insert bid (set_status s b)) w)).1
  = (confirmPayment threeMonthsFrom now who (Oid bid) tx m
       (with_bookings (insert bid b) w)).1.
Proof.
  unfold confirmPayment, try_catch.
  destruct who as [uid|hid]; [|reflexivity].
  cbn [isHost]. hstep. cbn [Booking_findById]. hstep.
  cbn [with_bookings bookingColl]. rewrite !lookup_insert_eq. cbn beta iota.
  cbn [req_user_id]. hstep. cbn [set_status user payment].
  destruct (bool_decide (user b = uid)); cbn [negb]; hstep; [|reflexivity].
  destruct (isPaid (payment b)); hstep; [reflexivity|].
  change (confirm_paid tx now (Some m) (set_status s b))
    with (confirm_paid tx now (Some m) b).
  set (b' := confirm_paid tx now (Some m) b).
  unfold Booking_save.
  destruct (BookingSchema_validate b'); [|reflexivity].
  destruct (pre_save threeMonthsFrom now b'); [reflexivity|].
  hstep.
  replace (with_bookings (insert bid b')
             (with_bookings (insert bid (set_status s b)) w))
    with (with_bookings (insert bid b') (with_bookings (insert bid b) w));
    [reflexivity|].
  unfold with_bookings. cbn. by rewrite !insert_insert_eq.
Qed.

(** The confirmation of the owner of an unpaid booking, when the document
    saves: whatever becomes of the notifications, the booking is stored. *)
Lemma confirmPayment_stored now uid bid b tx method w :
  bookingColl w !! bid = Some b →
  user b = uid →
  isPaid (payment b) = false →
  let b' := confirm_paid tx now (Some method) b in
  BookingSchema_validate b' = [] →
  pre_save threeMonthsFrom now b' = None →
  ∃ resp l,
    confirmPayment threeMonthsFrom now (AsUser uid) (Oid bid) tx method w
    = (resp, add_outbox l (with_bookings (insert bid b') w)).
Proof.
  intros Hb Hown Hunpaid b' Hvalid Hpre.
  unfold confirmPayment, try_catch. cbn [isHost]. hstep.
  cbn [Booking_findById]. hstep. rewrite Hb. cbn beta iota.
  cbn [req_user_id]. hstep.
  rewrite bool_decide_eq_true_2 by done. cbn [negb]. hstep.
  rewrite Hunpaid. hstep. fold b'.
  erewrite bind_next by (by apply Booking_save_ok).
  set (w1 := with_bookings (insert bid b') w).
  unfold User_findById. hstep.
  destruct (userColl w1 !! uid) as [u|]; hstep.
  2:{ exists serverError, []. by rewrite add_outbox_nil. }
  rewrite !with_outbox_add, add_outbox_add.
  set (lu := ([_] ++ [_])%list).
  assert (Hvenue : ∃ st lv,
    match venue b' with
    | Some v => notify_paid_venue bid b' tx v
    | None => ret ()
    end (add_outbox lu w1) = (st, add_outbox lv (add_outbox lu w1))
    ∧ sentOrThrew st).
  { destruct (venue b') as [v|]; [apply notify_host_outcome|].
    exists (Next tt), []. cbn. rewrite add_outbox_nil. split; [done|by left]. }
  destruct Hvenue as (st & lv & Hv & [-> | ->]).
  2:{ erewrite bind_thrown by exact Hv. rewrite add_outbox_add. by do 2 eexists. }
  erewrite bind_next by exact Hv. rewrite add_outbox_add.
  destruct (for_each_outcome (notify_paid_provider bid b' tx)
              (paidProviderEmail bid b' tx) (paidProviderSMS bid) (services b')
              (add_outbox (lu ++ lv) w1) (λ e, eq_refl))
    as (st & lp & Hloop & [-> | ->]).
  2:{ erewrite bind_thrown by exact Hloop. rewrite add_outbox_add.
      by do 2 eexists. }
  erewrite bind_next by exact Hloop. rewrite add_outbox_add. by do 2 eexists.
Qed.

(** C6 (amended).  The client-confirmed path does not consult the
    booking's current status: its response is the same whatever status is
    stored, and so is the document that it would store.  For an unpaid
    booking in any status, cancelled and completed included, a
    confirmation by the owning user is stored exactly when the document
    then passes the schema -- which asks for a payment method among
    bank_transfer, upi and online_payment -- and the pre-save guard; the
    stored booking has the status confirmed, and the answer is 200 when
    the owner and the referenced hosts resolve.  Otherwise, and so for
    every request without such a method, the answer is 500 and the booking
    keeps its status. *)
Theorem payment_ignores_status now uid bid b tx method w :
  bookingColl w !! bid = Some b →
  user b = uid →
  isPaid (payment b) = false →
  let result :=
    confirmPayment threeMonthsFrom now (AsUser uid) (Oid bid) tx method w in
  let b' := confirm_paid tx now (Some method) b in
  (∀ s who tx' m' now',
     (confirmPayment threeMonthsFrom now' who (Oid bid) tx' m'
        (with_bookings (insert bid (set_status s b)) w)).1
     = (confirmPayment threeMonthsFrom now' who (Oid bid) tx' m' w).1)
  ∧ (∀ s, confirm_paid tx now (Some method) (set_status s b) = b')
  ∧ status b' = "confirmed"
  ∧ (BookingSchema_validate b' = [] →
     pre_save threeMonthsFrom now b' = None →
     bookingColl result.2 !! bid = Some b'
     ∧ (is_Some (userColl w !! uid) → hostsResolve w b → code result.1 = 200))
  ∧ (BookingSchema_validate b' ≠ [] ∨ pre_save threeMonthsFrom now b' ≠ None →
     result = (serverError, w)
     ∧ status <$> bookingColl result.2 !! bid = Some (status b))
  ∧ ((∀ m, method = Some m → m ∉ paymentMethodEnum) →
     BookingSchema_validate b' ≠ [])
  ∧ ((∃ m, method = Some m ∧ m ∈ paymentMethodEnum) →
     BookingSchema_validate b = [] → BookingSchema_validate b' = []).
Proof.
  intros Hb Hown Hunpaid result b'. subst result.
  split; [|split; [|split; [|split; [|split; [|split]]]]].
  - intros s who tx' m' now'. rewrite confirmPayment_status_blind.
    replace (with_bookings (insert bid b) w) with w; [done|].
    destruct w. unfold with_bookings. cbn in *. by rewrite insert_id.
  - done.
  - done.
  - intros Hvalid Hpre. split.
    + destruct (confirmPayment_stored now uid bid b tx method w)
        as (resp & l & ->); try done.
      cbn. by rewrite lookup_insert_eq.
    + intros [u Hu] Hres.
      by rewrite (confirmPayment_saved now uid bid b tx method u w).
  - intros Hfail.
    rewrite (confirmPayment_not_saved now uid bid b tx method w) by done.
    split; [done|]. cbn [snd]. by rewrite Hb.
  - apply invalid_method_fails.
  - intros (m & -> & Hm) Hvalid. by apply validate_confirm_paid.
Qed.

(** *** Paying at most once *)

Lemma confirmPayment_paid now who bid b tx m w :
  bookingColl w !! bid = Some b →
  isPaid (payment b) = true →
  confirmPayment threeMonthsFrom now who (Oid bid) tx m w
  = (confirmRejection who b, w).
Proof.
  intros Hb Hpaid. unfold confirmPayment, try_catch.
  destruct who as [uid|hid]; [|reflexivity].
  cbn [isHost]. hstep. cbn [Booking_findById]. hstep. rewrite Hb.
  cbn beta iota. cbn [req_user_id confirmRejection]. hstep.
  destruct (bool_decide (user b = uid)); cbn [negb]; hstep; [|reflexivity].
  rewrite Hpaid. hstep. reflexivity.
Qed.

Lemma confirmPayment_not_owner now uid bid b tx m w :
  bookingColl w !! bid = Some b →
  user b ≠ uid →
  confirmPayment threeMonthsFrom now (AsUser uid) (Oid bid) tx m w
  = (notAuthorizedToConfirm, w).
Proof.
  intros Hb Hne. unfold confirmPayment, try_catch.
  cbn [isHost]. hstep. cbn [Booking_findById]. hstep. rewrite Hb.
  cbn beta iota. cbn [req_user_id]. hstep.
  rewrite bool_decide_eq_false_2 by done. cbn [negb]. hstep. reflexivity.
Qed.

Lemma swallow_next (h : Handler unit) w w' :
  h w = (Next tt, w') → swallow h w = (Next tt, w').
Proof. unfold swallow. by intros ->. Qed.

Lemma stripeWebhook_paid now type intent bid b w :
  bookingColl w !! bid = Some b →
  isPaid (payment b) = true →
  stripeWebhook threeMonthsFrom now (StripeEvent type intent (Oid bid)) w
  = ({| code := 200; body := ReceivedBody |}, w).
Proof.
  intros Hb Hpaid. unfold stripeWebhook, try_catch.
  destruct (bool_decide (type = "payment_intent.succeeded")); hstep;
    [|reflexivity].
  erewrite bind_next; [reflexivity|]. apply swallow_next.
  cbn [Booking_findById]. hstep. rewrite Hb. cbn beta iota.
  rewrite Hpaid. reflexivity.
Qed.

(** The provider callback marks an unpaid booking paid under the id of the
    payment intent, and sends nothing. *)
Lemma stripeWebhook_marks_paid now intent bid b w :
  bookingColl w !! bid = Some b →
  isPaid (payment b) = false →
  BookingSchema_validate b = [] →
  pre_save threeMonthsFrom now b = None →
  stripeWebhook threeMonthsFrom now
    (StripeEvent "payment_intent.succeeded" intent (Oid bid)) w
  = ({| code := 200; body := ReceivedBody |},
     with_bookings (insert bid (confirm_paid (Some intent) now None b)) w).
Proof.
  intros Hb Hunpaid Hvalid Hpre. unfold stripeWebhook, try_catch.
  rewrite bool_decide_eq_true_2 by done. hstep.
  erewrite bind_next; [reflexivity|]. apply swallow_next.
  cbn [Booking_findById]. hstep. rewrite Hb. cbn beta iota.
  rewrite Hunpaid. cbn [negb when].
  apply Booking_save_ok; [by apply validate_confirm_paid_webhook|done].
Qed.

Lemma paidFanouts_app bid l1 l2 :
  paidFanouts bid (l1 ++ l2) = paidFanouts bid l1 + paidFanouts bid l2.
Proof. unfold paidFanouts. by rewrite List.filter_app, length_app. Qed.

Lemma paidFanouts_none bid l :
  Forall (λ m, opensPaidFanout bid m = false) l → paidFanouts bid l = 0.
Proof.
  unfold paidFanouts. induction 1 as [|m l Hm _ IH]; [done|].
  cbn. by rewrite Hm.
Qed.

Lemma hostPair_no_fanout bid w hid mail sms :
  (∀ c, opensPaidFanout bid (mail c) = false) →
  (∀ c, opensPaidFanout bid (sms c) = false) →
  paidFanouts bid (hostPair w hid mail sms) = 0.
Proof.
  intros Hmail Hsms. apply paidFanouts_none. unfold hostPair.
  destruct (hostColl w !! hid); repeat constructor; eauto.
Qed.

(** What a call of [confirmPayment] does to the world: nothing, or it
    stores the booking as paid and appends messages that start the payment
    fan-out at most once. *)
Lemma confirmPayment_effect now who raw tx m w :
  let result := confirmPayment threeMonthsFrom now who raw tx m w in
  (result.2 = w ∧ code result.1 ≠ 200)
  ∨ ∃ bid b l,
      raw = Oid bid
      ∧ bookingColl w !! bid = Some b
      ∧ result.2 = add_outbox l (with_bookings
                                   (insert bid (confirm_paid tx now (Some m) b)) w)
      ∧ (paidFanouts bid l ≤ 1)%nat.
Proof.
  cbn zeta. unfold confirmPayment, try_catch.
  destruct who as [uid|hid]; [|left; by split].
  cbn [isHost]. hstep.
  destruct raw as [| |bid]; cbn [Booking_findById]; hstep;
    [left; by split..|].
  destruct (bookingColl w !! bid) as [b|] eqn:Hb; [|left; by split].
  cbn [req_user_id]. hstep.
  destruct (bool_decide (user b = uid)); cbn [negb]; hstep; [|left; by split].
  destruct (isPaid (payment b)); hstep; [left; by split|].
  set (b' := confirm_paid tx now (Some m) b).
  unfold Booking_save.
  destruct (BookingSchema_validate b'); [|left; by split].
  destruct (pre_save threeMonthsFrom now b'); [left; by split|].
  hstep. right. exists bid, b.
  set (w1 := with_bookings (insert bid b') w).
  unfold User_findById. hstep.
  destruct (userColl w1 !! uid) as [u|]; hstep.
  2:{ exists []. rewrite add_outbox_nil. repeat split; try done. cbn. lia. }
  rewrite !with_outbox_add, add_outbox_add.
  set (lu := ([paidUserEmail bid b' tx (userContact u)] ++
              [paidUserSMS bid b' tx (userContact u)])%list).
  assert (Hlu : paidFanouts bid lu = 1).
  { unfold paidFanouts, lu. cbn. by rewrite !bool_decide_eq_true_2. }
  assert (Hvenue : ∃ st lv,
    match venue b' with
    | Some v => notify_paid_venue bid b' tx v
    | None => ret ()
    end (add_outbox lu w1) = (st, add_outbox lv (add_outbox lu w1))
    ∧ paidFanouts bid lv = 0).
  { destruct (venue b') as [v|].
    - unfold notify_paid_venue.
      destruct (hostColl (add_outbox lu w1) !! v) as [h|] eqn:Hh.
      + rewrite notify_host_resolved by (by rewrite Hh).
        do 2 eexists. split; [reflexivity|]. by apply hostPair_no_fanout.
      + rewrite notify_host_dangling by done.
        exists (Thrown TypeError), []. by rewrite add_outbox_nil.
    - exists (Next tt), []. cbn. by rewrite add_outbox_nil. }
  destruct Hvenue as (st & lv & Hrun & Hlv).
  destruct st as [[]|r|e].
  2:{ erewrite bind_replied by exact Hrun. exists (lu ++ lv)%list.
      rewrite add_outbox_add. repeat split; try done.
      rewrite paidFanouts_app. lia. }
  2:{ erewrite bind_thrown by exact Hrun. exists (lu ++ lv)%list.
      rewrite add_outbox_add. repeat split; try done.
      rewrite paidFanouts_app. lia. }
  erewrite bind_next by exact Hrun. rewrite add_outbox_add.
  destruct (for_each_appends (paidProviderEmail bid b' tx) (paidProviderSMS bid)
              (notify_paid_provider bid b' tx) (λ e, eq_refl) (services b')
              (add_outbox (lu ++ lv) w1)) as (st & lp & Hloop & Hlp).
  assert (paidFanouts bid lp = 0) as Hnone.
  { apply paidFanouts_none. eapply Forall_impl; [exact Hlp|].
    intros x (e & c & [-> | ->]); reflexivity. }
  exists ((lu ++ lv) ++ lp)%list. rewrite <- (add_outbox_add (lu ++ lv) lp).
  split; [done|]. split; [done|]. split.
  - destruct st as [[]|r|e].
    + erewrite bind_next by exact Hloop. reflexivity.
    + erewrite bind_replied by exact Hloop. reflexivity.
    + erewrite bind_thrown by exact Hloop. reflexivity.
  - rewrite !paidFanouts_app. lia.
Qed.

Lemma paidFanouts_add_outbox bid l w f :
  paidFanouts bid (outbox (add_outbox l (with_bookings f w)))
  = paidFanouts bid (outbox w) + paidFanouts bid l.
Proof. cbn. apply paidFanouts_app. Qed.

(** C2.  Marking a booking's payment paid happens at most once.  For every
    booking that is marked paid, a further confirmation request, by anyone
    and with any transaction id, fails (400 for the owner) and leaves the
    world as it was: the recorded transaction id, the other payment fields,
    the status and the logs are unchanged; the provider callback for the
    same booking changes nothing either.  When the booking was marked paid
    by a first confirmation call, the transaction id on record is the one
    of that call, and across both calls the payment fan-out for the booking
    was started at most once. *)
Theorem payment_marked_at_most_once now2 who2 tx2 m2 w1 bid b1 :
  bookingColl w1 !! bid = Some b1 →
  isPaid (payment b1) = true →
  let second := confirmPayment threeMonthsFrom now2 who2 (Oid bid) tx2 m2 w1 in
  second = (confirmRejection who2 b1, w1)
  ∧ (who2 = AsUser (user b1) → second.1 = alreadyPaid)
  ∧ bookingColl second.2 !! bid = Some b1
  ∧ outbox second.2 = outbox w1
  ∧ (∀ type intent,
       stripeWebhook threeMonthsFrom now2 (StripeEvent type intent (Oid bid)) w1
       = ({| code := 200; body := ReceivedBody |}, w1))
  ∧ (∀ now1 who1 tx1 m1 w0,
       let first := confirmPayment threeMonthsFrom now1 who1 (Oid bid) tx1 m1 w0 in
       first.2 = w1 →
       (paidFanouts bid (outbox second.2) ≤ paidFanouts bid (outbox w0) + 1)%nat
       ∧ (code first.1 = 200 → transactionId (payment b1) = tx1)).
Proof.
  intros Hb1 Hpaid second.
  assert (Hsecond : second = (confirmRejection who2 b1, w1))
    by (by apply confirmPayment_paid).
  split; [exact Hsecond|]. rewrite Hsecond. cbn [fst snd].
  split; [intros ->; cbn; by rewrite bool_decide_eq_true_2|].
  split; [exact Hb1|]. split; [reflexivity|].
  split; [intros; by eapply stripeWebhook_paid|].
  intros now1 who1 tx1 m1 w0. cbn zeta. intros Hfirst.
  destruct (confirmPayment_effect now1 who1 (Oid bid) tx1 m1 w0)
    as [[Hsame Hcode] | (bid' & b & l & Hraw & Hb & Hw1 & Hl)].
  - split; [rewrite <- Hfirst, Hsame; lia|]. intros H200. done.
  - injection Hraw as <-. rewrite Hfirst in Hw1. split.
    + rewrite Hw1, paidFanouts_add_outbox. lia.
    + intros _. rewrite Hw1 in Hb1. cbn in Hb1.
      rewrite lookup_insert_eq in Hb1. by injection Hb1 as <-.
Qed.

(** C5 (amended).  For a booking and a confirmation request on the
    client-confirmed path: the path verifies ownership (another user gets
    401, nothing changes) and the not-already-paid condition (400, nothing
    changes).  For the owning user of an unpaid booking it sets
    [payment.isPaid], the supplied transaction id, the payment date and the
    payment method, and the status confirmed, and saves the document.  The
    save fails, the answer is 500 and nothing is recorded or sent, when the
    document does not pass the schema -- as for every request whose method
    is missing or is not one of bank_transfer, upi and online_payment -- or
    when its start date is beyond the window of the pre-save guard at the
    time of the call.  When the document saves and the owner and the
    referenced hosts resolve, the answer is 200 with the booking, and the
    messages sent are one email+SMS pair to the owning user, one to the
    venue host if a venue is present, and one to the provider of each
    service entry: the pairs of the user and of the venue name the advance
    amount, the pair of a provider names the price of its service; every
    email and the SMS to the user name the transaction id, the SMS to a
    host names none. *)
Theorem client_confirmed_payment now bid b tx method w :
  bookingColl w !! bid = Some b →
  let confirm who :=
    confirmPayment threeMonthsFrom now who (Oid bid) tx method w in
  let b' := confirm_paid tx now (Some method) b in
  (∀ uid, uid ≠ user b → confirm (AsUser uid) = (notAuthorizedToConfirm, w))
  ∧ (isPaid (payment b) = true → confirm (AsUser (user b)) = (alreadyPaid, w))
  ∧ (isPaid (payment b) = false →
     (BookingSchema_validate b' ≠ [] ∨ pre_save threeMonthsFrom now b' ≠ None →
      confirm (AsUser (user b)) = (serverError, w))
     ∧ ((∀ m, method = Some m → m ∉ paymentMethodEnum) →
        BookingSchema_validate b' ≠ [])
     ∧ ((∃ m, method = Some m ∧ m ∈ paymentMethodEnum) →
        BookingSchema_validate b = [] → BookingSchema_validate b' = [])
     ∧ (BookingSchema_validate b' = [] →
        pre_save threeMonthsFrom now b' = None →
        hostsResolve w b →
        ∀ u, userColl w !! user b = Some u →
          confirm (AsUser (user b))
          = ({| code := 200; body := BookingBody b' |},
             add_outbox (paidFanout w bid b' tx u)
               (with_bookings (insert bid b') w))
          ∧ isPaid (payment b') = true
          ∧ transactionId (payment b') = tx
          ∧ paymentDate (payment b') = Some now
          ∧ paymentMethod (payment b') = method
          ∧ status b' = "confirmed"
          ∧ (user b', venue b', services b', eventDetails b')
            = (user b, venue b, services b, eventDetails b)
          ∧ (totalAmount (payment b'), advanceAmount (payment b'),
             remainingAmount (payment b'))
            = (totalAmount (payment b), advanceAmount (payment b),
               remainingAmount (payment b))
          ∧ isPaidFanout w b' tx u (paidFanout w bid b' tx u))).
Proof.
  intros Hb confirm b'. subst confirm. cbn beta.
  split; [|split].
  - intros uid Hne. by apply (confirmPayment_not_owner now uid bid b).
  - intros Hpaid. rewrite (confirmPayment_paid now _ bid b tx _ w Hb Hpaid).
    cbn. by rewrite bool_decide_eq_true_2.
  - intros Hunpaid. split; [|split; [|split]].
    + intros Hfail. by apply (confirmPayment_not_saved now _ bid b).
    + apply invalid_method_fails.
    + intros (m & -> & Hm) Hvalid. by apply validate_confirm_paid.
    + intros Hvalid Hpre Hres u Hu.
      split; [by apply confirmPayment_saved|].
      repeat (split; [reflexivity|]).
      by apply (paidFanout_shape w bid b').
Qed.

(** *** Payment intents *)

Lemma createPaymentIntent_run who bid b method w :
  bookingColl w !! bid = Some b →
  createPaymentIntent who (Oid bid) method w
  = match who with
    | AsHost _ => (hostsCannotPay, w)
    | AsUser uid =>
        if bool_decide (user b = uid) then
          if isPaid (payment b) then (alreadyPaid, w)
          else if bool_decide (method = Some "online_payment") then
            let charge :=
              {| amount := JS.Math_round (times100 (advanceAmount (payment b)));
                 currency := "inr"; meta_bookingId := bid; meta_userId := uid |} in
            ({| code := 200; body := ClientSecretBody charge |},
             with_charge charge w)
          else (onlyOnlinePayments, w)
        else (notAuthorizedToPay, w)
    end.
Proof.
  intros Hb. unfold createPaymentIntent, try_catch.
  destruct who as [uid|hid]; [|reflexivity].
  cbn [isHost]. hstep. cbn [Booking_findById]. hstep. rewrite Hb.
  cbn beta iota. cbn [req_user_id]. hstep.
  destruct (bool_decide (user b = uid)); cbn [negb]; hstep; [|reflexivity].
  destruct (isPaid (payment b)); hstep; [reflexivity|].
  destruct (bool_decide (method = Some "online_payment")); cbn [negb]; hstep;
    reflexivity.
Qed.

(** The rounding of the platform is the rounding of the specification. *)
Lemma round_exact_nearest (neg : bool) (m : positive) (e : Z) :
  nearest (if neg then Z.neg m else Z.pos m) e (JS.round_exact neg m e).
Proof.
  unfold nearest, JS.round_exact.
  replace (if neg then (- Z.pos m)%Z else Z.pos m)
    with (if neg then Z.neg m else Z.pos m) by (by destruct neg).
  set (num := if neg then Z.neg m else Z.pos m).
  destruct (0 <=? e)%Z eqn:He.
  - apply Z.leb_le in He.
    rewrite (Z.max_l 0 (- e)), (Z.max_r 0 e) by lia.
    change (2 ^ 0)%Z with 1%Z. lia.
  - apply Z.leb_gt in He.
    rewrite (Z.max_r 0 (- e)), (Z.max_l 0 e) by lia.
    change (2 ^ 0)%Z with 1%Z.
    replace (2 ^ (1 - e))%Z with (2 * 2 ^ (- e))%Z
      by (rewrite <- Z.pow_succ_r by lia; f_equal; lia).
    assert (Hd : (0 < 2 ^ (- e))%Z) by (apply Z.pow_pos_nonneg; lia).
    set (d := (2 ^ (- e))%Z) in *.
    pose proof (Z.div_mod (2 * num + d) (2 * d) ltac:(lia)) as Hdiv.
    pose proof (Z.mod_pos_bound (2 * num + d) (2 * d) ltac:(lia)) as Hmod.
    nia.
Qed.

Lemma Math_round_minor_units (advance : option JS.Number) :
  isMinorUnits advance (JS.Math_round (times100 advance)).
Proof.
  destruct advance as [a|]; [|reflexivity].
  unfold isMinorUnits, JS.Math_round. cbn [times100].
  destruct (Prim2SF (a * 100)%float) as [sz|sinf| |neg m e]; try reflexivity.
  eexists. split; [reflexivity|]. apply round_exact_nearest.
Qed.

(** C9.  Creating a payment intent requires that the booking is not
    already paid and that the requested method is online_payment, and that
    the caller is the owning user.  Then the request is answered 200 and
    exactly one charge is created, in the currency inr, for the booking and
    its user, whose amount is the advance amount in the minor unit:
    [round(advanceAmount * 100)], the binary64 product rounded to the
    nearest integer.  In every other case the request is answered 400 (a
    paid booking, another method), 401 (another user) or 403 (a host) and
    no charge is created. *)
Theorem payment_intent_charge who bid b method w :
  bookingColl w !! bid = Some b →
  let result := createPaymentIntent who (Oid bid) method w in
  (who = AsUser (user b) →
   isPaid (payment b) = false →
   method = Some "online_payment" →
   ∃ charge,
     result = ({| code := 200; body := ClientSecretBody charge |},
               with_charge charge w)
     ∧ charges result.2 = (charges w ++ [charge])%list
     ∧ currency charge = "inr"
     ∧ meta_bookingId charge = bid
     ∧ meta_userId charge = user b
     ∧ isMinorUnits (advanceAmount (payment b)) (amount charge))
  ∧ (who ≠ AsUser (user b) ∨ isPaid (payment b) = true
     ∨ method ≠ Some "online_payment" →
     result = (intentRejection who b, w)
     ∧ charges result.2 = charges w
     ∧ code result.1 ∈ [400; 401; 403])
  ∧ (who = AsUser (user b) →
     (isPaid (payment b) = true → result.1 = alreadyPaid)
     ∧ (isPaid (payment b) = false → method ≠ Some "online_payment" →
        result.1 = onlyOnlinePayments)).
Proof.
  intros Hb result. subst result. rewrite (createPaymentIntent_run who bid b method w Hb).
  split; [|split].
  - intros -> Hunpaid ->. rewrite !bool_decide_eq_true_2 by done. rewrite Hunpaid.
    eexists. split; [reflexivity|]. cbn [snd with_charge charges].
    do 4 (split; [reflexivity|]). cbn [amount]. apply Math_round_minor_units.
  - intros Hnot. destruct who as [uid|hid]; cbn [intentRejection].
    2:{ split; [done|]. split; [done|]. cbn. in_literals. }
    destruct (bool_decide (user b = uid)) eqn:Hown.
    2:{ split; [done|]. split; [done|]. cbn. in_literals. }
    apply bool_decide_eq_true_1 in Hown. subst uid.
    destruct (isPaid (payment b)) eqn:Hpaid.
    { split; [done|]. split; [done|]. cbn. in_literals. }
    destruct Hnot as [Hwho | [Hp | Hmeth]]; [done|done|].
    rewrite bool_decide_eq_false_2 by done.
    split; [done|]. split; [done|]. cbn. in_literals.
  - intros ->. rewrite bool_decide_eq_true_2 by done. split.
    + by intros ->.
    + intros -> Hne. by rewrite bool_decide_eq_false_2.
Qed.

(** *** Reading a booking and its payment *)

Lemma getPaymentDetails_denied_false who b w :
  getPaymentDetails_denied who b w = (Next false, w).
Proof.
  unfold getPaymentDetails_denied, andM, bind, ret.
  destruct who as [uid|hid]; cbn; [|reflexivity].
  by destruct (bool_decide (user b = uid)).
Qed.

(** With populated paths the condition is false as well, unless the
    owner's path resolved to nothing and the caller is a user: then the
    comparison itself throws. *)
Lemma getBooking_denied_cases who (owner : option Contact) venueHost providers w :
  getBooking_denied who owner venueHost providers w
  = (match who, owner with
     | AsUser _, None => Thrown TypeError
     | _, _ => Next false
     end, w).
Proof.
  unfold getBooking_denied, andM, populated_differs, bind, ret.
  destruct who as [uid|hid]; cbn; [|reflexivity].
  by destruct owner.
Qed.

Lemma populate_providers_run ss w :
  populate_providers ss w
  = (Next (map (λ e, hostContact <$> hostColl w !! serviceProvider e) ss), w).
Proof.
  induction ss as [|e ss IH]; cbn [populate_providers map]; [reflexivity|].
  unfold populate_host. hstep. erewrite bind_next by exact IH. reflexivity.
Qed.

Lemma getBooking_found who id b w :
  bookingColl w !! id = Some b →
  getBooking who (Oid id) w
  = (match who, userColl w !! user b with
     | AsUser _, None => serverError
     | _, _ => {| code := 200; body := populated w b |}
     end, w).
Proof.
  intros Hb. unfold getBooking, try_catch. cbn [Booking_findById]. hstep.
  rewrite Hb. cbn beta iota. unfold populate_user. hstep.
  erewrite bind_next.
  2:{ instantiate (2 := match venue b with
                        | Some v => Some (hostContact <$> hostColl w !! v)
                        | None => None
                        end).
      unfold populate_venue. destruct (venue b); [|reflexivity].
      unfold populate_host. hstep. reflexivity. }
  erewrite bind_next by apply populate_providers_run.
  unfold bind at 1. rewrite getBooking_denied_cases. unfold populated.
  destruct who as [uid|hid], (userColl w !! user b); reflexivity.
Qed.

(** C3.  In the booking-read and payment-details-read operations the
    not-authorized branch is unreachable: the condition that guards it asks
    the caller to be a non-host and a host at once and never evaluates to
    true.  For every principal, user or host, owner or stranger, and every
    existing booking (whose owner resolves when the reader is a user), the
    read of the booking returns it, populated, and the read of the payment
    details returns its payment sub-document; no response of either
    operation has status 401. *)
Theorem read_never_unauthorized who id b w :
  bookingColl w !! id = Some b →
  isHost who = true ∨ is_Some (userColl w !! user b) →
  getBooking who (Oid id) w = ({| code := 200; body := populated w b |}, w)
  ∧ getPaymentDetails who (Oid id) w
    = ({| code := 200; body := PaymentBody (payment b) |}, w)
  ∧ (∀ w', getPaymentDetails_denied who b w' = (Next false, w'))
  ∧ (∀ owner venueHost providers w',
       getBooking_denied who owner venueHost providers w' = (Next false, w')
       ∨ getBooking_denied who owner venueHost providers w'
         = (Thrown TypeError, w'))
  ∧ (∀ who' raw w',
       code (getBooking who' raw w').1 ∈ [200; 404; 500]
       ∧ code (getPaymentDetails who' raw w').1 ∈ [200; 404; 500]).
Proof.
  intros Hb Hres. split; [|split; [|split; [|split]]].
  - rewrite (getBooking_found who id b w Hb).
    destruct Hres as [Hhost | [u Hu]].
    + by destruct who.
    + rewrite Hu. by destruct who.
  - unfold getPaymentDetails, try_catch. cbn [Booking_findById]. hstep.
    rewrite Hb. cbn beta iota. unfold bind at 1.
    rewrite getPaymentDetails_denied_false. reflexivity.
  - intros w'. apply getPaymentDetails_denied_false.
  - intros owner venueHost providers w'. rewrite getBooking_denied_cases.
    destruct who, owner; auto.
  - intros who' raw w'. split.
    + destruct raw as [| |id']; [cbn; in_literals..|].
      destruct (bookingColl w' !! id') as [b'|] eqn:Hb'.
      * rewrite (getBooking_found who' id' b' w' Hb').
        destruct who', (userColl w' !! user b'); cbn; in_literals.
      * unfold getBooking, try_catch. cbn [Booking_findById]. hstep.
        rewrite Hb'. cbn. in_literals.
    + unfold getPaymentDetails, try_catch.
      destruct raw as [| |id']; [cbn; in_literals..|].
      cbn [Booking_findById]. hstep.
      destruct (bookingColl w' !! id') as [b'|]; [|cbn; in_literals].
      unfold bind at 1. rewrite getPaymentDetails_denied_false.
      cbn. in_literals.
Qed.

(** *** Creating a booking *)

Lemma Host_findOne_verified_run raw type w :
  ∃ st, Host_findOne_verified raw type w = (st, w)
        ∧ match st with
          | Next _ => True
          | Replied _ => False
          | Thrown e => e = CastError
          end.
Proof.
  destruct raw; cbn; eexists; (split; [reflexivity|]); done.
Qed.

Lemma Host_findOne_verified_ok id h type w :
  hostColl w !! id = Some h → hostType h = type → isVerified h = true →
  Host_findOne_verified (Oid id) type w = (Next (Some h), w).
Proof.
  intros Hh Ht Hv. unfold Host_findOne_verified, gets.
  rewrite Hh, Hv, bool_decide_eq_true_2 by done. reflexivity.
Qed.



Lemma check_services_entries ss w :
  Forall (providerResolves w) ss →
  check_services ss w = (Next (omap requestedEntry ss), w).
Proof.
  induction 1 as [|s ss (id & h & Hid & Hh & Ht & Hv) _ IH];
    cbn [check_services omap list_omap]; [done|].
  unfold requestedEntry at 1. rewrite Hid.
  erewrite bind_next by (by apply Host_findOne_verified_ok).
  cbn beta iota. erewrite bind_next by exact IH. reflexivity.
Qed.

Lemma check_venue_run (raw : RawId) w :
  ∃ st, check_venue raw w = (st, w) ∧ earlyExit st.
Proof.
  destruct raw as [| |v].
  - by exists (Next tt).
  - by exists (Thrown CastError).
  - unfold check_venue. cbn [Host_findOne_verified]. hstep.
    destruct (bool_decide _); cbn [negb]; by eexists.
Qed.

Lemma check_venue_ok (raw : RawId) w :
  venueResolves w raw → check_venue raw w = (Next tt, w).
Proof.
  destruct raw as [| |v]; [done|done|].
  intros (h & Hh & Ht & Hv). unfold check_venue.
  erewrite bind_next by (by apply Host_findOne_verified_ok).
  by rewrite bool_decide_eq_true_2.
Qed.


Lemma date_check_passes now ev :
  passesDateCheck threeMonthsFrom now ev →
  match asDate (in_startDate ev) with
  | Some d => (threeMonthsFrom now <? d)%Z
  | None => false
  end = false.
Proof.
  unfold passesDateCheck. destruct (asDate (in_startDate ev)) as [d|]; [|done].
  intros Hd. by apply Z.ltb_ge.
Qed.

(** The create handler on a request that passes the checks of the handler
    itself: the answer is the outcome of [Booking.create], as long as that
    fails. *)
Lemma createBooking_not_created now newId uid req ev e w :
  venueResolves w (cb_venue req) →
  Forall (providerResolves w) (default [] (cb_services req)) →
  cb_eventDetails req = Some ev →
  passesDateCheck threeMonthsFrom now ev →
  Booking_create threeMonthsFrom now newId (requestedBooking uid req ev) w
  = (Thrown e, w) →
  createBooking threeMonthsFrom now newId (AsUser uid) req w
  = (catch_validation_400 e, w).
Proof.
  intros Hvenue Hprov Hev Hdate Hcreate.
  unfold createBooking, try_catch. cbn [isHost]. hstep.
  erewrite bind_next by (by apply check_venue_ok).
  assert (Hentries : match cb_services req with
                     | Some ss => check_services ss
                     | None => ret []
                     end w
                     = (Next (omap requestedEntry (default [] (cb_services req))), w)).
  { destruct (cb_services req) as [ss|]; [|reflexivity].
    by apply check_services_entries. }
  erewrite bind_next by exact Hentries.
  rewrite Hev. hstep. rewrite (date_check_passes now ev Hdate). hstep.
  cbn [req_user_id]. hstep. fold (requestedBooking uid req ev).
  by erewrite bind_thrown by exact Hcreate.
Qed.


(** *** Listings *)

Lemma paginate_run f q w :
  let page := JS.or_default (q_page q) 1 in
  let limit := JS.or_default (q_limit q) 10 in
  let total := Z.of_nat (length (matching regexTest f w)) in
  let data := pageSlice regexTest f ((page - 1) * limit) limit w in
  paginate regexTest f q w
  = if ((page - 1) * limit <? 0)%Z
    then (Thrown (Error "Skip value must be non-negative"), w)
    else (Next {| code := 200;
                  body := ListBody (length data)
                            {| next := if (page * limit <? total)%Z
                                       then Some {| page := (page + 1)%Z; limit := limit |}
                                       else None;
                               prev := if (0 <? (page - 1) * limit)%Z
                                       then Some {| page := (page - 1)%Z; limit := limit |}
                                       else None |}
                            data |}, w).
Proof.
  cbn zeta. unfold paginate, Host_countDocuments, Host_find_skip_limit. hstep.
  destruct ((JS.or_default (q_page q) 1 - 1) * JS.or_default (q_limit q) 10 <? 0)%Z;
    hstep; reflexivity.
Qed.

Lemma page_two_of_fifteen f q w :
  q_page q = Some 2%Z → q_limit q = Some 10%Z →
  length (matching regexTest f w) = 15 →
  try_catch (paginate regexTest f q) catch_500 w
  = (secondOfTwoPages (drop 10 (matching regexTest f w)), w)
    ∧ length (drop 10 (matching regexTest f w)) = 5.
Proof.
  intros Hpage Hlimit Htotal.
  assert (Hlen : length (drop 10 (matching regexTest f w)) = 5)
    by (rewrite length_drop, Htotal; reflexivity).
  split; [|exact Hlen].
  unfold try_catch. rewrite paginate_run, Hpage, Hlimit, Htotal.
  cbn [JS.or_default]. unfold pageSlice.
  change (Z.to_nat ((2 - 1) * 10)) with 10.
  change (Z.to_nat (Z.abs 10)) with 10.
  cbn -[matching drop take length].
  rewrite take_ge by lia. by rewrite Hlen.
Qed.

Lemma pageSlice_length f skip limit w :
  (length (pageSlice regexTest f skip limit w) ≤ length (matching regexTest f w))%nat.
Proof.
  unfold pageSlice. destruct (limit =? 0)%Z.
  - rewrite length_drop. lia.
  - rewrite length_take, length_drop. lia.
Qed.

Lemma listing_run f q w :
  let r := try_catch (paginate regexTest f q) catch_500 w in
  r.2 = w ∧ (r.1 = serverError ∨ isListing regexTest f q w r.1).
Proof.
  cbn zeta. unfold try_catch. rewrite paginate_run.
  destruct (_ <? 0)%Z; [by split; [|left]|].
  split; [done|]. right. do 2 eexists. split; [reflexivity|].
  split; [reflexivity|]. split; [apply pageSlice_length|]. by split.
Qed.

(** C10 (amended).  Over 15 matching hosts, page 2 with limit 10 returns
    exactly 5 items, a prev descriptor pointing at page 1 and no next
    descriptor, for venues and for service providers alike.  Every listing
    response carries the next/prev descriptors alongside [count], which is
    the number of items in the returned page; the total number of matching
    hosts only decides whether there is a next descriptor. *)
Theorem listing_pagination q w :
  q_page q = Some 2%Z →
  q_limit q = Some 10%Z →
  (length (matching regexTest (venueFilter q) w) = 15 →
   getVenues regexTest q w
   = (secondOfTwoPages (drop 10 (matching regexTest (venueFilter q) w)), w)
   ∧ length (drop 10 (matching regexTest (venueFilter q) w)) = 5)
  ∧ (length (matching regexTest (providerFilter q) w) = 15 →
     getServiceProviders regexTest q w
     = (secondOfTwoPages (drop 10 (matching regexTest (providerFilter q) w)), w)
     ∧ length (drop 10 (matching regexTest (providerFilter q) w)) = 5)
  ∧ (∀ q' w',
       let venues := getVenues regexTest q' w' in
       let providers := getServiceProviders regexTest q' w' in
       venues.2 = w' ∧ providers.2 = w'
       ∧ (venues.1 = serverError ∨ isListing regexTest (venueFilter q') q' w' venues.1)
       ∧ (providers.1 = serverError
          ∨ isListing regexTest (providerFilter q') q' w' providers.1)).
Proof.
  intros Hpage Hlimit. split; [|split].
  - intros Htotal. by apply page_two_of_fifteen.
  - intros Htotal. by apply page_two_of_fifteen.
  - intros q' w'. cbn zeta. unfold getVenues, getServiceProviders.
    destruct (listing_run (venueFilter q') q' w') as [Hv1 Hv2].
    destruct (listing_run (providerFilter q') q' w') as [Hp1 Hp2].
    by repeat split.
Qed.
End Properties.


(** * The statements at the concrete marketplace *)

Lemma scenario_resolves (b : Booking) :
  venue b = Some "h1" → map serviceProvider (services b) = ["h2"] →
  hostsResolve Scenario.world b.
Proof.
  intros Hv Hs. split.
  - intros v Hv'. rewrite Hv in Hv'. injection Hv' as <-. by eexists.
  - destruct (services b) as [|e [|e' ss]]; try discriminate Hs.
    injection Hs as He. repeat constructor. rewrite He. by eexists.
Defined.



(** C7, as stated, fails: the owner of the pending booking [b1] asks for
    pending, a status other than cancelled, and is answered 400
    (Validation), not 403 (Forbidden). *)
Lemma owner_targeting_pending_is_invalid :
  user Scenario.pendingBooking = "u1"
  ∧ bookingColl Scenario.world !! "b1" = Some Scenario.pendingBooking
  ∧ updateBookingStatus Scenario.threeMonths Scenario.now (AsUser "u1")
      (Oid "b1") (Some "pending") Scenario.world
    = (invalidStatus, Scenario.world)
  ∧ code invalidStatus = 400
  ∧ classify invalidStatus = Some Validation.
Proof. by repeat split. Qed.

Lemma owner_status_update_witness :
  bookingColl Scenario.world !! "b1" = Some Scenario.pendingBooking
  ∧ user Scenario.pendingBooking = "u1"
  ∧ updateBookingStatus Scenario.threeMonths Scenario.now (AsUser "u1")
      (Oid "b1") (Some "confirmed") Scenario.world
    = (usersCanOnlyCancel, Scenario.world)
  ∧ code (updateBookingStatus Scenario.threeMonths Scenario.now (AsUser "u1")
            (Oid "b1") (Some "cancelled") Scenario.world).1 = 200.
Proof.
  assert (Hb : bookingColl Scenario.world !! "b1" = Some Scenario.pendingBooking)
    by reflexivity.
  assert (Ho : user Scenario.pendingBooking = "u1") by reflexivity.
  split; [exact Hb|]. split; [exact Ho|].
  split.
  - destruct (owner_status_update Scenario.threeMonths Scenario.now "u1" "b1"
                Scenario.pendingBooking (Some "confirmed") Scenario.world Hb Ho)
      as [Hforbid _].
    apply Hforbid. by left.
  - destruct (owner_status_update Scenario.threeMonths Scenario.now "u1" "b1"
                Scenario.pendingBooking (Some "cancelled") Scenario.world Hb Ho)
      as (_ & _ & Hcancel).
    rewrite (Hcancel eq_refl eq_refl eq_refl
               (scenario_resolves Scenario.pendingBooking eq_refl eq_refl)
               Scenario.asha eq_refl).
    reflexivity.
Defined.



Lemma payment_marked_at_most_once_witness :
  let first :=
    confirmPayment Scenario.threeMonths Scenario.now (AsUser "u1") (Oid "b1")
      (Some "tx1") (Some "upi") Scenario.world in
  let second :=
    confirmPayment Scenario.threeMonths (Scenario.now + 1000) (AsUser "u1")
      (Oid "b1") (Some "tx2") (Some "upi") first.2 in
  code first.1 = 200
  ∧ (isPaid ∘ payment <$> bookingColl Scenario.world !! "b1") = Some false
  ∧ (isPaid ∘ payment <$> bookingColl first.2 !! "b1") = Some true
  ∧ second = (alreadyPaid, first.2)
  ∧ (transactionId ∘ payment <$> bookingColl second.2 !! "b1") = Some (Some "tx1")
  ∧ (paidFanouts "b1" (outbox second.2) ≤ 0 + 1)%nat.
Proof.
  cbn zeta.
  set (b1 := confirm_paid (Some "tx1") Scenario.now (Some (Some "upi"))
               Scenario.pendingBooking).
  assert (Hb : bookingColl
                 (confirmPayment Scenario.threeMonths Scenario.now (AsUser "u1")
                    (Oid "b1") (Some "tx1") (Some "upi") Scenario.world).2
               !! "b1" = Some b1) by (vm_compute; reflexivity).
  assert (Hp : isPaid (payment b1) = true) by reflexivity.
  destruct (payment_marked_at_most_once Scenario.threeMonths
              (Scenario.now + 1000) (AsUser "u1") (Some "tx2") (Some "upi") _
              "b1" b1 Hb Hp)
    as (Hsecond & _ & Hstored & _ & _ & Hfirst).
  destruct (Hfirst Scenario.now (AsUser "u1") (Some "tx1") (Some "upi")
              Scenario.world eq_refl) as [Hcount _].
  split; [vm_compute; reflexivity|].
  split; [reflexivity|].
  split; [exact (eq_trans (f_equal (fmap (isPaid ∘ payment)) Hb) eq_refl)|].
  split; [exact Hsecond|].
  split; [exact (eq_trans (f_equal (fmap (transactionId ∘ payment)) Hstored) eq_refl)|].
  exact Hcount.
Defined.

(** The booking [b3] was marked paid before; a confirmation by its owner is
    answered 400 and changes nothing. *)
Example paid_booking_stays_as_it_is :
  confirmPayment Scenario.threeMonths Scenario.now (AsUser "u1") (Oid "b3")
    (Some "tx9") (Some "upi") Scenario.world
  = (alreadyPaid, Scenario.world).
Proof. reflexivity. Qed.

Lemma read_never_unauthorized_witness :
  bookingColl Scenario.world !! "b1" = Some Scenario.pendingBooking
  ∧ getBooking (AsHost "h3") (Oid "b1") Scenario.world
    = ({| code := 200; body := populated Scenario.world Scenario.pendingBooking |},
       Scenario.world)
  ∧ getPaymentDetails (AsHost "h3") (Oid "b1") Scenario.world
    = ({| code := 200; body := PaymentBody Scenario.advance |}, Scenario.world).
Proof.
  assert (Hb : bookingColl Scenario.world !! "b1" = Some Scenario.pendingBooking)
    by reflexivity.
  split; [exact Hb|].
  destruct (read_never_unauthorized (AsHost "h3") "b1" Scenario.pendingBooking
              Scenario.world Hb (or_introl eq_refl)) as (Hread & Hpay & _).
  by split.
Defined.



Lemma client_confirmed_payment_witness :
  bookingColl Scenario.world !! "b1" = Some Scenario.pendingBooking
  ∧ isPaid (payment Scenario.pendingBooking) = false
  ∧ let b' := confirm_paid (Some "tx1") Scenario.now (Some (Some "upi"))
                Scenario.pendingBooking in
    let sent := paidFanout Scenario.world "b1" b' (Some "tx1") Scenario.asha in
    confirmPayment Scenario.threeMonths Scenario.now (AsUser "u1") (Oid "b1")
      (Some "tx1") (Some "upi") Scenario.world
    = ({| code := 200; body := BookingBody b' |},
       add_outbox sent (with_bookings (insert "b1" b') Scenario.world))
    ∧ transactionId (payment b') = Some "tx1"
    ∧ status b' = "confirmed"
    ∧ length sent = 6.
Proof.
  assert (Hb : bookingColl Scenario.world !! "b1" = Some Scenario.pendingBooking)
    by reflexivity.
  split; [exact Hb|]. split; [reflexivity|].
  destruct (client_confirmed_payment Scenario.threeMonths Scenario.now "b1"
              Scenario.pendingBooking (Some "tx1") (Some "upi")
              Scenario.world Hb) as (_ & _ & Hgo).
  destruct (Hgo eq_refl) as (_ & _ & _ & Hsaved).
  destruct (Hsaved eq_refl eq_refl
              (scenario_resolves Scenario.pendingBooking eq_refl eq_refl)
              Scenario.asha eq_refl)
    as (Hrun & _ & Htx & _ & _ & Hstatus & _).
  cbn zeta. split; [exact Hrun|]. split; [exact Htx|]. split; [exact Hstatus|].
  reflexivity.
Defined.

(** C5, as stated, fails.  The owner's confirmation of the unpaid booking
    [b1] without a payment method, or with the method cash, is answered
    500 and records nothing.  And of the messages of a confirmation that
    succeeds, the SMS to the venue host and the SMS to the caterer carry
    no transaction id, and the caterer is told the price of its service,
    20000, not the amount paid, 12500.5. *)
Lemma confirmation_is_not_unconditional :
  bookingColl Scenario.world !! "b1" = Some Scenario.pendingBooking
  ∧ user Scenario.pendingBooking = "u1"
  ∧ isPaid (payment Scenario.pendingBooking) = false
  ∧ confirmPayment Scenario.threeMonths Scenario.now (AsUser "u1") (Oid "b1")
      (Some "tx1") None Scenario.world
    = (serverError, Scenario.world)
  ∧ confirmPayment Scenario.threeMonths Scenario.now (AsUser "u1") (Oid "b1")
      (Some "tx1") (Some "cash") Scenario.world
    = (serverError, Scenario.world)
  ∧ let sent :=
      outbox (confirmPayment Scenario.threeMonths Scenario.now (AsUser "u1")
                (Oid "b1") (Some "tx1") (Some "upi") Scenario.world).2 in
    sent !! 3%nat
    = Some (SmsMsg "+910000000002"
              "Payment received for booking ID: {}. Amount: {}. The booking is now confirmed."
              [BookingId "b1"; Amount (Some 12500.5%float)])
    ∧ sent !! 4%nat
      = Some (EmailMsg "food@example.com" "EventO - Service Payment Received"
                [ServiceType (Some "catering"); BookingId "b1";
                 EventType (Some "wedding");
                 LocaleDate (Some Scenario.eventDay);
                 LocaleDate (Some Scenario.eventDay);
                 Amount (Some 20000%float); TransactionId (Some "tx1")])
    ∧ sent !! 5%nat
      = Some (SmsMsg "+910000000003"
                "Payment received for service booking ID: {}. Amount: {}. The service is now confirmed."
                [BookingId "b1"; Amount (Some 20000%float)]).
Proof. by vm_compute. Qed.

Lemma payment_ignores_status_witness :
  bookingColl Scenario.world !! "b2" = Some Scenario.cancelledBooking
  ∧ status Scenario.cancelledBooking = "cancelled"
  ∧ let result :=
      confirmPayment Scenario.threeMonths Scenario.now (AsUser "u1") (Oid "b2")
        (Some "tx1") (Some "upi") Scenario.world in
    code result.1 = 200
    ∧ status <$> bookingColl result.2 !! "b2" = Some "confirmed".
Proof.
  assert (Hb : bookingColl Scenario.world !! "b2" = Some Scenario.cancelledBooking)
    by reflexivity.
  split; [exact Hb|]. split; [reflexivity|].
  destruct (payment_ignores_status Scenario.threeMonths Scenario.now "u1" "b2"
              Scenario.cancelledBooking (Some "tx1") (Some "upi")
              Scenario.world Hb eq_refl eq_refl)
    as (_ & _ & _ & Hsaved & _).
  destruct (Hsaved eq_refl eq_refl) as [Hstored Hcode].
  cbn zeta. split.
  - apply Hcode; [by eexists|by apply scenario_resolves].
  - exact (eq_trans (f_equal (fmap status) Hstored) eq_refl).
Defined.

(** C6, as stated, fails: the owner's confirmation of the unpaid,
    cancelled booking [b2] does not succeed when the request names no
    payment method; the answer is 500 and the booking stays cancelled. *)
Lemma cancelled_booking_stays_cancelled :
  bookingColl Scenario.world !! "b2" = Some Scenario.cancelledBooking
  ∧ user Scenario.cancelledBooking = "u1"
  ∧ isPaid (payment Scenario.cancelledBooking) = false
  ∧ status Scenario.cancelledBooking = "cancelled"
  ∧ let result :=
      confirmPayment Scenario.threeMonths Scenario.now (AsUser "u1") (Oid "b2")
        (Some "tx1") None Scenario.world in
    result = (serverError, Scenario.world)
    ∧ status <$> bookingColl result.2 !! "b2" = Some "cancelled".
Proof. by vm_compute. Qed.

(** The side conditions of the confirmation are not idle.  A method outside
    the schema's enumeration fails validation on save.  And the pre-save
    guard runs on every save, against the clock of that save: a booking
    accepted on 2026-11-30 for 2027-03-02 (three months after November 30
    is March 2) cannot be confirmed on 2026-12-01 (three months after
    December 1 is March 1).  Both requests are answered 500 and record
    nothing. *)
Example confirmation_needs_its_side_conditions :
  confirmPayment Scenario.threeMonths Scenario.now (AsUser "u1") (Oid "b1")
    (Some "tx1") (Some "cash") Scenario.world
  = (serverError, Scenario.world)
  ∧ let created :=
      createBooking Scenario.threeMonths Scenario.lastOfNovember "b9"
        (AsUser "u1") Scenario.marchRequest Scenario.world in
    code created.1 = 201
    ∧ (status <$> bookingColl created.2 !! "b9") = Some "pending"
    ∧ confirmPayment Scenario.threeMonths Scenario.firstOfDecember (AsUser "u1")
        (Oid "b9") (Some "tx1") (Some "upi") created.2
      = (serverError, created.2).
Proof. by vm_compute. Qed.

(** An advance of 12500.5 is charged as 1250050 minor units. *)
Example advance_in_minor_units :
  createPaymentIntent (AsUser "u1") (Oid "b1") (Some "online_payment")
    Scenario.world
  = ({| code := 200;
        body := ClientSecretBody
                  {| amount := JS.Int 1250050; currency := "inr";
                     meta_bookingId := "b1"; meta_userId := "u1" |} |},
     with_charge {| amount := JS.Int 1250050; currency := "inr";
                    meta_bookingId := "b1"; meta_userId := "u1" |}
       Scenario.world).
Proof. vm_compute. reflexivity. Qed.

Lemma nearest_unique num e n n' :
  nearest num e n → nearest num e n' → n = n'.
Proof.
  unfold nearest.
  assert (Hp : (0 < 2 ^ Z.max 0 (- e))%Z) by (apply Z.pow_pos_nonneg; lia).
  set (p := (2 ^ Z.max 0 (- e))%Z) in *.
  set (x := (2 * num * 2 ^ Z.max 0 e)%Z). nia.
Qed.

Lemma payment_intent_charge_witness :
  bookingColl Scenario.world !! "b1" = Some Scenario.pendingBooking
  ∧ advanceAmount (payment Scenario.pendingBooking) = Some 12500.5%float
  ∧ ∃ charge,
      createPaymentIntent (AsUser "u1") (Oid "b1") (Some "online_payment")
        Scenario.world
      = ({| code := 200; body := ClientSecretBody charge |},
         with_charge charge Scenario.world)
      ∧ amount charge = JS.Int 1250050
      ∧ currency charge = "inr".
Proof.
  assert (Hb : bookingColl Scenario.world !! "b1" = Some Scenario.pendingBooking)
    by reflexivity.
  split; [exact Hb|]. split; [reflexivity|].
  destruct (payment_intent_charge (AsUser "u1") "b1" Scenario.pendingBooking
              (Some "online_payment") Scenario.world Hb) as (Hgo & _).
  destruct (Hgo eq_refl eq_refl eq_refl)
    as (charge & Hrun & _ & Hcurrency & _ & _ & Hamount).
  exists charge. split; [exact Hrun|]. split; [|exact Hcurrency].
  unfold isMinorUnits in Hamount.
  change (advanceAmount (payment Scenario.pendingBooking))
    with (Some 12500.5%float) in Hamount.
  assert (Hproduct : Prim2SF (12500.5 * 100)%float
                     = S754_finite false 5368923868364800 (-32))
    by (vm_compute; reflexivity).
  cbn beta iota in Hamount. rewrite Hproduct in Hamount.
  destruct Hamount as (n & -> & Hn).
  f_equal. apply (nearest_unique (Z.pos 5368923868364800) (-32)); [exact Hn|].
  split; by vm_compute.
Defined.

(** C10, as stated, fails in its last part: over the fifteen venues of the
    directory, all of which match, page 2 with limit 10 answers with a
    [count] of 5, the size of the page, not with the total of 15. *)
Lemma count_is_page_size_not_total :
  length (matching Scenario.literalRegex (venueFilter Scenario.pageTwo)
            Scenario.directory) = 15
  ∧ match body (getVenues Scenario.literalRegex Scenario.pageTwo
                  Scenario.directory).1 with
    | ListBody count pagination data =>
        count = 5 ∧ length data = 5
        ∧ pagination = {| next := None;
                          prev := Some {| page := 1%Z; limit := 10%Z |} |}
    | _ => False
    end.
Proof. vm_compute. by repeat split. Qed.

Lemma listing_pagination_witness :
  q_page Scenario.pageTwo = Some 2%Z
  ∧ q_limit Scenario.pageTwo = Some 10%Z
  ∧ length (matching Scenario.literalRegex (venueFilter Scenario.pageTwo)
              Scenario.directory) = 15
  ∧ getVenues Scenario.literalRegex Scenario.pageTwo Scenario.directory
    = (secondOfTwoPages
         (drop 10 (matching Scenario.literalRegex (venueFilter Scenario.pageTwo)
                     Scenario.directory)),
       Scenario.directory).
Proof.
  assert (Htotal : length (matching Scenario.literalRegex
                             (venueFilter Scenario.pageTwo) Scenario.directory) = 15)
    by (vm_compute; reflexivity).
  split; [reflexivity|]. split; [reflexivity|]. split; [exact Htotal|].
  destruct (listing_pagination Scenario.literalRegex Scenario.pageTwo
              Scenario.directory eq_refl eq_refl) as (Hvenues & _ & _).
  exact (proj1 (Hvenues Htotal)).
Defined.

(** * Further properties *)

(** The call left the world as it was. *)
Ltac unchanged := repeat split; first [done | by left].

Section Further.
Variable threeMonthsFrom : Z → Z.

(** ** The provider callback *)

(** X1.  The provider callback answers 400 to a request whose signature
    does not verify and acknowledges every other event with 200, also when
    it records nothing.  It never sends a message, never creates a charge
    and never touches a user or a host; it leaves the bookings as they
    are, or it marks one unpaid booking, the one named by a
    [payment_intent.succeeded] event, paid under the id of the payment
    intent, with the status confirmed. *)
Theorem webhook_effect now ev w :
  let result := stripeWebhook threeMonthsFrom now ev w in
  result.1 = match ev with
             | BadSignature msg =>
                 {| code := 400; body := TextBody ("Webhook Error: " ++ msg) |}
             | StripeEvent _ _ _ => received
             end
  ∧ outbox result.2 = outbox w
  ∧ charges result.2 = charges w
  ∧ userColl result.2 = userColl w
  ∧ hostColl result.2 = hostColl w
  ∧ (result.2 = w
     ∨ ∃ intent bid b,
         ev = StripeEvent "payment_intent.succeeded" intent (Oid bid)
         ∧ bookingColl w !! bid = Some b
         ∧ isPaid (payment b) = false
         ∧ result.2
           = with_bookings (insert bid (confirm_paid (Some intent) now None b)) w).
Proof.
  cbn zeta. unfold stripeWebhook, try_catch.
  destruct ev as [msg|type intent raw]; [unchanged|].
  destruct (bool_decide (type = "payment_intent.succeeded")) eqn:Htype; hstep;
    [|unchanged].
  apply bool_decide_eq_true_1 in Htype. subst type.
  destruct raw as [| |bid]; [unchanged| |].
  - unfold swallow. cbn. unchanged.
  - unfold swallow, bind. cbn [Booking_findById gets].
    destruct (bookingColl w !! bid) as [b|] eqn:Hb;
      [|cbn; unchanged].
    destruct (isPaid (payment b)) eqn:Hpaid; cbn [negb when];
      [cbn; unchanged|].
    unfold Booking_save.
    destruct (BookingSchema_validate _); [|cbn; unchanged].
    destruct (pre_save _ _ _); [cbn; unchanged|].
    cbn. repeat split; try done. right. by exists intent, bid, b.
Qed.

(** X2.  When the provider callback reaches an unpaid booking before the
    client's confirmation does, the booking is stored as paid under the id
    of the payment intent with its payment method unchanged, and the
    client's confirmation that follows is answered 400 and changes
    nothing: neither call sends a message, so nobody is notified of this
    payment. *)
Theorem webhook_before_confirmation now intent bid b w :
  bookingColl w !! bid = Some b →
  isPaid (payment b) = false →
  BookingSchema_validate b = [] →
  pre_save threeMonthsFrom now b = None →
  let first :=
    stripeWebhook threeMonthsFrom now
      (StripeEvent "payment_intent.succeeded" intent (Oid bid)) w in
  first.1 = received
  ∧ bookingColl first.2 !! bid = Some (confirm_paid (Some intent) now None b)
  ∧ paymentMethod (payment (confirm_paid (Some intent) now None b))
    = paymentMethod (payment b)
  ∧ outbox first.2 = outbox w
  ∧ ∀ now' tx method,
      let second :=
        confirmPayment threeMonthsFrom now' (AsUser (user b)) (Oid bid) tx method
          first.2 in
      second = (alreadyPaid, first.2)
      ∧ paidFanouts bid (outbox second.2) = paidFanouts bid (outbox w).
Proof.
  intros Hb Hunpaid Hvalid Hpre first. subst first.
  rewrite (stripeWebhook_marks_paid threeMonthsFrom now intent bid b w) by done.
  cbn [fst snd]. split; [done|]. split; [cbn; by rewrite lookup_insert_eq|].
  split; [done|]. split; [done|]. intros now' tx method. cbn zeta.
  rewrite (confirmPayment_paid threeMonthsFrom now' _ bid
             (confirm_paid (Some intent) now None b));
    [|cbn; by rewrite lookup_insert_eq|done].
  split; [|done]. cbn. by rewrite bool_decide_eq_true_2.
Qed.

(** ** Creating a booking *)

Lemma requested_resolve w uid req ev :
  venueResolves w (cb_venue req) →
  Forall (providerResolves w) (default [] (cb_services req)) →
  hostsResolve w (requestedBooking uid req ev).
Proof.
  intros Hvenue Hprov. split.
  - cbn. intros v Hv. destruct (cb_venue req) as [| |v']; try discriminate Hv.
    injection Hv as ->. destruct Hvenue as (h & Hh & _). by eexists.
  - cbn. induction Hprov as [|s ss (id & h & Hid & Hh & _) _ IH];
      cbn [omap list_omap]; [constructor|].
    unfold requestedEntry at 1. rewrite Hid. constructor; [|exact IH].
    cbn. by eexists.
Qed.

Lemma set_notifications_validate n b :
  BookingSchema_validate (set_notifications n b) = BookingSchema_validate b.
Proof. reflexivity. Qed.

Lemma Booking_create_ok now id b w :
  BookingSchema_validate b = [] → pre_save threeMonthsFrom now b = None →
  bookingColl w !! id = None →
  Booking_create threeMonthsFrom now id b w
  = (Next tt, with_bookings (insert id b) w).
Proof.
  intros Hvalid Hpre Hfresh. unfold Booking_create. rewrite Hvalid, Hpre. hstep.
  rewrite Hfresh. rewrite bool_decide_eq_false_2; [reflexivity|].
  by intros [? ?].
Qed.

(** The create handler on a request that it accepts. *)
Lemma createBooking_runs now newId uid req ev p u w :
  acceptable threeMonthsFrom now newId uid req ev p u w →
  let b := requestedBooking uid req ev in
  createBooking threeMonthsFrom now newId (AsUser uid) req w
  = ({| code := 201; body := BookingBody (set_notifications notified b) |},
     add_outbox (newFanout w newId (shownEvent ev) b u)
       (with_bookings (insert newId (set_notifications notified b)) w)).
Proof.
  intros (Hev & Hdate & Hp & Hvenue & Hprov & Hu & Hfresh & Hvalid & Hpre) b.
  pose proof (requested_resolve w uid req ev Hvenue Hprov) as [Hv Hs].
  unfold createBooking, try_catch. cbn [isHost]. hstep.
  erewrite bind_next by (by apply check_venue_ok).
  assert (Hentries : match cb_services req with
                     | Some ss => check_services ss
                     | None => ret []
                     end w
                     = (Next (omap requestedEntry (default [] (cb_services req))), w)).
  { destruct (cb_services req) as [ss|]; [|reflexivity].
    by apply check_services_entries. }
  erewrite bind_next by exact Hentries.
  rewrite Hev. hstep.
  rewrite (date_check_passes threeMonthsFrom now ev Hdate). hstep.
  cbn [req_user_id]. hstep.
  fold (requestedBooking uid req ev). fold b.
  erewrite bind_next by (by apply Booking_create_ok).
  set (w1 := with_bookings (insert newId b) w).
  unfold User_findById. hstep.
  replace (userColl w1 !! uid) with (Some u) by done. hstep.
  rewrite Hp. hstep.
  rewrite !with_outbox_add, add_outbox_add.
  erewrite bind_next.
  2:{ instantiate (1 := add_outbox match venue b with
                                   | Some v =>
                                       hostPair w v
                                         (newVenueEmail newId (shownEvent ev))
                                         (newVenueSMS newId (shownEvent ev))
                                   | None => []
                                   end _).
      subst b. cbn [requestedBooking venue] in *.
      destruct (cb_venue req) as [| |v] eqn:Ev.
      - cbn [ret]. by rewrite add_outbox_nil.
      - cbn [ret]. by rewrite add_outbox_nil.
      - unfold notify_new_venue. rewrite notify_host_resolved; [done|].
        by apply Hv. }
  erewrite bind_next.
  2:{ apply (for_each_resolved (newProviderEmail newId (shownEvent ev))
               (newProviderSMS newId (shownEvent ev)));
        [done|exact Hs]. }
  rewrite !add_outbox_add.
  erewrite bind_next.
  2:{ apply Booking_save_ok; [by rewrite set_notifications_validate|exact Hpre]. }
  cbn [ret]. f_equal.
  unfold newFanout, add_outbox, with_bookings, w1, providerPairs, hostPair.
  cbn. rewrite insert_insert_eq. f_equal.
  by rewrite Hp.
Qed.

Lemma hostPair_length w hid mail sms :
  is_Some (hostColl w !! hid) → length (hostPair w hid mail sms) = 2.
Proof. intros [h Hh]. unfold hostPair. by rewrite Hh. Qed.

Lemma providerPairs_length mail sms w ss :
  Forall (λ e, is_Some (hostColl w !! serviceProvider e)) ss →
  length (providerPairs mail sms w ss) = 2 * length ss.
Proof.
  induction 1 as [|e ss He _ IH]; [done|].
  cbn [providerPairs flat_map]. rewrite length_app, hostPair_length by done.
  unfold providerPairs in IH. rewrite IH. cbn [length]. lia.
Qed.

(** X3.  A request that the create handler accepts is answered 201 with
    the booking as stored: owned by the caller, pending, its notification
    flags set, its event details as the schema casts those of the request
    and its payment sub-document exactly as the request gave it.  The
    messages sent are one email and one SMS to the caller, to the venue if
    there is one and to the provider of each service, and nothing else. *)
Theorem booking_created now newId uid req ev p u w :
  acceptable threeMonthsFrom now newId uid req ev p u w →
  let result := createBooking threeMonthsFrom now newId (AsUser uid) req w in
  ∃ b,
    result = ({| code := 201; body := BookingBody b |},
              add_outbox (newFanout w newId (shownEvent ev) b u)
                (with_bookings (insert newId b) w))
    ∧ bookingColl result.2 !! newId = Some b
    ∧ user b = uid
    ∧ status b = "pending"
    ∧ notifications b = notified
    ∧ eventDetails b = storedEvent ev
    ∧ payment b = p
    ∧ venue b = match cb_venue req with Oid v => Some v | _ => None end
    ∧ services b = omap requestedEntry (default [] (cb_services req))
    ∧ length (newFanout w newId (shownEvent ev) b u)
      = 2 + match venue b with Some _ => 2 | None => 0 end
        + 2 * length (services b).
Proof.
  intros Hok result. subst result.
  rewrite (createBooking_runs now newId uid req ev p u w Hok). cbn zeta.
  destruct Hok as (Hev & Hdate & Hp & Hvenue & Hprov & Hu & Hfresh & Hvalid & Hpre).
  destruct (requested_resolve w uid req ev Hvenue Hprov) as [Hv Hs].
  exists (set_notifications notified (requestedBooking uid req ev)).
  split; [reflexivity|]. split; [cbn; by rewrite lookup_insert_eq|].
  do 4 (split; [reflexivity|]). split; [cbn; by rewrite Hp|].
  do 2 (split; [reflexivity|]).
  unfold newFanout. rewrite !length_app, providerPairs_length by exact Hs.
  cbn [length set_notifications venue services requestedBooking] in *.
  destruct (cb_venue req) as [| |v]; [done..|].
  rewrite hostPair_length by (by apply Hv). done.
Qed.

(** X4.  A booking that was created reads back: on the world that the
    create handler leaves, [getBooking] with the new id answers 200 with
    the stored booking, populated, to the caller and to anyone else, and
    [getPaymentDetails] answers with the payment of the request. *)
Theorem created_booking_reads_back now newId uid req ev p u w :
  acceptable threeMonthsFrom now newId uid req ev p u w →
  let created := createBooking threeMonthsFrom now newId (AsUser uid) req w in
  ∀ who,
    ∃ b,
      created.1 = {| code := 201; body := BookingBody b |}
      ∧ getBooking who (Oid newId) created.2
        = ({| code := 200; body := populated created.2 b |}, created.2)
      ∧ getPaymentDetails who (Oid newId) created.2
        = ({| code := 200; body := PaymentBody p |}, created.2).
Proof.
  intros Hok created who. subst created.
  rewrite (createBooking_runs now newId uid req ev p u w Hok). cbn zeta.
  destruct Hok as (Hev & Hdate & Hp & Hvenue & Hprov & Hu & Hfresh & Hvalid & Hpre).
  set (b := set_notifications notified (requestedBooking uid req ev)).
  set (w1 := add_outbox _ _). cbn [fst snd].
  assert (Hb : bookingColl w1 !! newId = Some b)
    by (cbn; by rewrite lookup_insert_eq).
  exists b. split; [done|]. split.
  - rewrite (getBooking_found who newId b w1 Hb).
    replace (userColl w1 !! user b) with (Some u) by done.
    by destruct who.
  - unfold getPaymentDetails, try_catch. cbn [Booking_findById]. hstep.
    rewrite Hb. cbn beta iota. unfold bind at 1.
    rewrite getPaymentDetails_denied_false. cbn. by rewrite Hp.
Qed.

Lemma createPaymentIntent_paid uid bid b method w :
  bookingColl w !! bid = Some b → user b = uid → isPaid (payment b) = true →
  createPaymentIntent (AsUser uid) (Oid bid) method w = (alreadyPaid, w).
Proof.
  intros Hb Hown Hpaid. unfold createPaymentIntent, try_catch.
  cbn [isHost]. hstep. cbn [Booking_findById]. hstep. rewrite Hb.
  cbn beta iota. cbn [req_user_id]. hstep.
  rewrite bool_decide_eq_true_2 by done. cbn [negb]. hstep.
  rewrite Hpaid. hstep. reflexivity.
Qed.

(** X5.  The create handler stores the payment sub-document of the
    request as it is, the [isPaid] flag included.  A booking that a caller
    creates with [isPaid] set is stored as pending and paid, and no payment
    can be recorded for it afterwards: a payment intent and a confirmation
    are both answered 400 "Booking is already paid", and the provider
    callback changes nothing. *)
Theorem prepaid_booking_takes_no_payment now newId uid req ev p u w :
  acceptable threeMonthsFrom now newId uid req ev p u w →
  isPaid p = true →
  let created := createBooking threeMonthsFrom now newId (AsUser uid) req w in
  code created.1 = 201
  ∧ (status <$> bookingColl created.2 !! newId) = Some "pending"
  ∧ (payment <$> bookingColl created.2 !! newId) = Some p
  ∧ ∀ now' tx method type intent,
      confirmPayment threeMonthsFrom now' (AsUser uid) (Oid newId) tx method
        created.2 = (alreadyPaid, created.2)
      ∧ createPaymentIntent (AsUser uid) (Oid newId) method created.2
        = (alreadyPaid, created.2)
      ∧ stripeWebhook threeMonthsFrom now' (StripeEvent type intent (Oid newId))
          created.2 = (received, created.2).
Proof.
  intros Hok Hpaid created. subst created.
  rewrite (createBooking_runs now newId uid req ev p u w Hok). cbn zeta.
  destruct Hok as (Hev & _ & Hp & _).
  set (b := set_notifications notified (requestedBooking uid req ev)).
  set (w1 := add_outbox _ _). cbn [fst snd].
  assert (Hb : bookingColl w1 !! newId = Some b)
    by (cbn; by rewrite lookup_insert_eq).
  assert (Hpay : payment b = p) by (cbn; by rewrite Hp).
  split; [done|]. split; [by rewrite Hb|]. split; [by rewrite Hb, <- Hpay|].
  intros now' tx method type intent. rewrite <- Hpay in Hpaid.
  split; [|split].
  - rewrite (confirmPayment_paid threeMonthsFrom now' _ newId b tx method w1 Hb Hpaid).
    cbn. by rewrite bool_decide_eq_true_2.
  - by apply (createPaymentIntent_paid uid newId b).
  - by apply (stripeWebhook_paid threeMonthsFrom now' type intent newId b).
Qed.

(** X6.  A booking needs a venue or at least one service.  A user's
    request that names no venue and no service, with event details whose
    start date passes the handler's check, is answered 400 with the
    messages of the schema's validation, among them that the venue is
    required; nothing is stored and nothing is sent. *)
Theorem booking_needs_venue_or_service now newId uid req ev w :
  cb_venue req = Absent →
  cb_services req = None ∨ cb_services req = Some [] →
  cb_eventDetails req = Some ev →
  passesDateCheck threeMonthsFrom now ev →
  ∃ messages,
    createBooking threeMonthsFrom now newId (AsUser uid) req w
    = ({| code := 400; body := ErrorsBody messages |}, w)
    ∧ "Path `venue` is required." ∈ messages.
Proof.
  intros Hvenue Hservices Hev Hdate.
  rewrite (createBooking_not_created threeMonthsFrom now newId uid req ev
             (ValidationError (BookingSchema_validate (requestedBooking uid req ev)))
             w).
  - eexists. split; [reflexivity|].
    unfold BookingSchema_validate, validate_fixed.
    cbn [requestedBooking isServiceOnly venue]. rewrite Hvenue.
    replace (match cb_services req with
             | Some (_ :: _) => true
             | _ => false
             end) with false by (by destruct Hservices as [-> | ->]).
    cbn [required]. apply elem_of_app. left. apply list_elem_of_here.
  - by rewrite Hvenue.
  - by destruct Hservices as [-> | ->].
  - done.
  - done.
  - unfold Booking_create.
    destruct (BookingSchema_validate (requestedBooking uid req ev)) eqn:Hvalid;
      [|reflexivity].
    exfalso. revert Hvalid. unfold BookingSchema_validate, validate_fixed.
    cbn [requestedBooking isServiceOnly venue]. rewrite Hvenue.
    replace (match cb_services req with
             | Some (_ :: _) => true
             | _ => false
             end) with false by (by destruct Hservices as [-> | ->]).
    discriminate.
Qed.

(** *** What the create handler can do to the world *)

Lemma check_services_cases ss w :
  ∃ st, check_services ss w = (st, w)
        ∧ match st with
          | Next es => es = omap requestedEntry ss
          | Replied r => code r = 404
          | Thrown e => e = CastError
          end.
Proof.
  induction ss as [|s ss IH]; cbn [check_services omap list_omap].
  - by exists (Next []).
  - destruct (Host_findOne_verified_run (in_serviceProvider s)
                (providerHostType (in_serviceType s)) w) as (st & Hrun & Hst).
    destruct st as [found|r|e]; [|done|].
    + erewrite bind_next by exact Hrun. unfold requestedEntry at 1.
      destruct found as [h|], (in_serviceProvider s) as [| |id];
        try (eexists; split; [reflexivity|]; done).
      destruct IH as (st & Hrest & Hst').
      destruct st as [es|r|e].
      * erewrite bind_next by exact Hrest. eexists. split; [reflexivity|].
        cbn. by rewrite Hst'.
      * erewrite bind_replied by exact Hrest. by eexists.
      * erewrite bind_thrown by exact Hrest. by eexists.
    + erewrite bind_thrown by exact Hrun. by eexists.
Qed.

Lemma createBooking_effect now newId who req w :
  ∃ resp w',
    createBooking threeMonthsFrom now newId who req w = (resp, w')
    ∧ ((w' = w ∧ code resp ∈ [400; 403; 404; 500])
       ∨ ∃ uid ev n l,
           who = AsUser uid
           ∧ bookingColl w !! newId = None
           ∧ code resp ∈ [201; 500]
           ∧ w' = add_outbox l
                    (with_bookings
                       (insert newId
                          (set_notifications n (requestedBooking uid req ev))) w)).
Proof.
  unfold createBooking, try_catch.
  destruct who as [uid|hid];
    [|do 2 eexists; split; [reflexivity|]; left; split; [done|cbn; in_literals]].
  cbn [isHost]. hstep.
  destruct (check_venue_run (cb_venue req) w) as (st & Hrun & Hst).
  destruct st as [[]|r|e].
  2:{ erewrite bind_replied by exact Hrun. do 2 eexists. split; [reflexivity|].
      left. split; [done|]. cbn in *. rewrite Hst. in_literals. }
  2:{ erewrite bind_thrown by exact Hrun. do 2 eexists. split; [reflexivity|].
      left. split; [done|]. cbn in *. subst e. cbn. in_literals. }
  erewrite bind_next by exact Hrun.
  assert (∃ st, match cb_services req with
                | Some ss => check_services ss
                | None => ret []
                end w = (st, w)
                ∧ match st with
                  | Next es => es = omap requestedEntry (default [] (cb_services req))
                  | Replied r => code r = 404
                  | Thrown e => e = CastError
                  end) as (st & Hrun' & Hst').
  { destruct (cb_services req); [apply check_services_cases|by exists (Next [])]. }
  destruct st as [entries|r|e].
  2:{ erewrite bind_replied by exact Hrun'. do 2 eexists. split; [reflexivity|].
      left. split; [done|]. cbn in *. rewrite Hst'. in_literals. }
  2:{ erewrite bind_thrown by exact Hrun'. do 2 eexists. split; [reflexivity|].
      left. split; [done|]. cbn in *. subst e. cbn. in_literals. }
  erewrite bind_next by exact Hrun'. subst entries.
  destruct (cb_eventDetails req) as [ev|]; hstep;
    [|do 2 eexists; split; [reflexivity|]; left; split; [done|cbn; in_literals]].
  destruct (match asDate (in_startDate ev) with
            | Some d => (threeMonthsFrom now <? d)%Z
            | None => false
            end) eqn:Hdate; hstep;
    [do 2 eexists; split; [reflexivity|]; left; split; [done|cbn; in_literals]|].
  cbn [req_user_id]. hstep.
  fold (requestedBooking uid req ev). set (b := requestedBooking uid req ev).
  destruct (BookingSchema_validate b) as [|msg msgs] eqn:Hvalid.
  2:{ erewrite bind_thrown by (unfold Booking_create; by rewrite Hvalid).
      do 2 eexists. split; [reflexivity|]. left. split; [done|cbn; in_literals]. }
  destruct (pre_save threeMonthsFrom now b) as [e|] eqn:Hpre.
  { erewrite bind_thrown by (unfold Booking_create; by rewrite Hvalid, Hpre).
    do 2 eexists. split; [reflexivity|]. left. split; [done|].
    destruct e; cbn; in_literals. }
  destruct (bookingColl w !! newId) as [taken|] eqn:Hfresh.
  { erewrite bind_thrown.
    2:{ unfold Booking_create. rewrite Hvalid, Hpre. hstep. rewrite Hfresh.
        by rewrite bool_decide_eq_true_2. }
    do 2 eexists. split; [reflexivity|]. left. split; [done|cbn; in_literals]. }
  erewrite bind_next by (by apply Booking_create_ok).
  set (w1 := with_bookings (insert newId b) w).
  unfold User_findById. hstep.
  destruct (userColl w1 !! uid) as [u|]; hstep.
  2:{ do 2 eexists. split; [reflexivity|]. right.
      exists uid, ev, noNotifications, []. rewrite add_outbox_nil.
      repeat split; try done. cbn. in_literals. }
  destruct (cb_payment req) as [p|]; hstep.
  2:{ do 2 eexists. split; [reflexivity|]. right.
      exists uid, ev, noNotifications, []. rewrite add_outbox_nil.
      repeat split; try done. cbn. in_literals. }
  rewrite !with_outbox_add, add_outbox_add.
  set (lu := ([newUserEmail newId (shownEvent ev) p (userContact u)] ++
              [newUserSMS newId p (userContact u)])%list).
  assert (Hvenue : ∃ st lv,
    match cb_venue req with
    | Oid v => notify_new_venue newId (shownEvent ev) v
    | _ => ret ()
    end (add_outbox lu w1) = (st, add_outbox lv (add_outbox lu w1))
    ∧ sentOrThrew st).
  { destruct (cb_venue req) as [| |v];
      try (exists (Next tt), []; cbn; rewrite add_outbox_nil; split; [done|by left]).
    apply notify_host_outcome. }
  destruct Hvenue as (st & lv & Hv & [-> | ->]).
  2:{ erewrite bind_thrown by exact Hv. rewrite add_outbox_add.
      do 2 eexists. split; [reflexivity|]. right.
      exists uid, ev, noNotifications, (lu ++ lv)%list.
      repeat split; try done. cbn. in_literals. }
  erewrite bind_next by exact Hv. rewrite add_outbox_add.
  destruct (for_each_outcome (notify_new_provider newId (shownEvent ev))
              (newProviderEmail newId (shownEvent ev))
              (newProviderSMS newId (shownEvent ev))
              (omap requestedEntry (default [] (cb_services req)))
              (add_outbox (lu ++ lv) w1) (λ e, eq_refl))
    as (st & lp & Hloop & [-> | ->]).
  2:{ erewrite bind_thrown by exact Hloop. rewrite add_outbox_add.
      do 2 eexists. split; [reflexivity|]. right.
      exists uid, ev, noNotifications, ((lu ++ lv) ++ lp)%list.
      repeat split; try done. cbn. in_literals. }
  erewrite bind_next by exact Hloop. rewrite add_outbox_add.
  erewrite bind_next.
  2:{ apply Booking_save_ok; [by rewrite set_notifications_validate|exact Hpre]. }
  do 2 eexists. split; [reflexivity|]. right.
  exists uid, ev, notified, ((lu ++ lv) ++ lp)%list.
  split; [done|]. split; [done|]. split; [cbn; in_literals|].
  unfold add_outbox, with_bookings, w1. cbn. by rewrite insert_insert_eq.
Qed.

(** X7.  Whatever the request, the create handler never changes a user, a
    host or a charge, and never changes or removes a booking that exists:
    it can only add one booking, under the new id, and a booking that it
    adds is pending and owned by the caller.  When it answers 400, 403 or
    404 it has stored and sent nothing. *)
Theorem createBooking_frame now newId who req w :
  let result := createBooking threeMonthsFrom now newId who req w in
  userColl result.2 = userColl w
  ∧ hostColl result.2 = hostColl w
  ∧ charges result.2 = charges w
  ∧ (∀ id b, bookingColl w !! id = Some b → bookingColl result.2 !! id = Some b)
  ∧ (∀ id, id ≠ newId → bookingColl result.2 !! id = bookingColl w !! id)
  ∧ (∀ b, bookingColl w !! newId = None →
          bookingColl result.2 !! newId = Some b →
          who = AsUser (user b) ∧ status b = "pending")
  ∧ (code result.1 ∈ [400; 403; 404] → result.2 = w).
Proof.
  cbn zeta.
  destruct (createBooking_effect now newId who req w)
    as (resp & w' & -> & [[-> Hcode] | (uid & ev & n & l & -> & Hfresh & Hcode & ->)]);
    cbn [fst snd].
  - do 5 (split; [done|]). split; [|done]. intros b Hnone Hsome. congruence.
  - do 3 (split; [done|]). split; [|split; [|split]].
    + intros id b Hb. cbn. rewrite lookup_insert_ne; [done|]. congruence.
    + intros id Hne. cbn. by rewrite lookup_insert_ne.
    + intros b _. cbn. rewrite lookup_insert_eq. by intros [= <-].
    + intros Hbad. exfalso. clear -Hcode Hbad.
      apply elem_of_cons in Hcode as [Hc | Hcode]; rewrite ?Hc in Hbad.
      * not_in_literals Hbad.
      * apply elem_of_cons in Hcode as [Hc | Hcode]; [|by apply elem_of_nil in Hcode].
        rewrite Hc in Hbad. not_in_literals Hbad.
Qed.

End Further.

Section Updates.
Variable threeMonthsFrom : Z → Z.

(** ** Status updates *)

(** The permission check of [updateBookingStatus]. *)
Lemma permission_cases who b s :
  ∃ st, ∀ w,
    (if isHost who then
       hid <- req_host_id who ;;
       when (negb match venue b with
                  | Some v => bool_decide (Some v = hid)
                  | None => false
                  end
             && negb (existsb (λ e, bool_decide (Some (serviceProvider e) = hid))
                        (services b)))
         (reply 401 (ErrorBody "Not authorized to update this booking"))
     else
       uid <- req_user_id who ;;
       when (negb (bool_decide (user b = uid)))
         (reply 401 (ErrorBody "Not authorized to update this booking")) ;;
       when (negb (bool_decide (s = "cancelled")))
         (reply 403 (ErrorBody "Users can only cancel bookings"))) w = (st, w)
    ∧ match st with
      | Next _ => mayUpdate who b s
      | Replied r => code r = 401 ∨ code r = 403
      | Thrown _ => False
      end.
Proof.
  destruct who as [uid|hid]; cbn [mayUpdate isHost].
  - destruct (decide (user b = uid)) as [Hown|Hown].
    + destruct (decide (s = "cancelled")) as [Hs|Hs].
      * exists (Next tt). intros w. cbn [req_user_id]. hstep.
        rewrite !bool_decide_eq_true_2 by done. by split.
      * eexists (Replied _). intros w. cbn [req_user_id]. hstep.
        rewrite bool_decide_eq_true_2, bool_decide_eq_false_2 by done.
        split; [reflexivity|by right].
    + eexists (Replied _). intros w. cbn [req_user_id]. hstep.
      rewrite bool_decide_eq_false_2 by done.
      split; [reflexivity|by left].
  - eexists (Replied _). intros w. unfold req_host_id. hstep.
    rewrite (host_check_denies b None eq_refl).
    split; [reflexivity|by left].
Qed.

Lemma permission_granted who b s w :
  mayUpdate who b s →
  (if isHost who then
     hid <- req_host_id who ;;
     when (negb match venue b with
                | Some v => bool_decide (Some v = hid)
                | None => false
                end
           && negb (existsb (λ e, bool_decide (Some (serviceProvider e) = hid))
                      (services b)))
       (reply 401 (ErrorBody "Not authorized to update this booking"))
   else
     uid <- req_user_id who ;;
     when (negb (bool_decide (user b = uid)))
       (reply 401 (ErrorBody "Not authorized to update this booking")) ;;
     when (negb (bool_decide (s = "cancelled")))
       (reply 403 (ErrorBody "Users can only cancel bookings"))) w = (Next tt, w).
Proof.
  destruct who as [uid|hid]; cbn [mayUpdate isHost]; [|done].
  intros [Hown Hs]. cbn [req_user_id]. hstep.
  by rewrite !bool_decide_eq_true_2.
Qed.

Lemma updateBookingStatus_effect now who raw target w :
  ∃ resp w',
    updateBookingStatus threeMonthsFrom now who raw target w = (resp, w')
    ∧ ((w' = w ∧ code resp ∈ [400; 401; 403; 404; 500])
       ∨ ∃ bid b s l,
           raw = Oid bid ∧ target = Some s ∧ s ∈ validTargets
           ∧ bookingColl w !! bid = Some b
           ∧ mayUpdate who b s
           ∧ code resp ∈ [200; 500]
           ∧ w' = add_outbox l (with_bookings (insert bid (set_status s b)) w)).
Proof.
  unfold updateBookingStatus, try_catch.
  assert (Hleft : ∀ resp, code resp ∈ [400; 401; 403; 404; 500] →
    ∃ resp' w', (resp, w) = (resp', w')
      ∧ ((w' = w ∧ code resp' ∈ [400; 401; 403; 404; 500])
         ∨ ∃ bid b s l,
             raw = Oid bid ∧ target = Some s ∧ s ∈ validTargets
             ∧ bookingColl w !! bid = Some b
             ∧ mayUpdate who b s
             ∧ code resp' ∈ [200; 500]
             ∧ w' = add_outbox l (with_bookings (insert bid (set_status s b)) w))).
  { intros resp Hcode. exists resp, w. split; [done|]. by left. }
  destruct target as [s|]; [|apply Hleft; cbn; in_literals].
  destruct (negb (bool_decide (s = "")) && includes validTargets s) eqn:Hs;
    hstep; [|apply Hleft; cbn; in_literals].
  apply andb_true_iff in Hs as [_ Hs]. apply bool_decide_eq_true_1 in Hs.
  destruct raw as [| |bid]; cbn [Booking_findById]; hstep;
    [apply Hleft; cbn; in_literals..|].
  destruct (bookingColl w !! bid) as [b|] eqn:Hb;
    [|apply Hleft; cbn; in_literals].
  destruct (permission_cases who b s) as (st & Hperm).
  destruct (Hperm w) as [Hrun Hst]. destruct st as [[]|r|e]; [| |done].
  2:{ erewrite bind_replied by exact Hrun. apply Hleft.
      destruct Hst as [-> | ->]; in_literals. }
  erewrite bind_next by exact Hrun. clear Hleft.
  unfold Booking_save.
  destruct (BookingSchema_validate (set_status s b));
    [|do 2 eexists; split; [reflexivity|]; left; split; [done|cbn; in_literals]].
  destruct (pre_save threeMonthsFrom now (set_status s b)) as [e|];
    [do 2 eexists; split; [reflexivity|]; left; split;
       [done|destruct e; cbn; in_literals]|].
  hstep. set (w1 := with_bookings (insert bid (set_status s b)) w).
  assert (Hright : ∀ resp l, code resp ∈ [200; 500] →
    ∃ resp' w', (resp, add_outbox l w1) = (resp', w')
      ∧ ((w' = w ∧ code resp' ∈ [400; 401; 403; 404; 500])
         ∨ ∃ bid' b' s' l',
             Oid bid = Oid bid' ∧ Some s = Some s' ∧ s' ∈ validTargets
             ∧ bookingColl w !! bid' = Some b'
             ∧ mayUpdate who b' s'
             ∧ code resp' ∈ [200; 500]
             ∧ w' = add_outbox l' (with_bookings (insert bid' (set_status s' b')) w))).
  { intros resp l Hcode. do 2 eexists. split; [reflexivity|]. right.
    by exists bid, b, s, l. }
  unfold User_findById. hstep. cbn [set_status user].
  destruct (userColl w1 !! user b) as [u|]; hstep.
  2:{ specialize (Hright serverError []). rewrite add_outbox_nil in Hright.
      apply Hright. cbn. in_literals. }
  rewrite !with_outbox_add, add_outbox_add.
  destruct (bool_decide (s = "cancelled") || bool_decide (s = "completed")).
  2:{ rewrite bind_when_false. apply Hright. cbn. in_literals. }
  rewrite bind_when_true, bind_assoc. cbn [set_status venue services].
  set (lu := ([_] ++ [_])%list).
  assert (Hvenue : ∃ st lv,
    match venue b with
    | Some v => notify_status_venue bid (set_status s b) s v
    | None => ret ()
    end (add_outbox lu w1) = (st, add_outbox lv (add_outbox lu w1))
    ∧ sentOrThrew st).
  { destruct (venue b) as [v|]; [apply notify_host_outcome|].
    exists (Next tt), []. cbn. rewrite add_outbox_nil. split; [done|by left]. }
  destruct Hvenue as (st & lv & Hv & [-> | ->]).
  2:{ erewrite bind_thrown by exact Hv. rewrite add_outbox_add.
      apply Hright. cbn. in_literals. }
  erewrite bind_next by exact Hv. rewrite add_outbox_add.
  destruct (for_each_outcome (notify_status_provider bid (set_status s b) s)
              (statusProviderEmail bid (set_status s b) s)
              (statusProviderSMS bid s) (services b)
              (add_outbox (lu ++ lv) w1) (λ e, eq_refl))
    as (st & lp & Hloop & [-> | ->]).
  2:{ erewrite bind_thrown by exact Hloop. rewrite add_outbox_add.
      apply Hright. cbn. in_literals. }
  erewrite bind_next by exact Hloop. rewrite add_outbox_add.
  apply Hright. cbn. in_literals.
Qed.

(** X8.  Whatever the request, a status update never creates or removes
    a booking and never touches a user, a host or a charge.  Every booking
    keeps its owner, venue, services, event details, customer details,
    payment sub-document and notification flags; at most the booking named
    by the request changes, and then only in its status, to the requested
    one of confirmed, cancelled and completed, on the request of a caller
    who is a party allowed to ask for it. *)
Theorem status_update_frame now who raw target w :
  let result := updateBookingStatus threeMonthsFrom now who raw target w in
  userColl result.2 = userColl w
  ∧ hostColl result.2 = hostColl w
  ∧ charges result.2 = charges w
  ∧ ∀ id,
      match bookingColl w !! id, bookingColl result.2 !! id with
      | Some b, Some b' =>
          b' = set_status (status b') b
          ∧ (status b' = status b
             ∨ (raw = Oid id ∧ target = Some (status b')
                ∧ status b' ∈ validTargets ∧ mayUpdate who b (status b')))
      | None, None => True
      | _, _ => False
      end.
Proof.
  cbn zeta.
  destruct (updateBookingStatus_effect now who raw target w)
    as (resp & w' & -> & [[-> _] | (bid & b & s & l & -> & -> & Hs & Hb & Hmay & _ & ->)]);
    cbn [fst snd].
  - do 3 (split; [done|]). intros id.
    destruct (bookingColl w !! id) as [b|]; [|done].
    split; [by destruct b|by left].
  - do 3 (split; [done|]). intros id. cbn.
    destruct (decide (id = bid)) as [->|Hne].
    + rewrite Hb, lookup_insert_eq. split; [done|]. by right.
    + rewrite lookup_insert_ne by done.
      destruct (bookingColl w !! id) as [b0|]; [|done].
      split; [by destruct b0|by left].
Qed.

(** The user's pair of a status change. *)
Lemma status_update_loses_venue now who id b s u v w :
  bookingColl w !! id = Some b →
  s = "cancelled" ∨ s = "completed" →
  mayUpdate who b s →
  BookingSchema_validate b = [] →
  pre_save threeMonthsFrom now b = None →
  userColl w !! user b = Some u →
  venue b = Some v →
  hostColl w !! v = None →
  updateBookingStatus threeMonthsFrom now who (Oid id) (Some s) w
  = (serverError,
     add_outbox [statusUserEmail id (set_status s b) s (userContact u);
                 statusUserSMS id s (userContact u)]
       (with_bookings (insert id (set_status s b)) w)).
Proof.
  intros Hb Hterm Hmay Hvalid Hpre Hu Hv Hgone.
  assert (Hs : s ∈ validTargets)
    by (destruct Hterm as [-> | ->]; unfold validTargets; in_literals).
  unfold updateBookingStatus, try_catch.
  rewrite (target_check s Hs). hstep. cbn [Booking_findById]. hstep.
  rewrite Hb. cbn beta iota.
  erewrite bind_next by (by apply permission_granted).
  erewrite bind_next.
  2:{ apply Booking_save_ok; [|done].
      by apply validate_set_status, validTargets_statusEnum. }
  set (w1 := with_bookings (insert id (set_status s b)) w).
  unfold User_findById. hstep. cbn [set_status user].
  replace (userColl w1 !! user b) with (Some u) by done. hstep.
  rewrite !with_outbox_add, add_outbox_add.
  replace (bool_decide (s = "cancelled") || bool_decide (s = "completed"))
    with true.
  2:{ destruct Hterm as [-> | ->]; reflexivity. }
  rewrite bind_when_true, bind_assoc. cbn [set_status venue services].
  rewrite Hv. erewrite bind_thrown.
  2:{ unfold notify_status_venue. by apply notify_host_dangling. }
  reflexivity.
Qed.

End Updates.

(** ** Roles, deletions and routes *)

Lemma req_user_role_run who w :
  req_user_role who w
  = (match who with
     | AsUser uid => match userColl w !! uid with
                     | Some u => Next (role u)
                     | None => Thrown TypeError
                     end
     | AsHost _ => Thrown TypeError
     end, w).
Proof.
  destruct who as [uid|hid]; [|reflexivity].
  unfold req_user_role, User_findById. hstep.
  by destruct (userColl w !! uid).
Qed.

(** The [if] that guards the 403 of [deleteBooking]. *)
Lemma delete_denied_run who w :
  orM (ret (isHost who))
      (r <- req_user_role who ;; ret (negb (bool_decide (r = "admin")))) w
  = (match who with
     | AsUser uid => match userColl w !! uid with
                     | Some u => Next (negb (bool_decide (role u = "admin")))
                     | None => Thrown TypeError
                     end
     | AsHost _ => Next true
     end, w).
Proof.
  unfold orM. hstep. destruct who as [uid|hid]; cbn [isHost]; [|reflexivity].
  unfold bind. rewrite req_user_role_run.
  by destruct (userColl w !! uid).
Qed.

Lemma deleteBooking_run who bid b w :
  bookingColl w !! bid = Some b →
  deleteBooking who (Oid bid) w
  = match who with
    | AsUser uid =>
        match userColl w !! uid with
        | Some u => if bool_decide (role u = "admin")
                    then (Success 200 tt, with_bookings (delete bid) w)
                    else (Failure notAuthorizedToDelete, w)
        | None => (Failure serverError, w)
        end
    | AsHost _ => (Failure notAuthorizedToDelete, w)
    end.
Proof.
  intros Hb. unfold deleteBooking, try_catch_with. cbn [Booking_findById]. hstep.
  rewrite Hb. cbn beta iota. unfold bind at 1. rewrite delete_denied_run.
  destruct who as [uid|hid]; [|reflexivity].
  destruct (userColl w !! uid) as [u|]; [|reflexivity].
  by destruct (bool_decide (role u = "admin")).
Qed.

Lemma deleteBooking_missing who raw w :
  match raw with
  | Oid bid => bookingColl w !! bid = None
  | _ => True
  end →
  deleteBooking who raw w = (Failure (notFound "Booking not found"), w).
Proof.
  intros Hraw. unfold deleteBooking, try_catch_with.
  destruct raw as [| |bid]; cbn [Booking_findById]; hstep; [done..|].
  by rewrite Hraw.
Qed.

Lemma getBooking_missing who raw w :
  match raw with
  | Oid bid => bookingColl w !! bid = None
  | _ => True
  end →
  getBooking who raw w = (notFound "Booking not found", w).
Proof.
  intros Hraw. unfold getBooking, try_catch.
  destruct raw as [| |bid]; cbn [Booking_findById]; hstep; [done..|].
  by rewrite Hraw.
Qed.

(** X9.  Only an administrator deletes a booking.  When [deleteBooking]
    answers 200, the caller is a user whose role is admin, and the world
    differs from the one before in exactly the booking named: it is gone,
    a read of it and a second deletion are answered 404, and every other
    booking, the users, the hosts and the logs are as they were.  In every
    other case the answer is 403, 404 or 500 and nothing has changed. *)
Theorem booking_deleted_by_admin_only who raw w :
  let result := deleteBooking who raw w in
  match result.1 with
  | Success c _ =>
      c = 200
      ∧ hasRole w who "admin"
      ∧ ∃ bid,
          raw = Oid bid
          ∧ is_Some (bookingColl w !! bid)
          ∧ result.2 = with_bookings (delete bid) w
          ∧ bookingColl result.2 !! bid = None
          ∧ (∀ id, id ≠ bid → bookingColl result.2 !! id = bookingColl w !! id)
          ∧ (∀ who', getBooking who' raw result.2
                     = (notFound "Booking not found", result.2))
          ∧ deleteBooking who raw result.2
            = (Failure (notFound "Booking not found"), result.2)
  | Failure r => result.2 = w ∧ code r ∈ [403; 404; 500]
  end.
Proof.
  cbn zeta. destruct raw as [| |bid].
  - rewrite deleteBooking_missing by done. cbn. split; [done|in_literals].
  - rewrite deleteBooking_missing by done. cbn. split; [done|in_literals].
  - destruct (bookingColl w !! bid) as [b|] eqn:Hb.
    2:{ rewrite deleteBooking_missing by done. cbn. split; [done|in_literals]. }
    rewrite (deleteBooking_run who bid b w Hb).
    destruct who as [uid|hid]; [|cbn; split; [done|in_literals]].
    destruct (userColl w !! uid) as [u|] eqn:Hu;
      [|cbn; split; [done|in_literals]].
    destruct (bool_decide (role u = "admin")) eqn:Hrole;
      [|cbn; split; [done|in_literals]].
    apply bool_decide_eq_true_1 in Hrole. cbn [fst snd].
    split; [done|]. split; [cbn; by rewrite Hu, <- Hrole|].
    exists bid. split; [done|]. split; [done|]. split; [done|].
    assert (Hgone : bookingColl (with_bookings (delete bid) w) !! bid = None)
      by (cbn; apply lookup_delete_eq).
    split; [exact Hgone|]. split; [|split].
    + intros id Hne. cbn. by apply lookup_delete_ne.
    + intros who'. by apply getBooking_missing.
    + by apply deleteBooking_missing.
Qed.

Section Routing.
Variable threeMonthsFrom : Z → Z.
Variable libraryMessage : Exn → string.

Lemma authorize_run roles who w :
  authorize roles who w
  = (match who with
     | AsHost _ => if includes roles "host" then Next tt
                   else Replied hostRoleRefused
     | AsUser uid =>
         match userColl w !! uid with
         | Some u => if includes roles (role u) then Next tt
                     else Replied (userRoleRefused (role u))
         | None => Thrown TypeError
         end
     end, w).
Proof.
  unfold authorize. destruct who as [uid|hid]; cbn [isHost].
  - unfold bind. rewrite req_user_role_run.
    destruct (userColl w !! uid) as [u|]; [|reflexivity].
    by destruct (includes roles (role u)).
  - by destruct (includes roles "host").
Qed.

(** What a route guarded by [authorize(...roles)] answers. *)
Lemma route_run {R} (failure : Response → R) roles who
    (handler : World → R * World) w :
  route libraryMessage failure (authorize roles who) handler w
  = match who with
    | AsHost _ => if includes roles "host" then handler w
                  else (failure hostRoleRefused, w)
    | AsUser uid =>
        match userColl w !! uid with
        | Some u => if includes roles (role u) then handler w
                    else (failure (userRoleRefused (role u)), w)
        | None => (failure (errorHandler libraryMessage TypeError), w)
        end
    end.
Proof.
  unfold route. rewrite authorize_run. destruct who as [uid|hid].
  - destruct (userColl w !! uid) as [u|]; [|reflexivity].
    by destruct (includes roles (role u)).
  - by destruct (includes roles "host").
Qed.

Lemma includes_singleton (r x : string) :
  includes [r] x = bool_decide (x = r).
Proof.
  unfold includes. apply bool_decide_ext. split.
  - intros H. apply elem_of_cons in H as [H|H]; [done|by apply elem_of_nil in H].
  - intros ->. apply list_elem_of_here.
Qed.

(** X10.  Behind [authorize('user')], the routes that create a booking,
    create a payment intent and confirm a payment let through exactly the
    users whose role is user.  A host is answered 403 by the middleware,
    so the handlers' own replies to hosts are never sent; a user with
    another role, an administrator included, is answered 403 as well; in
    both cases nothing changes.  For a user whose role is user the route
    answers as the handler does. *)
Theorem user_routes_are_for_users_only now newId who req bookingId tx method w :
  let create := POST_bookings threeMonthsFrom libraryMessage now newId who req w in
  let intent :=
    POST_payments_create_payment_intent libraryMessage who bookingId method w in
  let confirm :=
    POST_payments_confirm threeMonthsFrom libraryMessage now who bookingId tx
      method w in
  match who with
  | AsHost _ =>
      create = (hostRoleRefused, w) ∧ intent = (hostRoleRefused, w)
      ∧ confirm = (hostRoleRefused, w)
  | AsUser uid =>
      match userColl w !! uid with
      | Some u =>
          if bool_decide (role u = "user")
          then create = createBooking threeMonthsFrom now newId who req w
               ∧ intent = createPaymentIntent who bookingId method w
               ∧ confirm = confirmPayment threeMonthsFrom now who bookingId tx
                             method w
          else create = (userRoleRefused (role u), w)
               ∧ intent = (userRoleRefused (role u), w)
               ∧ confirm = (userRoleRefused (role u), w)
      | None =>
          create.2 = w ∧ intent.2 = w ∧ confirm.2 = w
          ∧ code create.1 = 500 ∧ code intent.1 = 500 ∧ code confirm.1 = 500
      end
  end.
Proof.
  cbn zeta.
  unfold POST_bookings, POST_payments_create_payment_intent, POST_payments_confirm.
  rewrite !route_run. destruct who as [uid|hid]; [|done].
  destruct (userColl w !! uid) as [u|]; [|done].
  rewrite includes_singleton. by destruct (bool_decide (role u = "user")).
Qed.

(** X11.  The routes that delete.  Behind [authorize('admin')], the
    route that deletes a booking answers 403 to every host and to every
    user whose role is not admin, whether the booking exists or not, and
    changes nothing; for an administrator it answers 404 when the booking
    does not resolve and 200, with the booking removed, otherwise, so the
    handler's own 403 is never sent.  Behind [authorize('host', 'admin')],
    the route that deletes a venue lets every host through to the handler,
    and every user whose role is admin or host; it answers 403 to every
    other user. *)
Theorem delete_routes_guarded_by_role who raw w :
  let booking := DELETE_bookings_id libraryMessage who raw w in
  let venue := DELETE_venues_id libraryMessage who raw w in
  match who with
  | AsHost _ =>
      booking = (Failure hostRoleRefused, w)
      ∧ venue = deleteVenue who raw w
  | AsUser uid =>
      match userColl w !! uid with
      | Some u =>
          booking
          = (if bool_decide (role u = "admin")
             then match raw with
                  | Oid bid =>
                      if bool_decide (is_Some (bookingColl w !! bid))
                      then (Success 200 tt, with_bookings (delete bid) w)
                      else (Failure (notFound "Booking not found"), w)
                  | _ => (Failure (notFound "Booking not found"), w)
                  end
             else (Failure (userRoleRefused (role u)), w))
          ∧ venue
            = (if bool_decide (role u = "host" ∨ role u = "admin")
               then deleteVenue who raw w
               else (Failure (userRoleRefused (role u)), w))
      | None =>
          booking.2 = w ∧ answer_code booking.1 = 500
          ∧ venue.2 = w ∧ answer_code venue.1 = 500
      end
  end.
Proof.
  cbn zeta. unfold DELETE_bookings_id, DELETE_venues_id. rewrite !route_run.
  destruct who as [uid|hid]; [|done].
  destruct (userColl w !! uid) as [u|] eqn:Hu; [|done].
  rewrite includes_singleton. split.
  - destruct (bool_decide (role u = "admin")) eqn:Hrole; [|done].
    destruct raw as [| |bid]; try by apply deleteBooking_missing.
    destruct (bookingColl w !! bid) as [b|] eqn:Hb.
    + rewrite (deleteBooking_run _ bid b w Hb), Hu, Hrole.
      by rewrite bool_decide_eq_true_2.
    + rewrite bool_decide_eq_false_2 by (by intros [? ?]).
      by apply deleteBooking_missing.
  - unfold includes.
    rewrite (bool_decide_ext (role u ∈ ["host"; "admin"])
               (role u = "host" ∨ role u = "admin")); [done|].
    rewrite !elem_of_cons, elem_of_nil. tauto.
Qed.

End Routing.

(** ** Venues and service providers, one at a time *)

Lemma getVenue_run raw w :
  getVenue raw w
  = (match raw with
     | Oid id => match hostColl w !! id with
                 | Some h => if bool_decide (hostType h = "venue")
                             then Success 200 (id, h)
                             else Failure (notFound "Venue not found")
                 | None => Failure (notFound "Venue not found")
                 end
     | _ => Failure (notFound "Venue not found")
     end, w).
Proof.
  unfold getVenue, try_catch_with.
  destruct raw as [| |id]; cbn [Host_findById_raw]; hstep; [done..|].
  unfold Host_findById. hstep.
  destruct (hostColl w !! id) as [h|]; [|done].
  by destruct (bool_decide (hostType h = "venue")).
Qed.

Lemma getServiceProvider_run raw w :
  getServiceProvider raw w
  = (match raw with
     | Oid id => match hostColl w !! id with
                 | Some h => if includes providerTypes (hostType h)
                             then Success 200 (id, h)
                             else Failure (notFound "Service provider not found")
                 | None => Failure (notFound "Service provider not found")
                 end
     | _ => Failure (notFound "Service provider not found")
     end, w).
Proof.
  unfold getServiceProvider, try_catch_with.
  destruct raw as [| |id]; cbn [Host_findById_raw]; hstep; [done..|].
  unfold Host_findById. hstep.
  destruct (hostColl w !! id) as [h|]; [|done].
  unfold providerTypes. by destruct (includes _ (hostType h)).
Qed.



Section Directory.
Variable threeMonthsFrom : Z → Z.
Variable regexTest : string → string → bool.

Lemma matching_spec f w id h :
  (id, h) ∈ matching regexTest f w
  ↔ hostColl w !! id = Some h ∧ matches regexTest f h = true.
Proof.
  unfold matching. rewrite list_elem_of_In, filter_In, <- list_elem_of_In.
  by rewrite elem_of_map_to_list.
Qed.

Lemma pageSlice_subseteq f skip limit w :
  pageSlice regexTest f skip limit w ⊆ matching regexTest f w.
Proof.
  unfold pageSlice. destruct (limit =? 0)%Z.
  - apply subseteq_drop.
  - etrans; [apply subseteq_take|apply subseteq_drop].
Qed.

Lemma listed_run f q w :
  let page := JS.or_default (q_page q) 1 in
  let limit := JS.or_default (q_limit q) 10 in
  listed (try_catch (paginate regexTest f q) catch_500 w).1
  = if ((page - 1) * limit <? 0)%Z then []
    else pageSlice regexTest f ((page - 1) * limit) limit w.
Proof.
  cbn zeta. unfold try_catch. rewrite paginate_run.
  by destruct (_ <? 0)%Z.
Qed.

Lemma listed_stored f q w id h :
  (id, h) ∈ listed (try_catch (paginate regexTest f q) catch_500 w).1 →
  hostColl w !! id = Some h ∧ matches regexTest f h = true.
Proof.
  rewrite listed_run. destruct (_ <? 0)%Z.
  - intros H. by apply elem_of_nil in H.
  - intros H. apply matching_spec. by eapply pageSlice_subseteq.
Qed.

Lemma matches_hostType f h :
  matches regexTest f h = true → hostType h ∈ f_hostType f.
Proof.
  unfold matches, includes. intros H.
  repeat apply andb_true_iff in H as [H _].
  by apply bool_decide_eq_true_1 in H.
Qed.

Lemma providerFilter_types q :
  f_hostType (providerFilter q) ⊆ providerTypes.
Proof.
  unfold providerFilter. cbn [f_hostType].
  destruct (truthy (q_type q)) as [t|]; [|done].
  unfold includes. destruct (bool_decide (t ∈ providerTypes)) eqn:Ht; [|done].
  apply bool_decide_eq_true_1 in Ht. intros x Hx.
  apply elem_of_cons in Hx as [-> | Hx]; [done|by apply elem_of_nil in Hx].
Qed.

Lemma venue_is_no_provider : "venue" ∉ providerTypes.
Proof. intros H. unfold providerTypes in H. not_in_literals H. Qed.

(** X12.  What a listing shows can be fetched.  Every item of a venue
    listing is a stored host of type venue that passes the capacity filter
    of the query, and [getVenue] with its id answers 200 with the same
    document while [getServiceProvider] answers 404; every item of a
    provider listing is a stored caterer, decorator or organizer, whatever
    the [type] parameter asks for, and [getServiceProvider] answers 200
    with it while [getVenue] answers 404. *)
Theorem listed_hosts_read_back q w id h :
  ((id, h) ∈ listed (getVenues regexTest q w).1 →
   hostColl w !! id = Some h
   ∧ hostType h = "venue"
   ∧ (∀ n, q_minCapacity q = Some n →
           ∃ m, maxGuestCapacity h = Some m ∧ (n ≤ m)%Z)
   ∧ getVenue (Oid id) w = (Success 200 (id, h), w)
   ∧ getServiceProvider (Oid id) w
     = (Failure (notFound "Service provider not found"), w))
  ∧ ((id, h) ∈ listed (getServiceProviders regexTest q w).1 →
     hostColl w !! id = Some h
     ∧ hostType h ∈ providerTypes
     ∧ getServiceProvider (Oid id) w = (Success 200 (id, h), w)
     ∧ getVenue (Oid id) w = (Failure (notFound "Venue not found"), w)).
Proof.
  split; intros Hin; apply listed_stored in Hin as [Hh Hm];
    pose proof (matches_hostType _ _ Hm) as Ht.
  - assert (Hvenue : hostType h = "venue").
    { cbn in Ht. apply elem_of_cons in Ht as [Ht|Ht];
        [done|by apply elem_of_nil in Ht]. }
    split; [done|]. split; [done|]. split; [|split].
    + intros n Hn. unfold matches in Hm.
      apply andb_true_iff in Hm as [Hm _]. apply andb_true_iff in Hm as [_ Hm].
      cbn [venueFilter f_maxGuestCapacity_gte] in Hm. rewrite Hn in Hm.
      destruct (maxGuestCapacity h) as [m|]; [|done].
      exists m. split; [done|]. by apply Z.leb_le.
    + rewrite getVenue_run, Hh. by rewrite bool_decide_eq_true_2.
    + rewrite getServiceProvider_run, Hh, Hvenue. reflexivity.
  - apply providerFilter_types in Ht.
    split; [done|]. split; [done|]. split.
    + rewrite getServiceProvider_run, Hh. unfold includes.
      by rewrite bool_decide_eq_true_2.
    + rewrite getVenue_run, Hh. rewrite bool_decide_eq_false_2; [done|].
      intros Hv. rewrite Hv in Ht. by apply venue_is_no_provider.
Qed.

(** *** Pages *)

Lemma firstPages_take f (get : ListQuery → World → Response * World) q l n w :
  (∀ q' w', get q' w' = try_catch (paginate regexTest (f q') q') catch_500 w') →
  (∀ p, f (onPage q p l) = f q) →
  (0 < l)%Z →
  firstPages get q l n w = take (n * Z.to_nat l) (matching regexTest (f q) w).
Proof.
  intros Hget Hf Hl. induction n as [|n IH]; [done|].
  cbn [firstPages]. rewrite IH, Hget, listed_run, Hf.
  cbn [onPage q_page q_limit].
  replace (JS.or_default (Some (Z.of_nat (S n))) 1) with (Z.of_nat (S n))
    by (by destruct n).
  replace (JS.or_default (Some l) 10) with l by (by destruct l).
  replace ((Z.of_nat (S n) - 1) * l)%Z with (Z.of_nat n * l)%Z by lia.
  replace (Z.of_nat n * l <? 0)%Z with false by (symmetry; apply Z.ltb_ge; nia).
  unfold pageSlice. replace (l =? 0)%Z with false by (symmetry; apply Z.eqb_neq; lia).
  replace (Z.to_nat (Z.of_nat n * l)) with (n * Z.to_nat l) by nia.
  replace (Z.to_nat (Z.abs l)) with (Z.to_nat l) by lia.
  rewrite take_take_drop. f_equal. lia.
Qed.

(** X13.  The pages of a listing partition what matches.  For a positive
    limit, the items of pages 1 to [n], one after the other, are the first
    [n * limit] matching hosts in the order of the collection: no host is
    repeated and none is skipped, and once [n * limit] reaches the number
    of matching hosts the pages together are exactly the matching hosts. *)
Theorem pages_partition_the_matches q l n w :
  (0 < l)%Z →
  firstPages (getVenues regexTest) q l n w
  = take (n * Z.to_nat l) (matching regexTest (venueFilter q) w)
  ∧ firstPages (getServiceProviders regexTest) q l n w
    = take (n * Z.to_nat l) (matching regexTest (providerFilter q) w)
  ∧ ((length (matching regexTest (venueFilter q) w) ≤ n * Z.to_nat l)%nat →
     firstPages (getVenues regexTest) q l n w
     = matching regexTest (venueFilter q) w)
  ∧ ((length (matching regexTest (providerFilter q) w) ≤ n * Z.to_nat l)%nat →
     firstPages (getServiceProviders regexTest) q l n w
     = matching regexTest (providerFilter q) w).
Proof.
  intros Hl.
  assert (Hv : firstPages (getVenues regexTest) q l n w
               = take (n * Z.to_nat l) (matching regexTest (venueFilter q) w))
    by (by apply (firstPages_take venueFilter)).
  assert (Hp : firstPages (getServiceProviders regexTest) q l n w
               = take (n * Z.to_nat l) (matching regexTest (providerFilter q) w))
    by (by apply (firstPages_take providerFilter)).
  split; [done|]. split; [done|]. split; intros Hall.
  - rewrite Hv. by apply take_ge.
  - rewrite Hp. by apply take_ge.
Qed.

(** X14.  Pages out of range.  With a positive limit, a negative page
    number makes both listings answer 500, and a page that starts at or
    beyond the number of matching hosts is answered 200 with no items, a
    count of zero and no [next] descriptor. *)
Theorem page_out_of_range q p l w :
  (0 < l)%Z →
  let venues := getVenues regexTest (onPage q p l) w in
  let providers := getServiceProviders regexTest (onPage q p l) w in
  ((p < 0)%Z → venues = (serverError, w) ∧ providers = (serverError, w))
  ∧ ((1 ≤ p)%Z →
     (Z.of_nat (length (matching regexTest (venueFilter q) w)) ≤ (p - 1) * l)%Z →
     ∃ pagination,
       venues = ({| code := 200; body := ListBody 0 pagination [] |}, w)
       ∧ next pagination = None)
  ∧ ((1 ≤ p)%Z →
     (Z.of_nat (length (matching regexTest (providerFilter q) w)) ≤ (p - 1) * l)%Z →
     ∃ pagination,
       providers = ({| code := 200; body := ListBody 0 pagination [] |}, w)
       ∧ next pagination = None).
Proof.
  intros Hl. cbn zeta. unfold getVenues, getServiceProviders, try_catch.
  rewrite !paginate_run. cbn [onPage q_page q_limit].
  change (venueFilter (onPage q p l)) with (venueFilter q).
  change (providerFilter (onPage q p l)) with (providerFilter q).
  replace (JS.or_default (Some l) 10) with l by (by destruct l).
  assert (Hbeyond : ∀ f,
    (1 ≤ p)%Z →
    (Z.of_nat (length (matching regexTest f w)) ≤ (p - 1) * l)%Z →
    JS.or_default (Some p) 1 = p
    ∧ ((p - 1) * l <? 0)%Z = false
    ∧ pageSlice regexTest f ((p - 1) * l) l w = []
    ∧ (p * l <? Z.of_nat (length (matching regexTest f w)))%Z = false).
  { intros f Hp Htotal. split; [by destruct p|].
    split; [apply Z.ltb_ge; nia|]. split; [|apply Z.ltb_ge; nia].
    unfold pageSlice. rewrite drop_ge by lia. rewrite take_nil.
    by destruct (l =? 0)%Z. }
  split; [|split].
  - intros Hp. replace (JS.or_default (Some p) 1) with p by (by destruct p).
    replace ((p - 1) * l <? 0)%Z with true by (symmetry; apply Z.ltb_lt; nia).
    done.
  - intros Hp Htotal.
    destruct (Hbeyond (venueFilter q) Hp Htotal) as (-> & -> & -> & Hnext).
    eexists. split; [reflexivity|]. cbn [next]. by rewrite Hnext.
  - intros Hp Htotal.
    destruct (Hbeyond (providerFilter q) Hp Htotal) as (-> & -> & -> & Hnext).
    eexists. split; [reflexivity|]. cbn [next]. by rewrite Hnext.
Qed.

(** *** Deleting a venue *)


(** ** Notifications that fail after the write *)

(** X16.  A status change is not rolled back when its notifications fail.
    When the venue of a booking no longer resolves, a cancellation or
    completion by a permitted caller is stored, the owner is sent the
    email and the SMS, and the answer is nevertheless 500; the service
    providers are sent nothing.  The permitted caller is the owning user
    asking for a cancellation: the permission check lets no host
    through. *)
Theorem status_change_survives_failed_notice now who id b s u v w :
  bookingColl w !! id = Some b →
  s = "cancelled" ∨ s = "completed" →
  mayUpdate who b s →
  BookingSchema_validate b = [] →
  pre_save threeMonthsFrom now b = None →
  userColl w !! user b = Some u →
  venue b = Some v →
  hostColl w !! v = None →
  let result :=
    updateBookingStatus threeMonthsFrom now who (Oid id) (Some s) w in
  result.1 = serverError
  ∧ bookingColl result.2 !! id = Some (set_status s b)
  ∧ outbox result.2
    = (outbox w ++ [statusUserEmail id (set_status s b) s (userContact u);
                    statusUserSMS id s (userContact u)])%list.
Proof.
  intros Hb Hs Hmay Hvalid Hpre Hu Hv Hgone result. subst result.
  rewrite (status_update_loses_venue threeMonthsFrom now who id b s u v w)
    by done.
  split; [done|]. split; [|done]. cbn. by rewrite lookup_insert_eq.
Qed.

Lemma confirmPayment_loses_venue now uid bid b tx m u v w :
  bookingColl w !! bid = Some b →
  user b = uid →
  isPaid (payment b) = false →
  BookingSchema_validate b = [] →
  m ∈ paymentMethodEnum →
  pre_save threeMonthsFrom now b = None →
  userColl w !! uid = Some u →
  venue b = Some v →
  hostColl w !! v = None →
  let b' := confirm_paid tx now (Some (Some m)) b in
  confirmPayment threeMonthsFrom now (AsUser uid) (Oid bid) tx (Some m) w
  = (serverError,
     add_outbox [paidUserEmail bid b' tx (userContact u);
                 paidUserSMS bid b' tx (userContact u)]
       (with_bookings (insert bid b') w)).
Proof.
  intros Hb Hown Hunpaid Hvalid Hm Hpre Hu Hv Hgone b'.
  unfold confirmPayment, try_catch. cbn [isHost]. hstep.
  cbn [Booking_findById]. hstep. rewrite Hb. cbn beta iota.
  cbn [req_user_id]. hstep.
  rewrite bool_decide_eq_true_2 by done. cbn [negb]. hstep.
  rewrite Hunpaid. hstep. fold b'.
  erewrite bind_next.
  2:{ apply Booking_save_ok; [by apply validate_confirm_paid|done]. }
  set (w1 := with_bookings (insert bid b') w).
  unfold User_findById. hstep.
  replace (userColl w1 !! uid) with (Some u) by done. hstep.
  rewrite !with_outbox_add, add_outbox_add.
  change (venue b') with (venue b). rewrite Hv.
  erewrite bind_thrown.
  2:{ unfold notify_paid_venue. by apply notify_host_dangling. }
  reflexivity.
Qed.

(** X17.  A payment is not rolled back when its notifications fail.  When
    the venue of an unpaid booking no longer resolves, the owner's
    confirmation is stored (paid, confirmed, with the transaction id), the
    owner is sent the email and the SMS, and the answer is nevertheless
    500; neither the venue nor a service provider is notified.  The
    owner's retry is answered 400 "Booking is already paid" and changes
    nothing. *)
Theorem payment_survives_failed_notice now uid bid b tx m u v w :
  bookingColl w !! bid = Some b →
  user b = uid →
  isPaid (payment b) = false →
  BookingSchema_validate b = [] →
  m ∈ paymentMethodEnum →
  pre_save threeMonthsFrom now b = None →
  userColl w !! uid = Some u →
  venue b = Some v →
  hostColl w !! v = None →
  let b' := confirm_paid tx now (Some (Some m)) b in
  let first :=
    confirmPayment threeMonthsFrom now (AsUser uid) (Oid bid) tx (Some m) w in
  first.1 = serverError
  ∧ bookingColl first.2 !! bid = Some b'
  ∧ isPaid (payment b') = true
  ∧ outbox first.2
    = (outbox w ++ [paidUserEmail bid b' tx (userContact u);
                    paidUserSMS bid b' tx (userContact u)])%list
  ∧ ∀ now' tx' m',
      confirmPayment threeMonthsFrom now' (AsUser uid) (Oid bid) tx' m' first.2
      = (alreadyPaid, first.2).
Proof.
  intros Hb Hown Hunpaid Hvalid Hm Hpre Hu Hv Hgone b' first. subst first.
  rewrite (confirmPayment_loses_venue now uid bid b tx m u v w) by done.
  fold b'. cbn [fst snd].
  assert (Hb' : bookingColl
                  (add_outbox [paidUserEmail bid b' tx (userContact u);
                               paidUserSMS bid b' tx (userContact u)]
                     (with_bookings (insert bid b') w)) !! bid = Some b')
    by (cbn; by rewrite lookup_insert_eq).
  split; [done|]. split; [exact Hb'|]. split; [done|]. split; [done|].
  intros now' tx' m'.
  rewrite (confirmPayment_paid threeMonthsFrom now' _ bid b' tx' m' _ Hb')
    by done.
  cbn. by rewrite bool_decide_eq_true_2.
Qed.

(** ** Identifiers that do not resolve *)

Lemma stripeWebhook_missing now type intent raw w :
  match raw with
  | Oid bid => bookingColl w !! bid = None
  | _ => True
  end →
  stripeWebhook threeMonthsFrom now (StripeEvent type intent raw) w
  = (received, w).
Proof.
  intros Hraw. unfold stripeWebhook, try_catch.
  destruct (bool_decide (type = "payment_intent.succeeded")); hstep; [|done].
  destruct raw as [| |bid]; [done| |].
  - unfold swallow. by cbn.
  - unfold swallow, bind. cbn [Booking_findById gets]. by rewrite Hraw.
Qed.

(** X18.  A booking id that is absent, or that names no booking, is
    answered 404 "Booking not found" by the reads, the status update (for
    a valid target), the deletion and, for a user, both payment
    operations.  An id that is not an ObjectId is answered 404 by the
    reads, the status update and the deletion, whose [catch] blocks
    translate the cast error, but 500 by the two payment operations, whose
    [catch] blocks do not.  The provider callback acknowledges the event
    in every case.  Nothing changes. *)
Theorem unresolved_booking_id now who uid raw s tx method type intent w :
  match raw with
  | Oid bid => bookingColl w !! bid = None
  | _ => True
  end →
  s ∈ validTargets →
  let missing := (notFound "Booking not found", w) in
  let payments := (match raw with
                   | Malformed => serverError
                   | _ => notFound "Booking not found"
                   end, w) in
  getBooking who raw w = missing
  ∧ getPaymentDetails who raw w = missing
  ∧ updateBookingStatus threeMonthsFrom now who raw (Some s) w = missing
  ∧ deleteBooking who raw w = (Failure (notFound "Booking not found"), w)
  ∧ createPaymentIntent (AsUser uid) raw method w = payments
  ∧ confirmPayment threeMonthsFrom now (AsUser uid) raw tx method w = payments
  ∧ stripeWebhook threeMonthsFrom now (StripeEvent type intent raw) w
    = (received, w).
Proof.
  intros Hraw Hs. cbn zeta.
  split; [by apply getBooking_missing|].
  split.
  { unfold getPaymentDetails, try_catch.
    destruct raw as [| |bid]; cbn [Booking_findById]; hstep; [done..|].
    by rewrite Hraw. }
  split.
  { unfold updateBookingStatus, try_catch. rewrite (target_check s Hs). hstep.
    destruct raw as [| |bid]; cbn [Booking_findById]; hstep; [done..|].
    by rewrite Hraw. }
  split; [by apply deleteBooking_missing|].
  split.
  { unfold createPaymentIntent, try_catch. cbn [isHost]. hstep.
    destruct raw as [| |bid]; cbn [Booking_findById]; hstep; [done..|].
    by rewrite Hraw. }
  split.
  { unfold confirmPayment, try_catch. cbn [isHost]. hstep.
    destruct raw as [| |bid]; cbn [Booking_findById]; hstep; [done..|].
    by rewrite Hraw. }
  by apply stripeWebhook_missing.
Qed.

End Directory.

(** ** The bookings of a caller *)

Section OwnBookings.
Variable createdAt : ObjectId → Z.

















End OwnBookings.

(** ** What a confirmation can change *)

Section Confirmation.
Variable threeMonthsFrom : Z → Z.

(** X21.  Whatever the request, [confirmPayment] never creates or removes
    a booking and never touches a user, a host or a charge.  At most the
    booking named by the request changes, and only when the caller is its
    owning user and it was not paid: it then differs from the stored one
    in the payment flag, the transaction id, the payment date, the payment
    method and the status, and in nothing else. *)
Theorem confirmation_frame now who raw tx method w :
  let result := confirmPayment threeMonthsFrom now who raw tx method w in
  userColl result.2 = userColl w
  ∧ hostColl result.2 = hostColl w
  ∧ charges result.2 = charges w
  ∧ ∀ id,
      match bookingColl w !! id, bookingColl result.2 !! id with
      | Some b, Some b' =>
          b' = b
          ∨ (raw = Oid id ∧ who = AsUser (user b) ∧ isPaid (payment b) = false
             ∧ b' = confirm_paid tx now (Some method) b
             ∧ (user b', venue b', services b', eventDetails b',
                customerDetails b', notifications b')
               = (user b, venue b, services b, eventDetails b,
                  customerDetails b, notifications b)
             ∧ (totalAmount (payment b'), advanceAmount (payment b'),
                remainingAmount (payment b'))
               = (totalAmount (payment b), advanceAmount (payment b),
                  remainingAmount (payment b)))
      | None, None => True
      | _, _ => False
      end.
Proof.
  cbn zeta.
  assert (Hsame : ∀ resp,
    confirmPayment threeMonthsFrom now who raw tx method w = (resp, w) →
    userColl (confirmPayment threeMonthsFrom now who raw tx method w).2 = userColl w
    ∧ hostColl (confirmPayment threeMonthsFrom now who raw tx method w).2 = hostColl w
    ∧ charges (confirmPayment threeMonthsFrom now who raw tx method w).2 = charges w
    ∧ ∀ id,
        match bookingColl w !! id,
              bookingColl (confirmPayment threeMonthsFrom now who raw tx method w).2
                !! id with
        | Some b, Some b' =>
            b' = b
            ∨ (raw = Oid id ∧ who = AsUser (user b) ∧ isPaid (payment b) = false
               ∧ b' = confirm_paid tx now (Some method) b
               ∧ (user b', venue b', services b', eventDetails b',
                  customerDetails b', notifications b')
                 = (user b, venue b, services b, eventDetails b,
                    customerDetails b, notifications b)
               ∧ (totalAmount (payment b'), advanceAmount (payment b'),
                  remainingAmount (payment b'))
                 = (totalAmount (payment b), advanceAmount (payment b),
                    remainingAmount (payment b)))
        | None, None => True
        | _, _ => False
        end).
  { intros resp ->. cbn [snd]. do 3 (split; [done|]). intros id.
    destruct (bookingColl w !! id); [by left|done]. }
  destruct who as [uid|hid]; [|by eapply Hsame].
  destruct raw as [| |bid]; [by eapply Hsame..|].
  destruct (bookingColl w !! bid) as [b|] eqn:Hb.
  2:{ eapply Hsame. unfold confirmPayment, try_catch. cbn [isHost]. hstep.
      cbn [Booking_findById]. hstep. by rewrite Hb. }
  destruct (decide (user b = uid)) as [Hown|Hown].
  2:{ eapply Hsame. by apply (confirmPayment_not_owner _ now uid bid b). }
  destruct (isPaid (payment b)) eqn:Hpaid.
  { eapply Hsame. by apply (confirmPayment_paid _ now _ bid b). }
  clear Hsame.
  destruct (confirmPayment_effect threeMonthsFrom now (AsUser uid) (Oid bid) tx
              method w) as [[Hw _] | (bid' & b' & l & [= <-] & Hb' & Hw & _)].
  - rewrite Hw. do 3 (split; [done|]). intros id.
    destruct (bookingColl w !! id); [by left|done].
  - rewrite Hw. rewrite Hb in Hb'. injection Hb' as <-.
    do 3 (split; [done|]). intros id. cbn.
    destruct (decide (id = bid)) as [->|Hne].
    + rewrite Hb, lookup_insert_eq. right. subst uid. by repeat split.
    + rewrite lookup_insert_ne by done.
      destruct (bookingColl w !! id); [by left|done].
Qed.

End Confirmation.

(** * The further statements at the concrete marketplace *)

Lemma webhook_before_confirmation_witness :
  bookingColl Scenario.world !! "b1" = Some Scenario.pendingBooking
  ∧ isPaid (payment Scenario.pendingBooking) = false
  ∧ let first :=
      stripeWebhook Scenario.threeMonths Scenario.now
        (StripeEvent "payment_intent.succeeded" "pi_1" (Oid "b1")) Scenario.world in
    first.1 = received
    ∧ outbox first.2 = []
    ∧ confirmPayment Scenario.threeMonths Scenario.now (AsUser "u1") (Oid "b1")
        (Some "tx1") (Some "upi") first.2
      = (alreadyPaid, first.2).
Proof.
  assert (Hb : bookingColl Scenario.world !! "b1" = Some Scenario.pendingBooking)
    by reflexivity.
  split; [exact Hb|]. split; [reflexivity|].
  destruct (webhook_before_confirmation Scenario.threeMonths Scenario.now "pi_1"
              "b1" Scenario.pendingBooking Scenario.world Hb eq_refl eq_refl eq_refl)
    as (Hresp & _ & _ & Hout & Hsecond).
  cbn zeta. split; [exact Hresp|]. split; [exact Hout|].
  exact (proj1 (Hsecond Scenario.now (Some "tx1") (Some "upi"))).
Defined.

Lemma catered_request_acceptable :
  acceptable Scenario.threeMonths Scenario.now "b9" "u1" Cases.cateredRequest
    Cases.weddingDay Scenario.advance Scenario.asha Scenario.world.
Proof.
  split; [reflexivity|]. split; [by vm_compute|]. split; [reflexivity|].
  split; [exists Scenario.lawn; by repeat split|].
  split; [|by repeat split].
  repeat constructor. exists "h2", Scenario.caterer. by repeat split.
Defined.

Lemma prepaid_request_acceptable :
  acceptable Scenario.threeMonths Scenario.now "b9" "u1" Cases.prepaidRequest
    Cases.weddingDay Cases.prepaid Scenario.asha Scenario.world.
Proof.
  split; [reflexivity|]. split; [by vm_compute|]. split; [reflexivity|].
  split; [exists Scenario.lawn; by repeat split|].
  split; [|by repeat split].
  repeat constructor. exists "h2", Scenario.caterer. by repeat split.
Defined.

Lemma booking_created_witness :
  ∃ b,
    createBooking Scenario.threeMonths Scenario.now "b9" (AsUser "u1")
      Cases.cateredRequest Scenario.world
    = ({| code := 201; body := BookingBody b |},
       add_outbox (newFanout Scenario.world "b9" Scenario.wedding b Scenario.asha)
         (with_bookings (insert "b9" b) Scenario.world))
    ∧ status b = "pending"
    ∧ eventDetails b = Scenario.wedding
    ∧ payment b = Scenario.advance
    ∧ length (newFanout Scenario.world "b9" Scenario.wedding b Scenario.asha) = 6.
Proof.
  destruct (booking_created Scenario.threeMonths Scenario.now "b9" "u1"
              Cases.cateredRequest Cases.weddingDay Scenario.advance Scenario.asha
              Scenario.world
              catered_request_acceptable)
    as (b & Hrun & _ & _ & Hstatus & _ & Hev & Hpay & Hv & Hs & Hlen).
  exists b. split; [exact Hrun|]. split; [exact Hstatus|]. split; [exact Hev|].
  split; [exact Hpay|].
  change (shownEvent Cases.weddingDay) with Scenario.wedding in Hlen.
  rewrite Hlen, Hv, Hs. reflexivity.
Defined.

Lemma created_booking_reads_back_witness :
  ∃ b,
    let created :=
      createBooking Scenario.threeMonths Scenario.now "b9" (AsUser "u1")
        Cases.cateredRequest Scenario.world in
    created.1 = {| code := 201; body := BookingBody b |}
    ∧ getBooking (AsUser "u1") (Oid "b9") created.2
      = ({| code := 200; body := populated created.2 b |}, created.2)
    ∧ getPaymentDetails (AsUser "u1") (Oid "b9") created.2
      = ({| code := 200; body := PaymentBody Scenario.advance |}, created.2).
Proof.
  exact (created_booking_reads_back Scenario.threeMonths Scenario.now "b9" "u1"
           Cases.cateredRequest Cases.weddingDay Scenario.advance Scenario.asha
           Scenario.world
           catered_request_acceptable
           (AsUser "u1")).
Defined.

Lemma prepaid_booking_takes_no_payment_witness :
  isPaid Cases.prepaid = true
  ∧ let created :=
      createBooking Scenario.threeMonths Scenario.now "b9" (AsUser "u1")
        Cases.prepaidRequest Scenario.world in
    code created.1 = 201
    ∧ (status <$> bookingColl created.2 !! "b9") = Some "pending"
    ∧ confirmPayment Scenario.threeMonths Scenario.now (AsUser "u1") (Oid "b9")
        (Some "tx1") (Some "upi") created.2
      = (alreadyPaid, created.2).
Proof.
  split; [reflexivity|].
  destruct (prepaid_booking_takes_no_payment Scenario.threeMonths Scenario.now
              "b9" "u1" Cases.prepaidRequest Cases.weddingDay Cases.prepaid
              Scenario.asha Scenario.world
              prepaid_request_acceptable
              eq_refl)
    as (Hcode & Hstatus & _ & Hafter).
  cbn zeta. split; [exact Hcode|]. split; [exact Hstatus|].
  exact (proj1 (Hafter Scenario.now (Some "tx1") (Some "upi") "" "")).
Defined.

Lemma booking_needs_venue_or_service_witness :
  cb_venue (Scenario.request Absent 10) = Absent
  ∧ cb_services (Scenario.request Absent 10) = None
  ∧ ∃ messages,
      createBooking Scenario.threeMonths Scenario.now "b9" (AsUser "u1")
        (Scenario.request Absent 10) Scenario.world
      = ({| code := 400; body := ErrorsBody messages |}, Scenario.world)
      ∧ "Path `venue` is required." ∈ messages.
Proof.
  split; [reflexivity|]. split; [reflexivity|].
  apply (booking_needs_venue_or_service Scenario.threeMonths Scenario.now "b9"
           "u1" (Scenario.request Absent 10) _ Scenario.world eq_refl
           (or_introl eq_refl) eq_refl).
  by vm_compute.
Defined.

(** The venue listing of the marketplace shows the lawn, which reads
    back. *)
Lemma listed_hosts_read_back_witness :
  ("h1", Scenario.lawn)
  ∈ listed (getVenues Scenario.literalRegex (onPage Scenario.pageTwo 1 10)
              Scenario.world).1
  ∧ getVenue (Oid "h1") Scenario.world
    = (Success 200 ("h1", Scenario.lawn), Scenario.world)
  ∧ getServiceProvider (Oid "h1") Scenario.world
    = (Failure (notFound "Service provider not found"), Scenario.world).
Proof.
  assert (Hin : ("h1", Scenario.lawn)
                ∈ listed (getVenues Scenario.literalRegex
                            (onPage Scenario.pageTwo 1 10) Scenario.world).1)
    by (vm_compute; apply list_elem_of_here).
  split; [exact Hin|].
  destruct (listed_hosts_read_back Scenario.literalRegex
              (onPage Scenario.pageTwo 1 10) Scenario.world "h1" Scenario.lawn)
    as [Hvenue _].
  destruct (Hvenue Hin) as (_ & _ & _ & Hread & Hother). by split.
Defined.

Lemma pages_partition_the_matches_witness :
  (0 < 10)%Z
  ∧ length (matching Scenario.literalRegex (venueFilter Scenario.pageTwo)
              Scenario.directory) = 15
  ∧ firstPages (getVenues Scenario.literalRegex) Scenario.pageTwo 10 2
      Scenario.directory
    = matching Scenario.literalRegex (venueFilter Scenario.pageTwo)
        Scenario.directory.
Proof.
  assert (Hl : (0 < 10)%Z) by lia.
  assert (Htotal : length (matching Scenario.literalRegex
                             (venueFilter Scenario.pageTwo) Scenario.directory) = 15)
    by (vm_compute; reflexivity).
  split; [exact Hl|]. split; [exact Htotal|].
  destruct (pages_partition_the_matches Scenario.literalRegex Scenario.pageTwo 10 2
              Scenario.directory Hl) as (_ & _ & Hall & _).
  apply Hall. rewrite Htotal. vm_compute. lia.
Defined.

Lemma page_out_of_range_witness :
  (0 < 10)%Z
  ∧ getVenues Scenario.literalRegex (onPage Scenario.pageTwo (-1) 10)
      Scenario.directory
    = (serverError, Scenario.directory)
  ∧ ∃ pagination,
      getVenues Scenario.literalRegex (onPage Scenario.pageTwo 3 10)
        Scenario.directory
      = ({| code := 200; body := ListBody 0 pagination [] |}, Scenario.directory)
      ∧ next pagination = None.
Proof.
  assert (Hl : (0 < 10)%Z) by lia.
  split; [exact Hl|].
  split.
  - destruct (page_out_of_range Scenario.literalRegex Scenario.pageTwo (-1) 10
                Scenario.directory Hl) as (Hneg & _).
    apply Hneg. lia.
  - destruct (page_out_of_range Scenario.literalRegex Scenario.pageTwo 3 10
                Scenario.directory Hl) as (_ & Hbeyond & _).
    apply Hbeyond; [lia|]. vm_compute. discriminate.
Defined.

(** The administrator deletes the record of the venue host [h1]; the
    bookings stay.  The host itself is answered 401. *)
Example venue_leaves :
  deleteVenue (AsUser "a1") (Oid "h1") Cases.staffed
  = (Success 200 tt, with_hosts (delete "h1") Cases.staffed)
  ∧ hostColl Cases.afterVenueLeft !! "h1" = None
  ∧ bookingColl Cases.afterVenueLeft = bookingColl Scenario.world
  ∧ deleteVenue (AsHost "h1") (Oid "h1") Scenario.world
    = (Failure notAuthorizedToDeleteVenue, Scenario.world).
Proof. by vm_compute. Qed.

Lemma status_change_survives_failed_notice_witness :
  bookingColl Cases.afterVenueLeft !! "b1" = Some Scenario.pendingBooking
  ∧ hostColl Cases.afterVenueLeft !! "h1" = None
  ∧ let result :=
      updateBookingStatus Scenario.threeMonths Scenario.now (AsUser "u1")
        (Oid "b1") (Some "cancelled") Cases.afterVenueLeft in
    result.1 = serverError
    ∧ (status <$> bookingColl result.2 !! "b1") = Some "cancelled"
    ∧ length (outbox result.2) = 2.
Proof.
  assert (Hb : bookingColl Cases.afterVenueLeft !! "b1"
               = Some Scenario.pendingBooking) by reflexivity.
  assert (Hgone : hostColl Cases.afterVenueLeft !! "h1" = None) by reflexivity.
  split; [exact Hb|]. split; [exact Hgone|].
  destruct (status_change_survives_failed_notice Scenario.threeMonths Scenario.now
              (AsUser "u1") "b1" Scenario.pendingBooking "cancelled" Scenario.asha
              "h1" Cases.afterVenueLeft Hb (or_introl eq_refl)
              (conj eq_refl eq_refl) eq_refl eq_refl eq_refl eq_refl Hgone)
    as (Hresp & Hstored & Hout).
  cbn zeta. split; [exact Hresp|].
  split; [exact (eq_trans (f_equal (fmap status) Hstored) eq_refl)|].
  rewrite Hout. reflexivity.
Defined.

Lemma payment_survives_failed_notice_witness :
  bookingColl Cases.afterVenueLeft !! "b1" = Some Scenario.pendingBooking
  ∧ hostColl Cases.afterVenueLeft !! "h1" = None
  ∧ let first :=
      confirmPayment Scenario.threeMonths Scenario.now (AsUser "u1") (Oid "b1")
        (Some "tx1") (Some "upi") Cases.afterVenueLeft in
    first.1 = serverError
    ∧ (isPaid ∘ payment <$> bookingColl first.2 !! "b1") = Some true
    ∧ length (outbox first.2) = 2
    ∧ confirmPayment Scenario.threeMonths Scenario.now (AsUser "u1") (Oid "b1")
        (Some "tx1") (Some "upi") first.2
      = (alreadyPaid, first.2).
Proof.
  assert (Hb : bookingColl Cases.afterVenueLeft !! "b1"
               = Some Scenario.pendingBooking) by reflexivity.
  assert (Hgone : hostColl Cases.afterVenueLeft !! "h1" = None) by reflexivity.
  split; [exact Hb|]. split; [exact Hgone|].
  assert (Hm : "upi" ∈ paymentMethodEnum) by (unfold paymentMethodEnum; in_literals).
  destruct (payment_survives_failed_notice Scenario.threeMonths Scenario.now "u1"
              "b1" Scenario.pendingBooking (Some "tx1") "upi" Scenario.asha "h1"
              Cases.afterVenueLeft Hb eq_refl eq_refl eq_refl Hm eq_refl eq_refl
              eq_refl Hgone)
    as (Hresp & Hstored & _ & Hout & Hretry).
  cbn zeta. split; [exact Hresp|].
  split; [exact (eq_trans (f_equal (fmap (isPaid ∘ payment)) Hstored) eq_refl)|].
  split; [rewrite Hout; reflexivity|].
  exact (Hretry Scenario.now (Some "tx1") (Some "upi")).
Defined.

Lemma unresolved_booking_id_witness :
  bookingColl Scenario.world !! "b0" = None
  ∧ getBooking (AsUser "u1") (Oid "b0") Scenario.world
    = (notFound "Booking not found", Scenario.world)
  ∧ confirmPayment Scenario.threeMonths Scenario.now (AsUser "u1") Malformed
      (Some "tx1") (Some "upi") Scenario.world
    = (serverError, Scenario.world)
  ∧ updateBookingStatus Scenario.threeMonths Scenario.now (AsUser "u1") Malformed
      (Some "cancelled") Scenario.world
    = (notFound "Booking not found", Scenario.world).
Proof.
  assert (Hs : "cancelled" ∈ validTargets) by (unfold validTargets; in_literals).
  assert (Hb : bookingColl Scenario.world !! "b0" = None) by reflexivity.
  split; [exact Hb|].
  destruct (unresolved_booking_id Scenario.threeMonths Scenario.now (AsUser "u1")
              "u1" (Oid "b0") "cancelled" (Some "tx1") (Some "upi") "" ""
              Scenario.world Hb Hs) as (Hread & _).
  destruct (unresolved_booking_id Scenario.threeMonths Scenario.now (AsUser "u1")
              "u1" Malformed "cancelled" (Some "tx1") (Some "upi") "" ""
              Scenario.world I Hs) as (_ & _ & Hupdate & _ & _ & Hconfirm & _).
  split; [exact Hread|]. split; [exact Hconfirm|exact Hupdate].
Defined.


(** The caterer [h2] provides for the three bookings of the marketplace
    and is shown none of them; the decorator [h3] is shown the booking
    [b4], of which it is no party. *)
Example hosts_are_shown_bookings_without_venue :
  match (getBookings Cases.createdAt (AsHost "h2") (everything 10)
           Scenario.world).1 with
  | Success c page => c = 200 ∧ bp_count page = 0
  | Failure _ => False
  end
  ∧ match (getBookings Cases.createdAt (AsHost "h3") (everything 10)
             Cases.withCateringOnly).1 with
    | Success c page => c = 200 ∧ map pb_id (bp_data page) = ["b4"]
    | Failure _ => False
    end.
Proof. by vm_compute. Qed.

(** The three bookings of [u1], newest first. *)
Example own_bookings_newest_first :
  match (getBookings Cases.createdAt (AsUser "u1") (everything 10)
           Scenario.world).1 with
  | Success c page => c = 200 ∧ map pb_id (bp_data page) = ["b3"; "b2"; "b1"]
  | Failure _ => False
  end.
Proof. by vm_compute. Qed.

(** An administrator deletes the cancelled booking; its owner cannot. *)
Example admin_deletes_a_booking :
  deleteBooking (AsUser "a1") (Oid "b2") Cases.staffed
  = (Success 200 tt, with_bookings (delete "b2") Cases.staffed)
  ∧ deleteBooking (AsUser "u1") (Oid "b2") Cases.staffed
    = (Failure notAuthorizedToDelete, Cases.staffed).
Proof. by vm_compute. Qed.
